(** * Console-Based-Editor: a shallow embedding of the command engine

    The Python program keeps one mutable dictionary [state] and threads it
    through every handler.  Here the dictionary is a record, each handler is
    a function from the record to a [result] (Python exceptions are values of
    the result type) and mutation is explicit state passing.  Python integers
    are [Z]; indexing and slicing follow Python's rules for negative and
    out-of-range indices.  Strings are sequences of code points below 256. *)

From Stdlib Require Import ZArith List String Ascii Bool Lia.
Import ListNotations.

Local Open Scope string_scope.
Local Open Scope list_scope.
Local Open Scope Z_scope.

(* ================================================================== *)
(** ** Outcomes of Python code *)

Inductive exn : Type :=
| IndexError
| TypeError.

(** [OutOfFuel] is the only outcome that does not exist in Python: it marks
    a run of the model that was given too small a recursion budget. *)
Inductive result (A : Type) : Type :=
| Ok (a : A)
| Raise (e : exn)
| OutOfFuel.

Arguments Ok {A} a.
Arguments Raise {A} e.
Arguments OutOfFuel {A}.

Definition bind {A B : Type} (m : result A) (k : A -> result B) : result B :=
  match m with
  | Ok a => k a
  | Raise e => Raise e
  | OutOfFuel => OutOfFuel
  end.

Notation "x <- m ;; k" := (bind m (fun x => k))
  (at level 61, m at next level, right associativity).

(* ================================================================== *)
(** ** Python sequences *)

Module Py.

(** [len(s)] for a string. *)
Definition len (s : string) : Z := Z.of_nat (String.length s).

(** [len(l)] for a list. *)
Definition llen {A : Type} (l : list A) : Z := Z.of_nat (List.length l).

Fixpoint take (n : nat) (s : string) : string :=
  match n, s with
  | O, _ => EmptyString
  | S _, EmptyString => EmptyString
  | S n', String c s' => String c (take n' s')
  end.

Fixpoint drop (n : nat) (s : string) : string :=
  match n, s with
  | O, _ => s
  | S _, EmptyString => EmptyString
  | S n', String _ s' => drop n' s'
  end.

(** The position a slice bound [i] denotes in a sequence of length [n]:
    negative bounds count from the end, and every bound is clipped to
    [0..n]. *)
Definition slice_bound (n i : Z) : nat :=
  Z.to_nat (if i <? 0 then Z.max 0 (n + i) else Z.min i n).

(** The position an index [i] denotes in a sequence of length [n], when
    there is one: [-n <= i < n]. *)
Definition index (n i : Z) : option nat :=
  if i <? 0 then (if 0 <=? n + i then Some (Z.to_nat (n + i)) else None)
  else if i <? n then Some (Z.to_nat i) else None.

(** [s[:i]] *)
Definition upto (s : string) (i : Z) : string := take (slice_bound (len s) i) s.

(** [s[i:]] *)
Definition from (s : string) (i : Z) : string := drop (slice_bound (len s) i) s.

(** [s[i]] *)
Definition char_at (s : string) (i : Z) : result ascii :=
  match index (len s) i with
  | Some k => match String.get k s with Some c => Ok c | None => Raise IndexError end
  | None => Raise IndexError
  end.

(** [l[i]] *)
Definition getitem {A : Type} (l : list A) (i : Z) : result A :=
  match index (llen l) i with
  | Some k => match nth_error l k with Some x => Ok x | None => Raise IndexError end
  | None => Raise IndexError
  end.

(** [l[i] = v] *)
Definition setitem {A : Type} (l : list A) (i : Z) (v : A) : result (list A) :=
  match index (llen l) i with
  | Some k => Ok (firstn k l ++ v :: skipn (S k) l)
  | None => Raise IndexError
  end.

(** [del l[i]] *)
Definition delitem {A : Type} (l : list A) (i : Z) : result (list A) :=
  match index (llen l) i with
  | Some k => Ok (firstn k l ++ skipn (S k) l)
  | None => Raise IndexError
  end.

(** [l.insert(i, v)]: the index is a slice bound, so it never raises. *)
Definition insert {A : Type} (l : list A) (i : Z) (v : A) : list A :=
  let k := slice_bound (llen l) i in firstn k l ++ v :: skipn k l.

(** [l.append(v)] *)
Definition append {A : Type} (l : list A) (v : A) : list A := l ++ [v].

(** [l[-1]] on a list known to be non-empty, [None] on the empty list. *)
Fixpoint last_item {A : Type} (l : list A) : option A :=
  match l with
  | [] => None
  | [x] => Some x
  | _ :: l' => last_item l'
  end.

(** [l.pop()]: the last element and the list without it. *)
Definition pop {A : Type} (l : list A) : option (A * list A) :=
  match last_item l with
  | Some x => Some (x, removelast l)
  | None => None
  end.

(** [ch.isspace()] on the code points below 256: the ASCII controls
    9..13 and 28..31, the space, NEL (133) and the no-break space (160). *)
Definition isspace (c : ascii) : bool :=
  let n := nat_of_ascii c in
  ((9 <=? n) && (n <=? 13) || (28 <=? n) && (n <=? 31)
   || (n =? 32) || (n =? 133) || (n =? 160))%nat.

(** Truth value of a string and of a list. *)
Definition str_truthy (s : string) : bool :=
  match s with EmptyString => false | _ => true end.

Definition list_truthy {A : Type} (l : list A) : bool :=
  match l with [] => false | _ => true end.

(** [c in xs] for a set or list of strings. *)
Definition mem (c : string) (xs : list string) : bool :=
  existsb (String.eqb c) xs.

End Py.

(* ================================================================== *)
(** ** The editor state *)

(** One entry of [state['undo_stack']]. *)
Record snapshot : Type := mkSnapshot {
  snap_content : list string;
  snap_current_line : Z;
  snap_current_row : Z;
  snap_show_line_cursor : bool;
  snap_show_row_cursor : bool;
  snap_clipboard : option string
}.

(** One entry of [state['command_history']]: a verb and its argument. *)
Definition command : Type := (string * option string)%type.

Record state : Type := mkState {
  cursor_highlight : string;
  cursor_reset : string;
  content : list string;
  current_line : Z;
  current_row : Z;
  show_line_cursor : bool;
  show_row_cursor : bool;
  clipboard : option string;
  undo_stack : list snapshot;
  command_history : list command
}.

Definition set_content (s : state) (v : list string) : state :=
  mkState (cursor_highlight s) (cursor_reset s) v (current_line s) (current_row s)
          (show_line_cursor s) (show_row_cursor s) (clipboard s)
          (undo_stack s) (command_history s).

Definition set_current_line (s : state) (v : Z) : state :=
  mkState (cursor_highlight s) (cursor_reset s) (content s) v (current_row s)
          (show_line_cursor s) (show_row_cursor s) (clipboard s)
          (undo_stack s) (command_history s).

Definition set_current_row (s : state) (v : Z) : state :=
  mkState (cursor_highlight s) (cursor_reset s) (content s) (current_line s) v
          (show_line_cursor s) (show_row_cursor s) (clipboard s)
          (undo_stack s) (command_history s).

Definition set_show_line_cursor (s : state) (v : bool) : state :=
  mkState (cursor_highlight s) (cursor_reset s) (content s) (current_line s)
          (current_row s) v (show_row_cursor s) (clipboard s)
          (undo_stack s) (command_history s).

Definition set_show_row_cursor (s : state) (v : bool) : state :=
  mkState (cursor_highlight s) (cursor_reset s) (content s) (current_line s)
          (current_row s) (show_line_cursor s) v (clipboard s)
          (undo_stack s) (command_history s).

Definition set_clipboard (s : state) (v : option string) : state :=
  mkState (cursor_highlight s) (cursor_reset s) (content s) (current_line s)
          (current_row s) (show_line_cursor s) (show_row_cursor s) v
          (undo_stack s) (command_history s).

Definition set_undo_stack (s : state) (v : list snapshot) : state :=
  mkState (cursor_highlight s) (cursor_reset s) (content s) (current_line s)
          (current_row s) (show_line_cursor s) (show_row_cursor s) (clipboard s)
          v (command_history s).

Definition set_command_history (s : state) (v : list command) : state :=
  mkState (cursor_highlight s) (cursor_reset s) (content s) (current_line s)
          (current_row s) (show_line_cursor s) (show_row_cursor s) (clipboard s)
          (undo_stack s) v.

(** [state['command_history'].append(c)] *)
Definition record_command (s : state) (c : command) : state :=
  set_command_history s (Py.append (command_history s) c).

(** [state['command_history'].pop()] on a non-empty history; the callers
    test for emptiness first, and [removelast] leaves [[]] alone. *)
Definition drop_command (s : state) : state :=
  set_command_history s (removelast (command_history s)).

Definition esc : string := String (ascii_of_nat 27) EmptyString.

Definition initialize_state : state :=
  {| cursor_highlight := (esc ++ "[42m")%string;
     cursor_reset := (esc ++ "[0m")%string;
     content := [];
     current_line := 0;
     current_row := 0;
     show_line_cursor := false;
     show_row_cursor := false;
     clipboard := None;
     undo_stack := [];
     command_history := [] |}.

(** The dictionary [save_state] pushes. *)
Definition snapshot_of (s : state) : snapshot :=
  {| snap_content := content s;
     snap_current_line := current_line s;
     snap_current_row := current_row s;
     snap_show_line_cursor := show_line_cursor s;
     snap_show_row_cursor := show_row_cursor s;
     snap_clipboard := clipboard s |}.

Definition save_state (s : state) : state :=
  set_undo_stack s (Py.append (undo_stack s) (snapshot_of s)).

Definition restore_state (s : state) (saved : snapshot) : state :=
  mkState (cursor_highlight s) (cursor_reset s)
          (snap_content saved) (snap_current_line saved) (snap_current_row saved)
          (snap_show_line_cursor saved) (snap_show_row_cursor saved)
          (snap_clipboard saved)
          (undo_stack s) (command_history s).

(* ================================================================== *)
(** ** Cursor model *)

Definition clamp_cursor (s : state) : result state :=
  let line_count := Py.llen (content s) in
  let s1 := set_current_line s
              (if 0 <? line_count
               then Z.max 0 (Z.min (current_line s) (line_count - 1))
               else 0) in
  line_length <-
    (if Py.list_truthy (content s1) && (current_line s1 <? line_count)
     then (line <- Py.getitem (content s1) (current_line s1) ;; Ok (Py.len line))
     else Ok 0) ;;
  Ok (set_current_row s1
        (Z.max 0 (Z.min (current_row s1)
                        (if 0 <? line_length then line_length - 1 else 0)))).

(* ================================================================== *)
(** ** Command parser *)

(** [c.startswith(p)] *)
Definition startswith (c p : string) : bool := String.prefix p c.

Definition parse_command (cmd : string) : option string * option string :=
  let patterns : list ((string -> bool) * (string -> option string * option string)) :=
    [ (fun c => Py.mem c ["?"; "."; ";"; "h"; "j"; "k"; "l"; "^"; "$"; "x"; "s"; "q"; "w"; "b"],
       fun c => (Some c, None));
      (fun c => Py.mem c ["dw"; "yy"; "dd"; "p"; "P"; "o"; "O"],
       fun c => (Some c, None));
      (fun c => startswith c "i",
       fun c => if 1 <? Py.len c then (Some "i", Some (Py.from c 1)) else (None, None));
      (fun c => startswith c "a",
       fun c => if 1 <? Py.len c then (Some "a", Some (Py.from c 1)) else (None, None));
      (fun c => Py.mem c ["u"; "r"],
       fun c => (Some c, None)) ] in
  match find (fun p => fst p cmd) patterns with
  | Some (_, handler) => handler cmd
  | None => (None, None)
  end.

(* ================================================================== *)
(** ** Word-boundary scanner *)

(** [while pos < len(line) and test(line[pos]): pos += 1].  The loop runs
    at most [len(line) - pos] times; [fuel] bounds the iterations. *)
Fixpoint scan_forward (fuel : nat) (test : ascii -> bool) (line : string) (pos : Z)
  : result Z :=
  match fuel with
  | O => OutOfFuel
  | S fuel' =>
      if pos <? Py.len line then
        ch <- Py.char_at line pos ;;
        if test ch then scan_forward fuel' test line (pos + 1) else Ok pos
      else Ok pos
  end.

(** [while pos > 0 and test(line[pos-1]): pos -= 1], at most [pos] times. *)
Fixpoint scan_backward (fuel : nat) (test : ascii -> bool) (line : string) (pos : Z)
  : result Z :=
  match fuel with
  | O => OutOfFuel
  | S fuel' =>
      if 0 <? pos then
        ch <- Py.char_at line (pos - 1) ;;
        if test ch then scan_backward fuel' test line (pos - 1) else Ok pos
      else Ok pos
  end.

Definition forward_budget (line : string) (pos : Z) : nat :=
  S (Z.to_nat (Py.len line - pos)).

Definition backward_budget (pos : Z) : nat := S (Z.to_nat pos).

Definition find_word_boundary (line : string) (pos : Z) (direction : Z) : result Z :=
  let isspace_func := fun ch => Py.isspace ch in
  if direction =? 1 then
    pos1 <- scan_forward (forward_budget line pos)
              (fun ch => negb (isspace_func ch)) line pos ;;
    scan_forward (forward_budget line pos1) isspace_func line pos1
  else if direction =? -1 then
    pos1 <- scan_backward (backward_budget pos) isspace_func line pos ;;
    scan_backward (backward_budget pos1) (fun ch => negb (isspace_func ch)) line pos1
  else Ok pos.

Definition find_word_end (line : string) (pos : Z) : result Z :=
  pos1 <- scan_forward (forward_budget line pos)
            (fun ch => negb (Py.isspace ch)) line pos ;;
  scan_forward (forward_budget line pos1) Py.isspace line pos1.

(* ================================================================== *)
(** ** Handlers *)

Definition next_word (s : state) : result state :=
  if negb (Py.list_truthy (content s)) then Ok s else
  line <- Py.getitem (content s) (current_line s) ;;
  if negb (Py.str_truthy line) then Ok s else
  let original := current_row s in
  new_pos <- find_word_boundary line original 1 ;;
  clamp_cursor
    (set_current_row s (if Py.len line <=? new_pos then original else new_pos)).

Definition previous_word (s : state) : result state :=
  if negb (Py.list_truthy (content s)) then Ok s else
  line <- Py.getitem (content s) (current_line s) ;;
  if negb (Py.str_truthy line) then Ok s else
  new_pos <- find_word_boundary line (current_row s) (-1) ;;
  clamp_cursor (set_current_row s new_pos).

Definition handle_cursor_toggle (s : state) (cursor_type : string)
           (_ : option string) : result state :=
  if String.eqb cursor_type "row" then
    Ok (set_show_row_cursor s (negb (show_row_cursor s)))
  else if String.eqb cursor_type "line" then
    Ok (set_show_line_cursor s (negb (show_line_cursor s)))
  else Ok s.

Definition handle_h (s : state) (_ : option string) : result state :=
  Ok (set_current_row s (Z.max 0 (current_row s - 1))).

Definition handle_l (s : state) (_ : option string) : result state :=
  if Py.list_truthy (content s) then
    line <- Py.getitem (content s) (current_line s) ;;
    Ok (set_current_row s (Z.min (Py.len line) (current_row s + 1)))
  else Ok s.

Definition handle_j (s : state) (_ : option string) : result state :=
  if 0 <? current_line s then Ok (set_current_line s (current_line s - 1))
  else Ok s.

Definition handle_k (s : state) (_ : option string) : result state :=
  if current_line s <? Py.llen (content s) - 1
  then Ok (set_current_line s (current_line s + 1))
  else Ok s.

Definition handle_caret (s : state) (_ : option string) : result state :=
  Ok (set_current_row s 0).

Definition handle_dollar (s : state) (_ : option string) : result state :=
  if Py.list_truthy (content s) then
    line <- Py.getitem (content s) (current_line s) ;;
    Ok (set_current_row s (Py.len line))
  else Ok (set_current_row s 0).

Definition handle_word_navigation (s : state) (direction : string)
           (_ : option string) : result state :=
  if String.eqb direction "next" then next_word s
  else if String.eqb direction "previous" then previous_word s
  else Ok s.

(** [if not state['content']: state['content'].append("")] *)
Definition seed_line (s : state) : state :=
  if negb (Py.list_truthy (content s))
  then set_content s (Py.append (content s) "")
  else s.

(** [str + arg + str], a [TypeError] when [arg] is [None]. *)
Definition concat3 (a : string) (arg : option string) (b : string) : result string :=
  match arg with
  | Some t => Ok (a ++ t ++ b)%string
  | None => Raise TypeError
  end.

Definition handle_i (s : state) (arg : option string) : result state :=
  let s1 := seed_line s in
  let cl := current_line s1 in
  let cr := current_row s1 in
  line <- Py.getitem (content s1) cl ;;
  text <- concat3 (Py.upto line cr) arg (Py.from line cr) ;;
  content' <- Py.setitem (content s1) cl text ;;
  Ok (record_command (set_content s1 content') ("i", arg)).

Definition handle_a (s : state) (arg : option string) : result state :=
  let s1 := seed_line s in
  let cl := current_line s1 in
  let cr := current_row s1 in
  line <- Py.getitem (content s1) cl ;;
  text <- concat3 (Py.upto line (cr + 1)) arg (Py.from line (cr + 1)) ;;
  content' <- Py.setitem (content s1) cl text ;;
  let s2 := set_content s1 content' in
  n <- match arg with Some t => Ok (Py.len t) | None => Raise TypeError end ;;
  Ok (record_command (set_current_row s2 (current_row s2 + n)) ("a", arg)).

(** The three reads of [state['content'][state['current_line']]] in the
    guard and the body see the same line; it is read once here. *)
Definition handle_x (s : state) (_ : option string) : result state :=
  if Py.list_truthy (content s) then
    line <- Py.getitem (content s) (current_line s) ;;
    if Py.str_truthy line && (current_row s <? Py.len line) then
      let cl := current_line s in
      let cr := current_row s in
      content' <- Py.setitem (content s) cl
                    (Py.upto line cr ++ Py.from line (cr + 1))%string ;;
      Ok (record_command (set_content s content') ("x", None))
    else Ok s
  else Ok s.

Definition handle_dw (s : state) (_ : option string) : result state :=
  if negb (Py.list_truthy (content s)) then Ok s else
  line <- Py.getitem (content s) (current_line s) ;;
  if negb (Py.str_truthy line) then Ok s else
  let cr := current_row s in
  word_end <- find_word_end line cr ;;
  let joined := (Py.upto line cr ++ Py.from line word_end)%string in
  content' <- Py.setitem (content s) (current_line s)
                (if Py.str_truthy joined then joined else "") ;;
  Ok (record_command (set_content s content') ("dw", None)).

Definition handle_yy (s : state) (_ : option string) : result state :=
  if Py.list_truthy (content s) then
    line <- Py.getitem (content s) (current_line s) ;;
    Ok (set_clipboard s (Some line))
  else Ok s.

Definition handle_dd (s : state) (_ : option string) : result state :=
  if Py.list_truthy (content s) then
    content' <- Py.delitem (content s) (current_line s) ;;
    let s1 := set_content s content' in
    let s2 := set_current_line s1
                (if Py.list_truthy (content s1)
                 then Z.max 0 (Z.min (current_line s1) (Py.llen (content s1) - 1))
                 else 0) in
    Ok (record_command s2 ("dd", None))
  else Ok s.

Definition handle_insert_line (s : state) (above : bool) : result state :=
  if above then
    let s1 := set_content s (Py.insert (content s) (current_line s) "") in
    Ok (record_command s1 ("O", None))
  else
    let s1 := set_content s (Py.insert (content s) (current_line s + 1) "") in
    let s2 := set_current_line s1 (current_line s1 + 1) in
    let s3 := set_current_row s2 0 in
    Ok (record_command s3 ("o", None)).

Definition handle_paste (s : state) (above : bool) : result state :=
  match clipboard s with
  | Some clip =>
      if above then
        let s1 := set_content s (Py.insert (content s) (current_line s) clip) in
        Ok (record_command s1 ("P", None))
      else
        let s1 := set_content s (Py.insert (content s) (current_line s + 1) clip) in
        let s2 := set_current_line s1 (current_line s1 + 1) in
        Ok (record_command s2 ("p", None))
  | None => Ok s
  end.

Definition handle_u (s : state) (_ : option string) : result state :=
  match Py.pop (undo_stack s) with
  | None => Ok s
  | Some (saved, rest) =>
      let s1 := restore_state (set_undo_stack s rest) saved in
      if Py.list_truthy (command_history s1) then Ok (drop_command s1) else Ok s1
  end.

(* ================================================================== *)
(** ** Dispatcher *)

Definition handler : Type := state -> option string -> result state.

(** [handle_r] calls back into [handle_command]; the dispatcher is passed in
    as [dispatch]. *)
Definition handle_r (dispatch : state -> string -> option string -> result state)
           (s : state) (_ : option string) : result state :=
  match Py.last_item (command_history s) with
  | Some last_cmd => dispatch s (fst last_cmd) (snd last_cmd)
  | None => Ok s
  end.

(** [command_map.get(cmd)] *)
Definition command_map (dispatch : state -> string -> option string -> result state)
           (cmd : string) : option handler :=
  if String.eqb cmd "." then Some (fun s a => handle_cursor_toggle s "row" a)
  else if String.eqb cmd ";" then Some (fun s a => handle_cursor_toggle s "line" a)
  else if String.eqb cmd "h" then Some handle_h
  else if String.eqb cmd "l" then Some handle_l
  else if String.eqb cmd "j" then Some handle_j
  else if String.eqb cmd "k" then Some handle_k
  else if String.eqb cmd "^" then Some handle_caret
  else if String.eqb cmd "w" then Some (fun s a => handle_word_navigation s "next" a)
  else if String.eqb cmd "b" then Some (fun s a => handle_word_navigation s "previous" a)
  else if String.eqb cmd "$" then Some handle_dollar
  else if String.eqb cmd "i" then Some handle_i
  else if String.eqb cmd "a" then Some handle_a
  else if String.eqb cmd "x" then Some handle_x
  else if String.eqb cmd "dw" then Some handle_dw
  else if String.eqb cmd "yy" then Some handle_yy
  else if String.eqb cmd "dd" then Some handle_dd
  else if String.eqb cmd "o" then Some (fun s a => handle_insert_line s false)
  else if String.eqb cmd "O" then Some (fun s a => handle_insert_line s true)
  else if String.eqb cmd "p" then Some (fun s a => handle_paste s false)
  else if String.eqb cmd "P" then Some (fun s a => handle_paste s true)
  else if String.eqb cmd "u" then Some handle_u
  else if String.eqb cmd "r" then Some (handle_r dispatch)
  else None.

(** [cmd in ['u', 'r', '?', 's']] *)
Definition no_snapshot (cmd : string) : bool := Py.mem cmd ["u"; "r"; "?"; "s"].

(** [cmd in command_map]: the keys do not depend on the dispatcher that
    [handle_r] closes over. *)
Definition in_command_map (cmd : string) : bool :=
  match command_map (fun s _ _ => Ok s) cmd with Some _ => true | None => false end.

(** [fuel] bounds the nesting of [handle_command] inside [handle_r]. *)
Fixpoint handle_command (fuel : nat) (s : state) (cmd : string) (arg : option string)
  : result state :=
  match fuel with
  | O => OutOfFuel
  | S fuel' =>
      let s1 := if negb (no_snapshot cmd) then save_state s else s in
      s2 <- match command_map (handle_command fuel') cmd with
            | Some h => h s1 arg
            | None => Ok s1
            end ;;
      s3 <- clamp_cursor s2 ;;
      if negb (no_snapshot cmd) then
        if in_command_map cmd && negb (String.eqb cmd "r")
        then Ok (record_command s3 (cmd, arg))
        else Ok s3
      else if (String.eqb cmd "u") && Py.list_truthy (command_history s3)
      then Ok (drop_command s3)
      else Ok s3
  end.

(** The states the editor can be in: the initial one, and every state a
    dispatch of a parsed command leads to.  The loop of [main] dispatches
    every parsed command but q and ?, so it stays inside this set. *)
Inductive reachable : state -> Prop :=
| reach_init : reachable initialize_state
| reach_step (s s' : state) (input cmd : string) (arg : option string) (fuel : nat) :
    reachable s ->
    parse_command input = (Some cmd, arg) ->
    handle_command fuel s cmd arg = Ok s' ->
    reachable s'.

(* ================================================================== *)
(** ** Rendering and the command loop *)

Definition render_cursor_segment (s : state) (line : string) (cursor_pos : Z)
  : result string :=
  if negb (Py.str_truthy line) then Ok EmptyString else
  let clamped_pos := Z.min cursor_pos (Py.len line - 1) in
  ch <- Py.char_at line cursor_pos ;;
  Ok (Py.upto line clamped_pos ++ cursor_highlight s ++ String ch EmptyString
      ++ cursor_reset s ++ Py.from line (cursor_pos + 1))%string.

(** The body of the [for idx, line in enumerate(...)] loop of
    [display_content], from index [idx] on.  The value is the list of the
    strings printed, one per [print]; what was printed before an exception
    is not kept. *)
Fixpoint display_lines (s : state) (idx : Z) (lines : list string)
  : result (list string) :=
  match lines with
  | [] => Ok []
  | line :: rest =>
      let prefix :=
        if show_line_cursor s && (idx =? current_line s) then "*"
        else if show_line_cursor s then " " else EmptyString in
      line_part <-
        (if (idx =? current_line s) && show_row_cursor s
         then render_cursor_segment s line (current_row s)
         else Ok line) ;;
      printed <- display_lines s (idx + 1) rest ;;
      Ok ((prefix ++ line_part)%string :: printed)
  end.

Definition display_content (s : state) : result (list string) :=
  if negb (Py.list_truthy (content s)) then Ok []
  else display_lines s 0 (content s).

Definition help_data : list (string * string) :=
  [ ("?", "display this help info");
    (".", "toggle row cursor on and off");
    (";", "toggle line cursor on and off");
    ("h", "move cursor left");
    ("j", "move cursor up");
    ("k", "move cursor down");
    ("l", "move cursor right");
    ("^", "move cursor to beginning of the line");
    ("$", "move cursor to end of the line");
    ("w", "move cursor to beginning of next word");
    ("b", "move cursor to beginning of previous word");
    ("i", "insert <text> before cursor");
    ("a", "append <text> after cursor");
    ("x", "delete character at cursor");
    ("dw", "delete word and trailing spaces at cursor");
    ("yy", "copy current line to memory");
    ("p", "paste copied line(s) below line cursor");
    ("P", "paste copied line(s) above line cursor");
    ("dd", "delete line");
    ("o", "insert empty line below");
    ("O", "insert empty line above");
    ("u", "undo previous command");
    ("r", "repeat last command");
    ("s", "show content");
    ("q", "quit program") ].

Definition newline : string := String (ascii_of_nat 10) EmptyString.

(** The one string [display_help_info] prints. *)
Definition display_help_info : string :=
  String.concat newline
    (map (fun entry => (fst entry ++ " - " ++ snd entry)%string) help_data).

(** What the loop of [main] writes: the prompt of [input], and the
    argument of each [print]. *)
Inductive output : Type :=
| Prompt
| Printed (text : string).

(** How a run of [main] on a finite list of input lines ends: by the
    break on q, by [input] finding no further line, by an exception of the
    engine, or by the model running out of recursion budget. *)
Inductive main_outcome : Type :=
| Exited (s : state) (out : list output)
| InputExhausted (s : state) (out : list output)
| Crashed (e : exn)
| Starved.

Fixpoint main_loop (fuel : nat) (inputs : list string) (s : state) (out : list output)
  : main_outcome :=
  match inputs with
  | [] => InputExhausted s (out ++ [Prompt])
  | user_input :: rest =>
      let out := out ++ [Prompt] in
      if String.eqb user_input "q" then Exited s out else
      match parse_command user_input with
      | (None, _) => main_loop fuel rest s out
      | (Some cmd, arg) =>
          if String.eqb cmd "?"
          then main_loop fuel rest s (out ++ [Printed display_help_info])
          else
            match handle_command fuel s cmd arg with
            | Ok s' =>
                match display_content s' with
                | Ok lines => main_loop fuel rest s' (out ++ map Printed lines)
                | Raise e => Crashed e
                | OutOfFuel => Starved
                end
            | Raise e => Crashed e
            | OutOfFuel => Starved
            end
      end
  end.

Definition main (fuel : nat) (inputs : list string) : main_outcome :=
  main_loop fuel inputs initialize_state [].

(** The verbs the parser accepts without an argument. *)
Definition plain_verbs : list string :=
  ["?"; "."; ";"; "h"; "j"; "k"; "l"; "^"; "$"; "x"; "s"; "q"; "w"; "b";
   "dw"; "yy"; "dd"; "p"; "P"; "o"; "O"; "u"; "r"].

(** The verbs that move the cursor or toggle a marker and nothing else. *)
Definition navigation_verbs : list string :=
  ["."; ";"; "h"; "l"; "j"; "k"; "^"; "w"; "b"; "$"].

(* ================================================================== *)
(** ** Invariants of the editor state *)

Definition line_count (s : state) : Z := Py.llen (content s).

(** Length of the line under the cursor, 0 when there is none. *)
Definition current_line_length (s : state) : Z :=
  match Py.getitem (content s) (current_line s) with
  | Ok line => Py.len line
  | _ => 0
  end.

Definition cursor_inv (s : state) : Prop :=
  0 <= current_line s <= Z.max 0 (line_count s - 1) /\
  0 <= current_row s <= Z.max 0 (current_line_length s - 1).

(** Two states agree on everything but the cursor. *)
Definition same_but_cursor (s s' : state) : Prop :=
  cursor_highlight s' = cursor_highlight s /\
  cursor_reset s' = cursor_reset s /\
  content s' = content s /\
  show_line_cursor s' = show_line_cursor s /\
  show_row_cursor s' = show_row_cursor s /\
  clipboard s' = clipboard s /\
  undo_stack s' = undo_stack s /\
  command_history s' = command_history s.

(** A history entry that [handle_r] can replay: it is not a repeat itself,
    and an insert or append carries its text. *)
Definition replayable (c : command) : Prop :=
  fst c <> "r" /\ (fst c = "i" \/ fst c = "a" -> snd c <> None).

Definition history_ok (s : state) : Prop := Forall replayable (command_history s).

(** The handler returns, leaves the undo stack alone and only appends
    replayable entries to the history. *)
Definition handler_effect (s : state) (r : result state) : Prop :=
  exists s',
    r = Ok s' /\
    undo_stack s' = undo_stack s /\
    exists ext, command_history s' = command_history s ++ ext /\ Forall replayable ext.

(** The argument a verb is dispatched with fits the verb: insert and append
    come with their text. *)
Definition arg_ok (cmd : string) (arg : option string) : Prop :=
  cmd = "i" \/ cmd = "a" -> arg <> None.

(** The cursor [clamp_cursor] computes, as plain functions of the
    document and the old cursor. *)
Definition clamped_line (doc : list string) (cl : Z) : Z :=
  if 0 <? Py.llen doc then Z.max 0 (Z.min cl (Py.llen doc - 1)) else 0.

Definition line_length_at (doc : list string) (cl : Z) : Z :=
  match Py.getitem doc cl with
  | Ok line => Py.len line
  | _ => 0
  end.

Definition clamped_row (doc : list string) (cl cr : Z) : Z :=
  Z.max 0 (Z.min cr (Z.max 0 (line_length_at doc cl - 1))).

(** The state [clamp_cursor] returns. *)
Definition clamped (s : state) : state :=
  let cl := clamped_line (content s) (current_line s) in
  set_current_row (set_current_line s cl) (clamped_row (content s) cl (current_row s)).

(** The history is at most twice as long as the undo stack. *)
Definition history_bounded (s : state) : Prop :=
  (List.length (command_history s) <= 2 * List.length (undo_stack s))%nat.

(** What a handler other than undo and repeat leaves alone: it never
    touches the undo stack, and it appends at most one history entry. *)
Definition books_kept (s s' : state) : Prop :=
  undo_stack s' = undo_stack s /\
  (command_history s' = command_history s \/
   exists e, command_history s' = command_history s ++ [e]).

(* ================================================================== *)
(** ** Concrete runs *)

Example parse_dw : parse_command "dw" = (Some "dw", None).
Proof. reflexivity. Qed.

Example parse_insert : parse_command "ihello world" = (Some "i", Some "hello world").
Proof. reflexivity. Qed.

Example dw_foo_bar :
  find_word_end "foo bar" 0 = Ok 4.
Proof. reflexivity. Qed.

(** Runs a dispatch on concrete data to its outcome. *)
Ltac run := vm_compute; reflexivity.

Example dw_dispatch :
  exists s',
    handle_command 1 (set_content initialize_state ["foo bar"]) "dw" None = Ok s' /\
    content s' = ["bar"].
Proof. eexists. split; [run|reflexivity]. Qed.

(* ================================================================== *)
(** ** Facts about Python sequences *)

Section SequenceFacts.

Context {A : Type}.

Lemma index_in_range (n i : Z) :
  0 <= i < n -> Py.index n i = Some (Z.to_nat i).
Proof.
  intros H. unfold Py.index.
  destruct (Z.ltb_spec i 0); [lia|].
  destruct (Z.ltb_spec i n); [reflexivity|lia].
Qed.

Lemma getitem_in_range (l : list A) (i : Z) :
  0 <= i < Py.llen l ->
  exists x, Py.getitem l i = Ok x /\ nth_error l (Z.to_nat i) = Some x.
Proof.
  intros H. unfold Py.getitem. rewrite index_in_range by exact H.
  destruct (nth_error l (Z.to_nat i)) as [x|] eqn:E.
  - exists x. split; reflexivity.
  - apply nth_error_None in E. unfold Py.llen in H. lia.
Qed.

Lemma getitem_ok_setitem_ok (l : list A) (i : Z) (x v : A) :
  Py.getitem l i = Ok x -> exists l', Py.setitem l i v = Ok l'.
Proof.
  unfold Py.getitem, Py.setitem.
  destruct (Py.index (Py.llen l) i); [|discriminate].
  intros _. eexists. reflexivity.
Qed.

Lemma getitem_ok_delitem_ok (l : list A) (i : Z) (x : A) :
  Py.getitem l i = Ok x -> exists l', Py.delitem l i = Ok l'.
Proof.
  unfold Py.getitem, Py.delitem.
  destruct (Py.index (Py.llen l) i); [|discriminate].
  intros _. eexists. reflexivity.
Qed.

Lemma last_item_app (l : list A) (x : A) : Py.last_item (l ++ [x]) = Some x.
Proof.
  induction l as [|y l IH]; [reflexivity|].
  simpl. rewrite IH. destruct (l ++ [x]) eqn:E; [|reflexivity].
  destruct l; discriminate.
Qed.

Lemma pop_app (l : list A) (x : A) : Py.pop (l ++ [x]) = Some (x, l).
Proof.
  unfold Py.pop. rewrite last_item_app, removelast_last. reflexivity.
Qed.

Lemma last_item_In (l : list A) (x : A) : Py.last_item l = Some x -> In x l.
Proof.
  induction l as [|y l IH]; [discriminate|].
  simpl. destruct l as [|z l'].
  - intros [= ->]. left. reflexivity.
  - intros H. right. apply IH. exact H.
Qed.

Lemma Forall_removelast (P : A -> Prop) (l : list A) :
  Forall P l -> Forall P (removelast l).
Proof.
  induction 1 as [|x l Hx Hl IH]; [constructor|].
  simpl. destruct l; [constructor|]. constructor; assumption.
Qed.

End SequenceFacts.

Lemma len_nonneg (s : string) : 0 <= Py.len s.
Proof. unfold Py.len. lia. Qed.

Lemma len_truthy (s : string) : Py.str_truthy s = true <-> 0 < Py.len s.
Proof.
  destruct s; unfold Py.len; simpl; split; intros;
    try lia; try discriminate; reflexivity.
Qed.

Lemma llen_truthy {A : Type} (l : list A) :
  Py.list_truthy l = true <-> 0 < Py.llen l.
Proof.
  destruct l; unfold Py.llen; simpl; split; intros;
    try lia; try discriminate; reflexivity.
Qed.

Lemma char_at_in_range (s : string) (i : Z) :
  0 <= i < Py.len s -> exists c, Py.char_at s i = Ok c.
Proof.
  intros H. unfold Py.char_at. rewrite index_in_range by exact H.
  assert (Hn : (Z.to_nat i < String.length s)%nat) by (unfold Py.len in H; lia).
  clear H. revert s Hn. generalize (Z.to_nat i) as n.
  induction n as [|n IH]; intros [|c s] Hn; simpl in *; try lia.
  - exists c. reflexivity.
  - apply IH. lia.
Qed.

(* ================================================================== *)
(** ** Clamping *)

Lemma clamp_cursor_total (s : state) :
  exists s', clamp_cursor s = Ok s' /\ same_but_cursor s s' /\ cursor_inv s'.
Proof.
  unfold clamp_cursor. cbn [content set_current_line current_line current_row].
  destruct (content s) as [|l0 ls] eqn:Ec.
  - cbn. eexists. split; [reflexivity|]. split.
    + unfold same_but_cursor; cbn. rewrite Ec. tauto.
    + unfold cursor_inv, line_count, current_line_length; cbn. rewrite Ec. cbn. lia.
  - set (n := Py.llen (l0 :: ls)).
    assert (Hn : 0 < n) by (unfold n, Py.llen; simpl; lia).
    destruct (Z.ltb_spec 0 n); [|lia].
    set (cl := Z.max 0 (Z.min (current_line s) (n - 1))).
    assert (Hcl : 0 <= cl < n) by (unfold cl; lia).
    cbn [Py.list_truthy andb].
    destruct (Z.ltb_spec cl n); [|lia].
    destruct (getitem_in_range (l0 :: ls) cl Hcl) as (line & Hg & _).
    fold n. rewrite Hg. cbn [bind].
    eexists. split; [reflexivity|]. split.
    + unfold same_but_cursor; cbn. rewrite Ec. tauto.
    + unfold cursor_inv, line_count, current_line_length; cbn.
      rewrite Ec. fold n. rewrite Hg.
      pose proof (len_nonneg line).
      destruct (Z.ltb_spec 0 (Py.len line)); lia.
Qed.

Lemma clamp_cursor_fix (s : state) : cursor_inv s -> clamp_cursor s = Ok s.
Proof.
  intros [Hl Hr]. unfold clamp_cursor.
  unfold cursor_inv, line_count, current_line_length in *.
  destruct s as [hi rs c cl cr sl sr cb us ch].
  cbn [content set_current_line current_line current_row set_current_row
       cursor_highlight cursor_reset show_line_cursor show_row_cursor clipboard
       undo_stack command_history] in *.
  destruct c as [|l0 ls].
  - assert (cl = 0) by (cbn in Hl; lia). subst cl.
    cbn in Hr. assert (cr = 0) by lia. subst cr. reflexivity.
  - set (n := Py.llen (l0 :: ls)) in *.
    assert (Hn : 0 < n) by (unfold n, Py.llen; simpl; lia).
    destruct (Z.ltb_spec 0 n); [|lia].
    replace (Z.max 0 (Z.min cl (n - 1))) with cl by lia.
    cbn [Py.list_truthy andb].
    destruct (Z.ltb_spec cl n); [|lia].
    destruct (getitem_in_range (l0 :: ls) cl) as (line & Hg & _); [lia|].
    rewrite Hg in *. cbn [bind].
    pose proof (len_nonneg line).
    destruct (Z.ltb_spec 0 (Py.len line)).
    + replace (Z.max 0 (Z.min cr (Py.len line - 1))) with cr by lia. reflexivity.
    + replace (Z.max 0 (Z.min cr 0)) with cr by lia. reflexivity.
Qed.

Lemma clamp_cursor_idempotent (s s' : state) :
  clamp_cursor s = Ok s' -> clamp_cursor s' = Ok s'.
Proof.
  intros H. destruct (clamp_cursor_total s) as (s'' & H' & _ & Hinv).
  rewrite H in H'. injection H' as <-. apply clamp_cursor_fix. exact Hinv.
Qed.

Lemma current_line_ok (s : state) :
  cursor_inv s -> Py.list_truthy (content s) = true ->
  exists line,
    Py.getitem (content s) (current_line s) = Ok line /\
    0 <= current_line s < Py.llen (content s) /\
    0 <= current_row s <= Z.max 0 (Py.len line - 1).
Proof.
  intros [Hl Hr] Ht. apply llen_truthy in Ht.
  unfold line_count, current_line_length in *.
  assert (Hin : 0 <= current_line s < Py.llen (content s)) by lia.
  destruct (getitem_in_range _ _ Hin) as (line & Hg & _).
  rewrite Hg in Hr. exists line. auto.
Qed.

Lemma empty_document_cursor (s : state) :
  cursor_inv s -> content s = [] -> current_line s = 0 /\ current_row s = 0.
Proof.
  intros [Hl Hr] Hc. unfold line_count, current_line_length in *.
  rewrite Hc in *. cbn in Hl. assert (H0 : current_line s = 0) by lia.
  rewrite H0 in Hr. cbn in Hr. lia.
Qed.

(* ================================================================== *)
(** ** The scanner terminates within its budget *)

Lemma scan_forward_enough (test : ascii -> bool) (line : string) (fuel : nat) :
  forall pos, 0 <= pos -> (Z.to_nat (Py.len line - pos) < fuel)%nat ->
  exists p, scan_forward fuel test line pos = Ok p /\ pos <= p.
Proof.
  induction fuel as [|fuel IH]; intros pos Hpos Hf; [lia|].
  simpl. destruct (Z.ltb_spec pos (Py.len line)) as [Hlt|Hge].
  - destruct (char_at_in_range line pos) as (c & Hc); [lia|].
    rewrite Hc. cbn [bind]. destruct (test c).
    + destruct (IH (pos + 1)) as (p & Hp & Hle); [lia|lia|].
      exists p. split; [exact Hp|lia].
    + exists pos. split; [reflexivity|lia].
  - exists pos. split; [reflexivity|lia].
Qed.

Lemma scan_forward_total (test : ascii -> bool) (line : string) (pos : Z) :
  0 <= pos ->
  exists p, scan_forward (forward_budget line pos) test line pos = Ok p /\ pos <= p.
Proof.
  intros Hpos. apply scan_forward_enough; [exact Hpos|].
  unfold forward_budget. lia.
Qed.

Lemma scan_backward_enough (test : ascii -> bool) (line : string) (fuel : nat) :
  forall pos, 0 <= pos <= Py.len line -> (Z.to_nat pos < fuel)%nat ->
  exists p, scan_backward fuel test line pos = Ok p /\ 0 <= p <= pos.
Proof.
  induction fuel as [|fuel IH]; intros pos Hpos Hf; [lia|].
  simpl. destruct (Z.ltb_spec 0 pos) as [Hlt|Hge].
  - destruct (char_at_in_range line (pos - 1)) as (c & Hc); [lia|].
    rewrite Hc. cbn [bind]. destruct (test c).
    + destruct (IH (pos - 1)) as (p & Hp & Hle); [lia|lia|].
      exists p. split; [exact Hp|lia].
    + exists pos. split; [reflexivity|lia].
  - exists pos. split; [reflexivity|lia].
Qed.

Lemma scan_backward_total (test : ascii -> bool) (line : string) (pos : Z) :
  0 <= pos <= Py.len line ->
  exists p, scan_backward (backward_budget pos) test line pos = Ok p /\ 0 <= p <= pos.
Proof.
  intros Hpos. apply scan_backward_enough; [exact Hpos|].
  unfold backward_budget. lia.
Qed.

Lemma find_word_end_total (line : string) (pos : Z) :
  0 <= pos -> exists p, find_word_end line pos = Ok p /\ pos <= p.
Proof.
  intros Hpos. unfold find_word_end.
  destruct (scan_forward_total (fun ch => negb (Py.isspace ch)) line pos Hpos)
    as (p1 & H1 & Hle1).
  rewrite H1. cbn [bind].
  destruct (scan_forward_total Py.isspace line p1) as (p2 & H2 & Hle2); [lia|].
  exists p2. split; [exact H2|lia].
Qed.

Lemma find_word_boundary_forward_total (line : string) (pos : Z) :
  0 <= pos -> exists p, find_word_boundary line pos 1 = Ok p.
Proof.
  intros Hpos. unfold find_word_boundary. cbn [Z.eqb Pos.eqb].
  destruct (scan_forward_total (fun ch => negb (Py.isspace ch)) line pos Hpos)
    as (p1 & H1 & Hle1).
  rewrite H1. cbn [bind].
  destruct (scan_forward_total (fun ch => Py.isspace ch) line p1) as (p2 & H2 & _);
    [lia|].
  exists p2. exact H2.
Qed.

Lemma find_word_boundary_backward_total (line : string) (pos : Z) :
  0 <= pos <= Py.len line -> exists p, find_word_boundary line pos (-1) = Ok p.
Proof.
  intros Hpos. unfold find_word_boundary. cbn [Z.eqb Pos.eqb].
  destruct (scan_backward_total (fun ch => Py.isspace ch) line pos Hpos)
    as (p1 & H1 & Hle1).
  rewrite H1. cbn [bind].
  destruct (scan_backward_total (fun ch => negb (Py.isspace ch)) line p1)
    as (p2 & H2 & _); [lia|].
  exists p2. exact H2.
Qed.

(* ================================================================== *)
(** ** What a handler may do to the history and the undo stack *)

Ltac replayable_entries :=
  repeat constructor; cbn; try discriminate;
  try (intros [H|H]; discriminate H); try (intros _; discriminate).

Ltac effect_with ext :=
  eexists; split; [reflexivity|]; split; [reflexivity|];
  exists ext; split;
  [cbn; rewrite ?app_nil_r; reflexivity | replayable_entries].

Lemma effect_of_clamp (s0 s : state) :
  undo_stack s = undo_stack s0 -> command_history s = command_history s0 ->
  handler_effect s0 (clamp_cursor s).
Proof.
  intros Hu Hh. destruct (clamp_cursor_total s) as (s' & Hc & Hs & _).
  destruct Hs as (_ & _ & _ & _ & _ & _ & Hu' & Hh').
  exists s'. split; [exact Hc|]. split; [congruence|].
  exists []. rewrite app_nil_r. split; [congruence|constructor].
Qed.

Section HandlerEffects.

Variable s : state.
Hypothesis Hinv : cursor_inv s.

Lemma handle_cursor_toggle_effect (t : string) (arg : option string) :
  handler_effect s (handle_cursor_toggle s t arg).
Proof.
  unfold handle_cursor_toggle.
  destruct (String.eqb t "row"); [effect_with (@nil command)|].
  destruct (String.eqb t "line"); effect_with (@nil command).
Qed.

Lemma handle_h_effect (arg : option string) : handler_effect s (handle_h s arg).
Proof. unfold handle_h. effect_with (@nil command). Qed.

Lemma handle_l_effect (arg : option string) : handler_effect s (handle_l s arg).
Proof.
  unfold handle_l. destruct (Py.list_truthy (content s)) eqn:Et.
  - destruct (current_line_ok s Hinv Et) as (line & Hg & _).
    rewrite Hg. cbn [bind]. effect_with (@nil command).
  - effect_with (@nil command).
Qed.

Lemma handle_j_effect (arg : option string) : handler_effect s (handle_j s arg).
Proof. unfold handle_j. destruct (0 <? current_line s); effect_with (@nil command). Qed.

Lemma handle_k_effect (arg : option string) : handler_effect s (handle_k s arg).
Proof.
  unfold handle_k.
  destruct (current_line s <? Py.llen (content s) - 1); effect_with (@nil command).
Qed.

Lemma handle_caret_effect (arg : option string) : handler_effect s (handle_caret s arg).
Proof. unfold handle_caret. effect_with (@nil command). Qed.

Lemma handle_dollar_effect (arg : option string) :
  handler_effect s (handle_dollar s arg).
Proof.
  unfold handle_dollar. destruct (Py.list_truthy (content s)) eqn:Et.
  - destruct (current_line_ok s Hinv Et) as (line & Hg & _).
    rewrite Hg. cbn [bind]. effect_with (@nil command).
  - effect_with (@nil command).
Qed.

Lemma next_word_effect : handler_effect s (next_word s).
Proof.
  unfold next_word. destruct (Py.list_truthy (content s)) eqn:Et; cbn [negb].
  2: effect_with (@nil command).
  destruct (current_line_ok s Hinv Et) as (line & Hg & _ & Hr).
  rewrite Hg. cbn [bind].
  destruct (Py.str_truthy line); cbn [negb]; [|effect_with (@nil command)].
  destruct (find_word_boundary_forward_total line (current_row s)) as (p & Hp);
    [lia|].
  rewrite Hp. cbn [bind]. apply effect_of_clamp; reflexivity.
Qed.

Lemma previous_word_effect : handler_effect s (previous_word s).
Proof.
  unfold previous_word. destruct (Py.list_truthy (content s)) eqn:Et; cbn [negb].
  2: effect_with (@nil command).
  destruct (current_line_ok s Hinv Et) as (line & Hg & _ & Hr).
  rewrite Hg. cbn [bind].
  destruct (Py.str_truthy line) eqn:El; cbn [negb]; [|effect_with (@nil command)].
  apply len_truthy in El.
  destruct (find_word_boundary_backward_total line (current_row s)) as (p & Hp);
    [lia|].
  rewrite Hp. cbn [bind]. apply effect_of_clamp; reflexivity.
Qed.

Lemma handle_word_navigation_effect (d : string) (arg : option string) :
  handler_effect s (handle_word_navigation s d arg).
Proof.
  unfold handle_word_navigation.
  destruct (String.eqb d "next"); [apply next_word_effect|].
  destruct (String.eqb d "previous"); [apply previous_word_effect|].
  effect_with (@nil command).
Qed.

(** After seeding, the line under the cursor exists. *)
Lemma seeded_line_ok :
  exists line, Py.getitem (content (seed_line s)) (current_line (seed_line s)) = Ok line.
Proof.
  unfold seed_line. destruct (Py.list_truthy (content s)) eqn:Et; cbn [negb].
  - destruct (current_line_ok s Hinv Et) as (line & Hg & _). exists line. exact Hg.
  - destruct (content s) eqn:Ec; [|discriminate].
    destruct (empty_document_cursor s Hinv Ec) as [Hl _].
    cbn. rewrite Hl. exists "". reflexivity.
Qed.

Lemma seed_line_history : command_history (seed_line s) = command_history s.
Proof. unfold seed_line. destruct (negb _); reflexivity. Qed.

Lemma seed_line_undo_stack : undo_stack (seed_line s) = undo_stack s.
Proof. unfold seed_line. destruct (negb _); reflexivity. Qed.

Lemma handle_i_effect (t : string) : handler_effect s (handle_i s (Some t)).
Proof.
  unfold handle_i. destruct seeded_line_ok as (line & Hg).
  rewrite Hg. cbn [bind concat3].
  destruct (getitem_ok_setitem_ok _ _ _
              (Py.upto line (current_row (seed_line s)) ++ t ++
               Py.from line (current_row (seed_line s)))%string Hg) as (l' & Hs).
  rewrite Hs. cbn [bind].
  eexists. split; [reflexivity|]. split; [cbn; apply seed_line_undo_stack|].
  exists [("i", Some t)]. split; [cbn; rewrite seed_line_history; reflexivity|].
  replayable_entries.
Qed.

Lemma handle_a_effect (t : string) : handler_effect s (handle_a s (Some t)).
Proof.
  unfold handle_a. destruct seeded_line_ok as (line & Hg).
  rewrite Hg. cbn [bind concat3].
  destruct (getitem_ok_setitem_ok _ _ _
              (Py.upto line (current_row (seed_line s) + 1) ++ t ++
               Py.from line (current_row (seed_line s) + 1))%string Hg) as (l' & Hs).
  rewrite Hs. cbn [bind].
  eexists. split; [reflexivity|]. split; [cbn; apply seed_line_undo_stack|].
  exists [("a", Some t)]. split; [cbn; rewrite seed_line_history; reflexivity|].
  replayable_entries.
Qed.

Lemma handle_x_effect (arg : option string) : handler_effect s (handle_x s arg).
Proof.
  unfold handle_x. destruct (Py.list_truthy (content s)) eqn:Et.
  2: effect_with (@nil command).
  destruct (current_line_ok s Hinv Et) as (line & Hg & _).
  rewrite Hg. cbn [bind].
  destruct (Py.str_truthy line && (current_row s <? Py.len line)).
  2: effect_with (@nil command).
  destruct (getitem_ok_setitem_ok _ _ _
              (Py.upto line (current_row s) ++
               Py.from line (current_row s + 1))%string Hg) as (l' & Hs).
  rewrite Hs. cbn [bind]. effect_with [("x", @None string)].
Qed.

Lemma handle_dw_effect (arg : option string) : handler_effect s (handle_dw s arg).
Proof.
  unfold handle_dw. destruct (Py.list_truthy (content s)) eqn:Et; cbn [negb].
  2: effect_with (@nil command).
  destruct (current_line_ok s Hinv Et) as (line & Hg & _ & Hr).
  rewrite Hg. cbn [bind].
  destruct (Py.str_truthy line); cbn [negb]; [|effect_with (@nil command)].
  destruct (find_word_end_total line (current_row s)) as (p & Hp & _); [lia|].
  rewrite Hp. cbn [bind].
  match goal with
  | |- context [Py.setitem ?l ?i ?v] =>
      destruct (getitem_ok_setitem_ok l i line v Hg) as (l' & Hs)
  end.
  rewrite Hs. cbn [bind]. effect_with [("dw", @None string)].
Qed.

Lemma handle_yy_effect (arg : option string) : handler_effect s (handle_yy s arg).
Proof.
  unfold handle_yy. destruct (Py.list_truthy (content s)) eqn:Et.
  - destruct (current_line_ok s Hinv Et) as (line & Hg & _).
    rewrite Hg. cbn [bind]. effect_with (@nil command).
  - effect_with (@nil command).
Qed.

Lemma handle_dd_effect (arg : option string) : handler_effect s (handle_dd s arg).
Proof.
  unfold handle_dd. destruct (Py.list_truthy (content s)) eqn:Et.
  2: effect_with (@nil command).
  destruct (current_line_ok s Hinv Et) as (line & Hg & _).
  destruct (getitem_ok_delitem_ok _ _ _ Hg) as (l' & Hd).
  rewrite Hd. cbn [bind]. effect_with [("dd", @None string)].
Qed.

End HandlerEffects.

(** The remaining handlers need nothing of the cursor. *)
Lemma handle_insert_line_effect (s : state) (above : bool) :
  handler_effect s (handle_insert_line s above).
Proof.
  unfold handle_insert_line. destruct above.
  - effect_with [("O", @None string)].
  - effect_with [("o", @None string)].
Qed.

Lemma handle_paste_effect (s : state) (above : bool) :
  handler_effect s (handle_paste s above).
Proof.
  unfold handle_paste. destruct (clipboard s); [|effect_with (@nil command)].
  destruct above.
  - effect_with [("P", @None string)].
  - effect_with [("p", @None string)].
Qed.

(* ================================================================== *)
(** ** One dispatch *)

Ltac next_key H :=
  match type of H with
  | (if String.eqb ?c ?k then _ else _) = _ =>
      revert H; destruct (String.eqb_spec c k) as [->|?]; intros H
  end.

Lemma command_map_effect dispatch (s : state) (cmd : string) (arg : option string)
      (h : handler) :
  cursor_inv s -> cmd <> "u" -> cmd <> "r" -> arg_ok cmd arg ->
  command_map dispatch cmd = Some h ->
  handler_effect s (h s arg).
Proof.
  intros Hinv Hu Hr Harg H. unfold command_map in H.
  do 10 (next_key H;
         [injection H as <-; lazy beta;
          auto using handle_cursor_toggle_effect, handle_h_effect, handle_l_effect,
            handle_j_effect, handle_k_effect, handle_caret_effect,
            handle_word_navigation_effect, handle_dollar_effect|]).
  next_key H.
  { injection H as <-. destruct arg as [t|].
    - apply handle_i_effect; assumption.
    - exfalso. apply Harg; auto. }
  next_key H.
  { injection H as <-. destruct arg as [t|].
    - apply handle_a_effect; assumption.
    - exfalso. apply Harg; auto. }
  do 8 (next_key H;
        [injection H as <-; lazy beta;
         first [ solve [auto using handle_x_effect, handle_dw_effect,
                          handle_yy_effect, handle_dd_effect]
               | exact (handle_insert_line_effect s false)
               | exact (handle_insert_line_effect s true)
               | exact (handle_paste_effect s false)
               | exact (handle_paste_effect s true) ]|]).
  next_key H; [congruence|].
  next_key H; [congruence|].
  discriminate.
Qed.

(** A dispatch of a verb other than undo and repeat: it returns, the result
    is clamped, the undo stack grows by the snapshot of the starting state
    when the verb takes one, and the history grows by replayable entries. *)
Lemma dispatch_plain (fuel : nat) (s : state) (cmd : string) (arg : option string) :
  cursor_inv s -> cmd <> "u" -> cmd <> "r" -> arg_ok cmd arg ->
  exists s',
    handle_command (S fuel) s cmd arg = Ok s' /\
    cursor_inv s' /\
    undo_stack s' = (if no_snapshot cmd then undo_stack s
                     else undo_stack s ++ [snapshot_of s]) /\
    exists ext, command_history s' = command_history s ++ ext /\ Forall replayable ext.
Proof.
  intros Hinv Hu Hr Harg. cbn [handle_command].
  set (s1 := if negb (no_snapshot cmd) then save_state s else s).
  assert (Hinv1 : cursor_inv s1) by (unfold s1; destruct (negb _); exact Hinv).
  assert (Hh1 : command_history s1 = command_history s)
    by (unfold s1; destruct (negb _); reflexivity).
  assert (Hu1 : undo_stack s1 = (if no_snapshot cmd then undo_stack s
                                 else undo_stack s ++ [snapshot_of s]))
    by (unfold s1; destruct (no_snapshot cmd); reflexivity).
  assert (Hs2 : handler_effect s1
                  match command_map (handle_command fuel) cmd with
                  | Some h => h s1 arg
                  | None => Ok s1
                  end).
  { destruct (command_map (handle_command fuel) cmd) as [h|] eqn:Eh.
    - eapply command_map_effect; eassumption.
    - effect_with (@nil command). }
  destruct Hs2 as (s2 & -> & Hu2 & ext & Hh2 & Hext). cbn [bind].
  destruct (clamp_cursor_total s2) as (s3 & -> & Hsame & Hinv3). cbn [bind].
  destruct Hsame as (_ & _ & Hc3 & _ & _ & _ & Hu3 & Hh3).
  assert (Hrep : replayable (cmd, arg)) by (split; assumption).
  destruct (no_snapshot cmd) eqn:En; cbn [negb].
  - destruct (String.eqb_spec cmd "u"); [contradiction|]. cbn [andb].
    exists s3. split; [reflexivity|]. split; [exact Hinv3|].
    split; [congruence|]. exists ext. split; [congruence|exact Hext].
  - destruct (in_command_map cmd && negb (String.eqb cmd "r")).
    + eexists. split; [reflexivity|]. split; [exact Hinv3|].
      split; [cbn; congruence|].
      exists (ext ++ [(cmd, arg)]). split.
      * cbn. unfold Py.append. rewrite Hh3, Hh2, Hh1, app_assoc. reflexivity.
      * apply Forall_app. split; [exact Hext|]. constructor; [exact Hrep|constructor].
    + exists s3. split; [reflexivity|]. split; [exact Hinv3|].
      split; [congruence|]. exists ext. split; [congruence|exact Hext].
Qed.

(** A dispatch of undo: it returns a clamped state whose history is the old
    one with entries removed from its end. *)
Lemma dispatch_undo (fuel : nat) (s : state) (arg : option string) :
  history_ok s ->
  exists s', handle_command (S fuel) s "u" arg = Ok s' /\ cursor_inv s' /\ history_ok s'.
Proof.
  intros Hh. cbn [handle_command]. change (no_snapshot "u") with true. cbn [negb].
  change (command_map (handle_command fuel) "u") with (Some handle_u).
  assert (H2 : exists s2, handle_u s arg = Ok s2 /\ history_ok s2).
  { unfold handle_u. destruct (Py.pop (undo_stack s)) as [[saved rest]|].
    - destruct (Py.list_truthy _); eexists; (split; [reflexivity|]).
      + unfold history_ok. cbn. apply Forall_removelast. exact Hh.
      + exact Hh.
    - exists s. split; [reflexivity|exact Hh]. }
  destruct H2 as (s2 & -> & Hh2). cbn [bind].
  destruct (clamp_cursor_total s2) as (s3 & -> & Hsame & Hinv3). cbn [bind].
  destruct Hsame as (_ & _ & _ & _ & _ & _ & _ & Hh3).
  change (String.eqb "u" "u") with true. cbn [andb].
  destruct (Py.list_truthy (command_history s3)); eexists; (split; [reflexivity|]).
  - split; [exact Hinv3|]. unfold history_ok. cbn. apply Forall_removelast.
    rewrite Hh3. exact Hh2.
  - split; [exact Hinv3|]. unfold history_ok. rewrite Hh3. exact Hh2.
Qed.

Lemma dispatch_nonrepeat (fuel : nat) (s : state) (cmd : string) (arg : option string) :
  cursor_inv s -> history_ok s -> cmd <> "r" -> arg_ok cmd arg ->
  exists s', handle_command (S fuel) s cmd arg = Ok s' /\ cursor_inv s' /\ history_ok s'.
Proof.
  intros Hinv Hh Hr Harg. destruct (String.eqb_spec cmd "u") as [->|Hu].
  - apply dispatch_undo. exact Hh.
  - destruct (dispatch_plain fuel s cmd arg Hinv Hu Hr Harg)
      as (s' & Hrun & Hinv' & _ & ext & Hhist & Hext).
    exists s'. split; [exact Hrun|]. split; [exact Hinv'|].
    unfold history_ok. rewrite Hhist. apply Forall_app. split; assumption.
Qed.

(** A dispatch of repeat replays the last history entry one level down. *)
Lemma dispatch_repeat (fuel : nat) (s : state) (arg : option string) :
  cursor_inv s -> history_ok s ->
  exists s', handle_command (S (S fuel)) s "r" arg = Ok s' /\
             cursor_inv s' /\ history_ok s'.
Proof.
  intros Hinv Hh. remember (S fuel) as f1 eqn:Ef. cbn [handle_command].
  change (no_snapshot "r") with true. cbn [negb].
  change (command_map (handle_command f1) "r") with (Some (handle_r (handle_command f1))).
  assert (H2 : exists s2, handle_r (handle_command f1) s arg = Ok s2 /\
                          cursor_inv s2 /\ history_ok s2).
  { unfold handle_r. destruct (Py.last_item (command_history s)) as [[c a]|] eqn:El.
    - apply last_item_In in El.
      pose proof (proj1 (Forall_forall _ _) Hh _ El) as [Hc Ha]. cbn in Hc, Ha.
      subst f1. apply dispatch_nonrepeat; assumption.
    - exists s. auto. }
  destruct H2 as (s2 & -> & Hinv2 & Hh2). cbn [bind].
  rewrite (clamp_cursor_fix s2 Hinv2). cbn [bind].
  change (String.eqb "r" "u") with false. cbn [andb].
  exists s2. auto.
Qed.

Lemma dispatch_total (fuel : nat) (s : state) (cmd : string) (arg : option string) :
  cursor_inv s -> history_ok s -> arg_ok cmd arg ->
  exists s', handle_command (S (S fuel)) s cmd arg = Ok s' /\
             cursor_inv s' /\ history_ok s'.
Proof.
  intros Hinv Hh Harg. destruct (String.eqb_spec cmd "r") as [->|Hr].
  - apply dispatch_repeat; assumption.
  - apply dispatch_nonrepeat; assumption.
Qed.

(** Whatever budget a dispatch was run with, a result it returned is
    clamped and has a replayable history. *)
Lemma dispatch_sound (fuel : nat) (s s' : state) (cmd : string) (arg : option string) :
  cursor_inv s -> history_ok s -> arg_ok cmd arg ->
  handle_command fuel s cmd arg = Ok s' ->
  cursor_inv s' /\ history_ok s'.
Proof.
  intros Hinv Hh Harg Hrun.
  destruct fuel as [|[|fuel]].
  - discriminate.
  - destruct (String.eqb_spec cmd "r") as [->|Hr].
    + cbn [handle_command] in Hrun.
      change (no_snapshot "r") with true in Hrun. cbn [negb] in Hrun.
      change (command_map ?d "r") with (Some (handle_r d)) in Hrun.
      unfold handle_r in Hrun.
      destruct (Py.last_item (command_history s)); [discriminate|].
      cbn [bind] in Hrun. rewrite (clamp_cursor_fix s Hinv) in Hrun.
      cbn [bind] in Hrun. change (String.eqb "r" "u") with false in Hrun.
      cbn [andb] in Hrun. injection Hrun as <-. auto.
    + destruct (dispatch_nonrepeat 0 s cmd arg Hinv Hh Hr Harg) as (s'' & H1 & H2).
      rewrite Hrun in H1. injection H1 as <-. exact H2.
  - destruct (dispatch_total fuel s cmd arg Hinv Hh Harg) as (s'' & H1 & H2).
    rewrite Hrun in H1. injection H1 as <-. exact H2.
Qed.

(* ================================================================== *)
(** ** Parsed commands and reachable states *)

Ltac split_rule E :=
  match goal with
  | |- context [if ?b then Some _ else _] => destruct b eqn:E; cbv beta iota
  end.

Lemma parse_command_arg_ok (input cmd : string) (arg : option string) :
  parse_command input = (Some cmd, arg) -> arg_ok cmd arg.
Proof.
  unfold parse_command. cbn [find fst].
  split_rule E1.
  { intros [= <- <-] [->| ->]; vm_compute in E1; discriminate E1. }
  split_rule E2.
  { intros [= <- <-] [->| ->]; vm_compute in E2; discriminate E2. }
  split_rule E3.
  { destruct (1 <? Py.len input); [|discriminate].
    intros [= <- <-] _. discriminate. }
  split_rule E4.
  { destruct (1 <? Py.len input); [|discriminate].
    intros [= <- <-] _. discriminate. }
  split_rule E5; [|discriminate].
  intros [= <- <-] [->| ->]; vm_compute in E5; discriminate E5.
Qed.

Lemma initialize_state_inv : cursor_inv initialize_state /\ history_ok initialize_state.
Proof.
  split.
  - unfold cursor_inv, line_count, current_line_length. cbn. lia.
  - constructor.
Qed.

Lemma reachable_inv (s : state) : reachable s -> cursor_inv s /\ history_ok s.
Proof.
  induction 1 as [|s s' input cmd arg fuel _ [Hinv Hh] Hparse Hrun].
  - exact initialize_state_inv.
  - eapply dispatch_sound; eauto using parse_command_arg_ok.
Qed.

Lemma reachable_cursor_inv (s : state) : reachable s -> cursor_inv s.
Proof. intros H. exact (proj1 (reachable_inv s H)). Qed.

(* ================================================================== *)
(** ** The clamp invariant *)

(** C1.  From every reachable state, dispatching any parsed command through
    [handle_command] returns (a recursion budget of two levels is enough,
    the second being the replay inside repeat) and leaves the cursor line in
    [0, max(0, line_count - 1)] and the cursor column in
    [0, max(0, current_line_length - 1)], the length being 0 when there is
    no line under the cursor.  Moreover [clamp_cursor] never raises, on any
    state, and clamping a clamped state changes nothing. *)
Theorem clamp_invariant_after_dispatch
        (s : state) (input cmd : string) (arg : option string) (fuel : nat)
        (Hreach : reachable s)
        (Hparse : parse_command input = (Some cmd, arg)) :
  (exists s',
      handle_command (S (S fuel)) s cmd arg = Ok s' /\
      0 <= current_line s' <= Z.max 0 (line_count s' - 1) /\
      0 <= current_row s' <= Z.max 0 (current_line_length s' - 1)) /\
  (forall t : state,
      exists t', clamp_cursor t = Ok t' /\ clamp_cursor t' = Ok t').
Proof.
  split.
  - destruct (reachable_inv s Hreach) as [Hinv Hh].
    destruct (dispatch_total fuel s cmd arg Hinv Hh
                (parse_command_arg_ok input cmd arg Hparse))
      as (s' & Hrun & Hinv' & _).
    exists s'. split; [exact Hrun|exact Hinv'].
  - intros t. destruct (clamp_cursor_total t) as (t' & Ht & _).
    exists t'. split; [exact Ht|]. exact (clamp_cursor_idempotent t t' Ht).
Qed.

Lemma clamp_invariant_after_dispatch_witness :
  (exists s',
      handle_command 2 initialize_state "i" (Some "hi") = Ok s' /\
      0 <= current_line s' <= Z.max 0 (line_count s' - 1) /\
      0 <= current_row s' <= Z.max 0 (current_line_length s' - 1)) /\
  (forall t : state,
      exists t', clamp_cursor t = Ok t' /\ clamp_cursor t' = Ok t').
Proof.
  apply (clamp_invariant_after_dispatch initialize_state "ihi" "i" (Some "hi") 0%nat).
  - exact reach_init.
  - reflexivity.
Defined.

(* ================================================================== *)
(** ** Undo *)

(** C2.  In a state whose cursor satisfies the document invariant (every
    reachable state does, [reachable_cursor_inv]), dispatching a verb outside
    u, r, ?, s with an argument that fits it and then dispatching undo
    returns a state with the document, cursor line, cursor column, both
    toggle flags and the clipboard of the starting state. *)
Theorem undo_restores_snapshot
        (s : state) (cmd : string) (arg uarg : option string) (fuel : nat)
        (Hinv : cursor_inv s)
        (Hverb : no_snapshot cmd = false)
        (Harg : arg_ok cmd arg) :
  exists s1 s2,
    handle_command (S fuel) s cmd arg = Ok s1 /\
    handle_command (S fuel) s1 "u" uarg = Ok s2 /\
    snapshot_of s2 = snapshot_of s.
Proof.
  assert (Hu : cmd <> "u") by (intros ->; discriminate Hverb).
  assert (Hr : cmd <> "r") by (intros ->; discriminate Hverb).
  destruct (dispatch_plain fuel s cmd arg Hinv Hu Hr Harg)
    as (s1 & Hrun & _ & Hstack & _).
  rewrite Hverb in Hstack.
  exists s1. cbn [handle_command].
  change (no_snapshot "u") with true. cbn [negb].
  change (command_map (handle_command fuel) "u") with (Some handle_u).
  unfold handle_u. rewrite Hstack, pop_app.
  set (r := restore_state (set_undo_stack s1 (undo_stack s)) (snapshot_of s)).
  assert (Hr1 : cursor_inv r) by exact Hinv.
  assert (Hr2 : cursor_inv (drop_command r)) by exact Hinv.
  change (String.eqb "u" "u") with true. cbn [andb].
  destruct (Py.list_truthy (command_history r)); cbn [bind].
  - rewrite (clamp_cursor_fix _ Hr2). cbn [bind].
    destruct (Py.list_truthy (command_history (drop_command r)));
      eexists; (split; [exact Hrun|]); split; reflexivity.
  - rewrite (clamp_cursor_fix _ Hr1). cbn [bind].
    destruct (Py.list_truthy (command_history r));
      eexists; (split; [exact Hrun|]); split; reflexivity.
Qed.

Lemma undo_restores_snapshot_witness :
  exists s1 s2,
    handle_command 1 initialize_state "i" (Some "hi") = Ok s1 /\
    handle_command 1 s1 "u" None = Ok s2 /\
    snapshot_of s2 = snapshot_of initialize_state.
Proof.
  apply (undo_restores_snapshot initialize_state "i" (Some "hi") None 0%nat).
  - exact (proj1 initialize_state_inv).
  - reflexivity.
  - intros _. discriminate.
Defined.

(* ================================================================== *)
(** ** History against the undo stack *)

(** C3.  The run that breaks the lockstep: from the initial state, one
    dispatch of [i] with the text hi pushes one snapshot and records the
    command twice, once in [handle_i] and once in [handle_command]. *)
Theorem insert_records_twice :
  exists s',
    handle_command 1 initialize_state "i" (Some "hi") = Ok s' /\
    command_history s' = [("i", Some "hi"); ("i", Some "hi")] /\
    List.length (undo_stack s') = 1%nat /\
    List.length (command_history s') <> List.length (undo_stack s').
Proof.
  eexists. split; [run|]. repeat (split; [reflexivity|]). discriminate.
Qed.

(** The same doubling on the way back: undo pops one snapshot and two
    history entries, so after two cursor moves and one undo the history is
    empty while one snapshot is left. *)
Example undo_pops_twice :
  exists s1 s2 s3,
    handle_command 1 initialize_state "h" None = Ok s1 /\
    handle_command 1 s1 "h" None = Ok s2 /\
    handle_command 1 s2 "u" None = Ok s3 /\
    command_history s3 = [] /\
    List.length (undo_stack s3) = 1%nat.
Proof.
  do 3 eexists. do 3 (split; [run|]). split; reflexivity.
Qed.

(* ================================================================== *)
(** ** Repeat *)

(** C4.  From the initial state, [i] with the text hi gives the document
    [["hi"]] with the cursor column still 0, and a following repeat gives
    the document [["hihi"]]. *)
Theorem insert_then_repeat (fuel : nat) :
  exists s1 s2,
    handle_command (S (S fuel)) initialize_state "i" (Some "hi") = Ok s1 /\
    content s1 = ["hi"] /\
    current_row s1 = 0 /\
    handle_command (S (S fuel)) s1 "r" None = Ok s2 /\
    content s2 = ["hihi"].
Proof.
  do 2 eexists. split; [run|]. split; [reflexivity|].
  split; [reflexivity|]. split; [run|reflexivity].
Qed.

(* ================================================================== *)
(** ** Parser *)

Lemma from_one (a c : ascii) (rest : string) :
  (1 <? Py.len (String a (String c rest))) = true /\
  Py.from (String a (String c rest)) 1 = String c rest.
Proof.
  assert (H : 1 < Py.len (String a (String c rest)))
    by (unfold Py.len; cbn [String.length]; lia).
  split; [apply Z.ltb_lt; exact H|].
  unfold Py.from, Py.slice_bound. cbn [Z.ltb Z.compare].
  replace (Z.min 1 (Py.len (String a (String c rest)))) with 1 by lia.
  reflexivity.
Qed.

(* ================================================================== *)
(** ** Single verbs *)

(** The shape of a dispatch of a snapshot-taking verb of the command table,
    once the outcome of its handler is known. *)
Lemma dispatch_recorded (fuel : nat) (s s2 : state) (cmd : string)
      (arg : option string) (h : handler) :
  no_snapshot cmd = false ->
  command_map (handle_command fuel) cmd = Some h ->
  in_command_map cmd = true ->
  String.eqb cmd "r" = false ->
  h (save_state s) arg = Ok s2 ->
  exists s3,
    clamp_cursor s2 = Ok s3 /\ same_but_cursor s2 s3 /\ cursor_inv s3 /\
    handle_command (S fuel) s cmd arg = Ok (record_command s3 (cmd, arg)).
Proof.
  intros Hn Hm Hin Hr Hh.
  destruct (clamp_cursor_total s2) as (s3 & Hc & Hsame & Hinv).
  exists s3. repeat (split; [assumption|]).
  cbn [handle_command]. rewrite Hn, Hm. cbn [negb]. rewrite Hh. cbn [bind].
  rewrite Hc. cbn [bind]. rewrite Hin, Hr. reflexivity.
Qed.

Lemma same_but_cursor_content (s s' : state) :
  same_but_cursor s s' -> content s' = content s.
Proof. intros (_ & _ & H & _). exact H. Qed.

(** C6.  With no line in the clipboard, a dispatch of p or of P returns and
    leaves the document as it was; the cursor stays where it was whenever
    it satisfied the cursor invariant before (as it does in every reachable
    state).  The clipboard holds a line only after a yank, and then paste
    inserts it, also when the yanked line is the empty string. *)
Theorem paste_without_clipboard
        (s : state) (cmd : string) (arg : option string) (fuel : nat)
        (Hclip : clipboard s = None)
        (Hcmd : cmd = "p" \/ cmd = "P") :
  exists s',
    handle_command (S fuel) s cmd arg = Ok s' /\
    content s' = content s /\
    (cursor_inv s ->
     current_line s' = current_line s /\ current_row s' = current_row s).
Proof.
  assert (Hrun : exists h, command_map (handle_command fuel) cmd = Some h /\
                           h (save_state s) arg = Ok (save_state s) /\
                           no_snapshot cmd = false /\
                           in_command_map cmd = true /\
                           String.eqb cmd "r" = false).
  { destruct Hcmd as [->| ->]; eexists; (split; [reflexivity|]);
      (split; [|repeat split]); cbv beta; unfold handle_paste;
      change (clipboard (save_state s)) with (clipboard s);
      rewrite Hclip; reflexivity. }
  destruct Hrun as (h & Hm & Hh & Hn & Hin & Hr).
  destruct (dispatch_recorded fuel s _ cmd arg h Hn Hm Hin Hr Hh)
    as (s3 & Hc & Hsame & _ & Hdisp).
  eexists. split; [exact Hdisp|]. split.
  - cbn. apply (same_but_cursor_content _ _ Hsame).
  - intros Hinv. rewrite (clamp_cursor_fix (save_state s) Hinv) in Hc.
    injection Hc as <-. split; reflexivity.
Qed.

Lemma paste_without_clipboard_witness :
  exists s',
    handle_command 1 initialize_state "p" None = Ok s' /\
    content s' = content initialize_state /\
    (cursor_inv initialize_state ->
     current_line s' = current_line initialize_state /\
     current_row s' = current_row initialize_state).
Proof.
  apply (paste_without_clipboard initialize_state "p" None 0%nat).
  - reflexivity.
  - left. reflexivity.
Defined.

(** A yanked empty line is a line: paste inserts it. *)
Example paste_empty_line :
  exists s1 s2 s3,
    handle_command 1 initialize_state "o" None = Ok s1 /\
    handle_command 1 s1 "yy" None = Ok s2 /\
    clipboard s2 = Some "" /\
    handle_command 1 s2 "p" None = Ok s3 /\
    content s3 = [""; ""].
Proof.
  do 3 eexists. do 2 (split; [run|]). split; [reflexivity|].
  split; [run|reflexivity].
Qed.

(** C7.  On the document [["abc"]] with the cursor on line 0, yy followed by
    p gives the document [["abc"; "abc"]] with the cursor on line 1. *)
Theorem yank_then_paste (s : state) (fuel : nat)
        (Hdoc : content s = ["abc"])
        (Hline : current_line s = 0) :
  exists s1 s2,
    handle_command (S fuel) s "yy" None = Ok s1 /\
    handle_command (S fuel) s1 "p" None = Ok s2 /\
    content s2 = ["abc"; "abc"] /\
    current_line s2 = 1.
Proof.
  destruct s as [hi rs c cl cr sl sr cb us ch]. cbn in Hdoc, Hline. subst c cl.
  do 2 eexists. split; [run|]. split; [run|]. split; reflexivity.
Qed.

Lemma yank_then_paste_witness :
  exists s1 s2,
    handle_command 1 (set_content initialize_state ["abc"]) "yy" None = Ok s1 /\
    handle_command 1 s1 "p" None = Ok s2 /\
    content s2 = ["abc"; "abc"] /\
    current_line s2 = 1.
Proof.
  apply (yank_then_paste (set_content initialize_state ["abc"]) 0%nat);
    reflexivity.
Defined.

(** C8.  When the line under the cursor is empty, or the cursor column is at
    or beyond its length, a dispatch of x returns and leaves the document as
    it was. *)
Theorem delete_char_out_of_line
        (s : state) (line : string) (arg : option string) (fuel : nat)
        (Hcur : Py.getitem (content s) (current_line s) = Ok line)
        (Hout : line = "" \/ Py.len line <= current_row s) :
  exists s',
    handle_command (S fuel) s "x" arg = Ok s' /\
    content s' = content s /\
    Py.getitem (content s') (current_line s) = Ok line.
Proof.
  assert (Hh : handle_x (save_state s) arg = Ok (save_state s)).
  { unfold handle_x. change (content (save_state s)) with (content s).
    change (current_line (save_state s)) with (current_line s).
    change (current_row (save_state s)) with (current_row s).
    destruct (content s) as [|l0 ls] eqn:Ec; [reflexivity|].
    cbn [Py.list_truthy]. rewrite Hcur. cbn [bind].
    destruct Hout as [->|Hge]; [reflexivity|].
    destruct (Z.ltb_spec (current_row s) (Py.len line)); [lia|].
    rewrite andb_false_r. reflexivity. }
  destruct (dispatch_recorded fuel s _ "x" arg handle_x
              eq_refl eq_refl eq_refl eq_refl Hh)
    as (s3 & _ & Hsame & _ & Hdisp).
  eexists. split; [exact Hdisp|].
  assert (Hc : content (record_command s3 ("x", arg)) = content s)
    by (cbn; apply (same_but_cursor_content _ _ Hsame)).
  split; [exact Hc|]. rewrite Hc. exact Hcur.
Qed.

Lemma delete_char_out_of_line_witness :
  exists s',
    handle_command 1 (set_content initialize_state [""]) "x" None = Ok s' /\
    content s' = content (set_content initialize_state [""]) /\
    Py.getitem (content s') (current_line (set_content initialize_state [""])) = Ok "".
Proof.
  apply (delete_char_out_of_line (set_content initialize_state [""]) "" None 0%nat).
  - reflexivity.
  - left. reflexivity.
Defined.

(** C9.  On a document of one line, with the cursor on it, dd gives the
    empty document with the cursor on line 0; a second dd returns as well
    and leaves document, cursor line and cursor column as they were. *)
Theorem delete_only_line
        (s : state) (line : string) (arg arg' : option string) (fuel : nat)
        (Hdoc : content s = [line])
        (Hline : current_line s = 0) :
  exists s1 s2,
    handle_command (S fuel) s "dd" arg = Ok s1 /\
    content s1 = [] /\
    current_line s1 = 0 /\
    handle_command (S fuel) s1 "dd" arg' = Ok s2 /\
    content s2 = content s1 /\
    current_line s2 = current_line s1 /\
    current_row s2 = current_row s1.
Proof.
  assert (Hh : handle_dd (save_state s) arg
               = Ok (record_command
                       (set_current_line (set_content (save_state s) []) 0)
                       ("dd", None))).
  { unfold handle_dd. change (content (save_state s)) with (content s).
    change (current_line (save_state s)) with (current_line s).
    rewrite Hdoc, Hline. reflexivity. }
  destruct (dispatch_recorded fuel s _ "dd" arg handle_dd
              eq_refl eq_refl eq_refl eq_refl Hh)
    as (s3 & _ & Hsame & Hinv3 & Hdisp).
  assert (Hc3 : content s3 = []) by (apply (same_but_cursor_content _ _ Hsame)).
  destruct (empty_document_cursor s3 Hinv3 Hc3) as [Hl3 Hr3].
  set (s1 := record_command s3 ("dd", arg)) in *.
  assert (Hh' : handle_dd (save_state s1) arg' = Ok (save_state s1)).
  { unfold handle_dd. change (content (save_state s1)) with (content s3).
    rewrite Hc3. reflexivity. }
  destruct (dispatch_recorded fuel s1 _ "dd" arg' handle_dd
              eq_refl eq_refl eq_refl eq_refl Hh')
    as (s3' & Hclamp & _ & _ & Hdisp').
  assert (Hinv1 : cursor_inv (save_state s1)) by exact Hinv3.
  rewrite (clamp_cursor_fix _ Hinv1) in Hclamp. injection Hclamp as <-.
  exists s1. eexists. split; [exact Hdisp|]. split; [exact Hc3|].
  split; [exact Hl3|]. split; [exact Hdisp'|]. repeat split.
Qed.

Lemma delete_only_line_witness :
  exists s1 s2,
    handle_command 1 (set_content initialize_state ["abc"]) "dd" None = Ok s1 /\
    content s1 = [] /\
    current_line s1 = 0 /\
    handle_command 1 s1 "dd" None = Ok s2 /\
    content s2 = content s1 /\
    current_line s2 = current_line s1 /\
    current_row s2 = current_row s1.
Proof.
  apply (delete_only_line (set_content initialize_state ["abc"]) "abc" None None 0%nat);
    reflexivity.
Defined.

Lemma insert_nil {A : Type} (i : Z) (v : A) : Py.insert [] i v = [v].
Proof. unfold Py.insert. rewrite firstn_nil, skipn_nil. reflexivity. Qed.

Lemma one_empty_line_cursor (s : state) :
  cursor_inv s -> content s = [EmptyString] ->
  current_line s = 0 /\ current_row s = 0.
Proof.
  intros [Hl Hr] Hc. unfold line_count, current_line_length in *.
  rewrite Hc in *. cbn in Hl. assert (H0 : current_line s = 0) by lia.
  rewrite H0 in Hr. cbn in Hr. lia.
Qed.

(** C10.  On the empty document a dispatch of o or of O returns; the
    document becomes one empty line and the cursor rests on line 0,
    column 0. *)
Theorem open_line_on_empty_document
        (s : state) (cmd : string) (arg : option string) (fuel : nat)
        (Hdoc : content s = [])
        (Hcmd : cmd = "o" \/ cmd = "O") :
  exists s',
    handle_command (S fuel) s cmd arg = Ok s' /\
    content s' = [EmptyString] /\
    current_line s' = 0 /\
    current_row s' = 0.
Proof.
  assert (Hrun : exists h s2,
             command_map (handle_command fuel) cmd = Some h /\
             h (save_state s) arg = Ok s2 /\
             content s2 = [EmptyString] /\
             no_snapshot cmd = false /\
             in_command_map cmd = true /\
             String.eqb cmd "r" = false).
  { destruct Hcmd as [->| ->]; do 2 eexists; (split; [reflexivity|]);
      (split; [reflexivity|]); (split; [|repeat split]); cbn;
      rewrite Hdoc; apply insert_nil. }
  destruct Hrun as (h & s2 & Hm & Hh & Hc2 & Hn & Hin & Hr).
  destruct (dispatch_recorded fuel s s2 cmd arg h Hn Hm Hin Hr Hh)
    as (s3 & _ & Hsame & Hinv3 & Hdisp).
  assert (Hc3 : content s3 = [EmptyString])
    by (rewrite (same_but_cursor_content _ _ Hsame); exact Hc2).
  destruct (one_empty_line_cursor s3 Hinv3 Hc3) as [Hl3 Hr3].
  eexists. split; [exact Hdisp|]. repeat split; assumption.
Qed.

Lemma open_line_on_empty_document_witness :
  exists s',
    handle_command 1 initialize_state "o" None = Ok s' /\
    content s' = [EmptyString] /\
    current_line s' = 0 /\
    current_row s' = 0.
Proof.
  apply (open_line_on_empty_document initialize_state "o" None 0%nat).
  - reflexivity.
  - left. reflexivity.
Defined.

(* ================================================================== *)
(** ** The parser, in full *)

Lemma mem_In (c : string) (xs : list string) : Py.mem c xs = true <-> In c xs.
Proof.
  unfold Py.mem. rewrite existsb_exists. split.
  - intros (x & Hin & Heq). apply String.eqb_eq in Heq. subst x. exact Hin.
  - intros Hin. exists c. split; [exact Hin|apply String.eqb_refl].
Qed.

Ltac each_member H :=
  cbn [In] in H;
  repeat (destruct H as [<-|H]; [try reflexivity|]); try contradiction.

Lemma parse_text (a c : ascii) (rest : string) :
  a = "i"%char \/ a = "a"%char ->
  parse_command (String a (String c rest))
  = (Some (String a EmptyString), Some (String c rest)).
Proof.
  destruct (from_one a c rest) as [Hlt Hfrom].
  intros [->| ->]; unfold parse_command;
    cbn [find fst Py.mem existsb String.eqb Ascii.eqb Bool.eqb orb
         startswith String.prefix].
  - destruct (ascii_dec "i" "i"); [|congruence].
    cbv beta iota. rewrite Hlt, Hfrom. reflexivity.
  - destruct (ascii_dec "i" "a"); [discriminate|].
    destruct (ascii_dec "a" "a"); [|congruence].
    cbv beta iota. rewrite Hlt, Hfrom. reflexivity.
Qed.

Lemma startswith_inv (input : string) (a : ascii) :
  startswith input (String a EmptyString) = true ->
  exists rest, input = String a rest.
Proof.
  unfold startswith. destruct input as [|b rest]; cbn [String.prefix].
  - discriminate.
  - destruct (ascii_dec a b) as [<-|]; [|discriminate].
    intros _. exists rest. reflexivity.
Qed.

Lemma parse_command_inv (input cmd : string) (arg : option string) :
  parse_command input = (Some cmd, arg) ->
  (arg = None /\ input = cmd /\ In cmd plain_verbs) \/
  (exists t, arg = Some t /\ (cmd = "i" \/ cmd = "a") /\
             t <> EmptyString /\ input = (cmd ++ t)%string).
Proof.
  unfold parse_command. cbn [find fst].
  split_rule E1.
  { intros [= <- <-]. left. apply mem_In in E1.
    repeat split. each_member E1; cbn; tauto. }
  split_rule E2.
  { intros [= <- <-]. left. apply mem_In in E2.
    repeat split. each_member E2; cbn; tauto. }
  split_rule E3.
  { destruct (Z.ltb_spec 1 (Py.len input)) as [Hlen|]; [|discriminate].
    intros [= <- <-]. right.
    destruct (startswith_inv _ _ E3) as (rest & ->).
    destruct rest as [|c rest]; [unfold Py.len in Hlen; cbn in Hlen; lia|].
    destruct (from_one "i" c rest) as [_ ->].
    exists (String c rest). repeat split; auto. discriminate. }
  split_rule E4.
  { destruct (Z.ltb_spec 1 (Py.len input)) as [Hlen|]; [|discriminate].
    intros [= <- <-]. right.
    destruct (startswith_inv _ _ E4) as (rest & ->).
    destruct rest as [|c rest]; [unfold Py.len in Hlen; cbn in Hlen; lia|].
    destruct (from_one "a" c rest) as [_ ->].
    exists (String c rest). repeat split; auto. discriminate. }
  split_rule E5; [|discriminate].
  intros [= <- <-]. left. apply mem_In in E5.
  repeat split. each_member E5; cbn; tauto.
Qed.

(** C5.  The parser rejects the bare inputs i and a and every unknown
    token: an input that is none of the fixed verbs and does not start with
    i or a parses to (None, None), the token z among them.  An input of
    more than one character whose first character is i (is a) parses to
    the verb i (a) with the rest of the input, everything after that first
    character, as its argument. *)
Theorem parse_command_insert_append (input : string)
        (Hunknown : ~ In input plain_verbs)
        (Hi : startswith input "i" = false)
        (Ha : startswith input "a" = false) :
  parse_command input = (None, None) /\
  parse_command "i" = (None, None) /\
  parse_command "a" = (None, None) /\
  parse_command "z" = (None, None) /\
  (forall (c : ascii) (rest : string),
      parse_command (String "i" (String c rest)) = (Some "i", Some (String c rest)) /\
      Py.from (String "i" (String c rest)) 1 = String c rest) /\
  (forall (c : ascii) (rest : string),
      parse_command (String "a" (String c rest)) = (Some "a", Some (String c rest)) /\
      Py.from (String "a" (String c rest)) 1 = String c rest).
Proof.
  split.
  { unfold parse_command. cbn [find fst]. rewrite Hi, Ha.
    repeat match goal with
           | |- context [if Py.mem input ?xs then _ else _] =>
               let E := fresh "E" in
               destruct (Py.mem input xs) eqn:E;
               [exfalso; apply Hunknown; apply mem_In in E;
                unfold plain_verbs; cbn [In] in *; tauto|]
           end.
    reflexivity. }
  repeat (split; [reflexivity|]).
  split; intros c rest.
  - destruct (from_one "i" c rest) as [Hlt Hfrom]. split; [|exact Hfrom].
    unfold parse_command.
    cbn [find fst Py.mem existsb String.eqb Ascii.eqb Bool.eqb orb
         startswith String.prefix].
    destruct (ascii_dec "i" "i"); [|congruence].
    cbv beta iota. rewrite Hlt, Hfrom. reflexivity.
  - destruct (from_one "a" c rest) as [Hlt Hfrom]. split; [|exact Hfrom].
    unfold parse_command.
    cbn [find fst Py.mem existsb String.eqb Ascii.eqb Bool.eqb orb
         startswith String.prefix].
    destruct (ascii_dec "i" "a"); [discriminate|].
    destruct (ascii_dec "a" "a"); [|congruence].
    cbv beta iota. rewrite Hlt, Hfrom. reflexivity.
Qed.

Lemma parse_command_insert_append_witness :
  parse_command "hello" = (None, None) /\
  parse_command "i" = (None, None) /\
  parse_command "a" = (None, None) /\
  parse_command "z" = (None, None) /\
  (forall (c : ascii) (rest : string),
      parse_command (String "i" (String c rest)) = (Some "i", Some (String c rest)) /\
      Py.from (String "i" (String c rest)) 1 = String c rest) /\
  (forall (c : ascii) (rest : string),
      parse_command (String "a" (String c rest)) = (Some "a", Some (String c rest)) /\
      Py.from (String "a" (String c rest)) 1 = String c rest).
Proof.
  apply (parse_command_insert_append "hello").
  - unfold plain_verbs. cbn [In].
    intros H. repeat (destruct H as [H|H]; [discriminate H|]). exact H.
  - reflexivity.
  - reflexivity.
Defined.

(** X1.  The parser returns a verb without argument exactly on the 23
    fixed tokens, and then the verb is the whole input: a known verb
    followed by any further text is not accepted as that verb. *)
Theorem parse_command_plain (input cmd : string) :
  parse_command input = (Some cmd, None) <->
  input = cmd /\ In cmd plain_verbs.
Proof.
  split.
  - intros H. destruct (parse_command_inv _ _ _ H) as [(_ & H1 & H2)|(t & Ht & _)].
    + split; assumption.
    + discriminate Ht.
  - intros [-> Hin]. unfold plain_verbs in Hin. each_member Hin.
Qed.

(** X2.  The parser returns a verb with an argument exactly when the input
    is i or a followed by a non-empty text; verb and argument put together
    give the input back. *)
Theorem parse_command_text (input cmd t : string) :
  parse_command input = (Some cmd, Some t) <->
  (cmd = "i" \/ cmd = "a") /\ t <> EmptyString /\ input = (cmd ++ t)%string.
Proof.
  split.
  - intros H. destruct (parse_command_inv _ _ _ H) as [(Hn & _)|(t' & Ht & H1 & H2 & H3)].
    + discriminate Hn.
    + injection Ht as <-. auto.
  - intros (Hc & Ht & ->). destruct t as [|c rest]; [contradiction|].
    destruct Hc as [->| ->]; cbn [String.append]; apply parse_text; auto.
Qed.

(** X3.  Parser and command table agree: every verb the parser returns,
    other than ?, s and q, has a handler in [command_map]; and an insert or
    append always comes with its text. *)
Theorem parsed_verbs_have_handlers (input cmd : string) (arg : option string)
        (Hparse : parse_command input = (Some cmd, arg))
        (Hverb : ~ In cmd ["?"; "s"; "q"]) :
  in_command_map cmd = true /\
  ((cmd = "i" \/ cmd = "a") <-> arg <> None).
Proof.
  destruct (parse_command_inv _ _ _ Hparse)
    as [(-> & _ & Hin)|(t & -> & Hc & _ & _)].
  - split.
    + unfold plain_verbs in Hin. each_member Hin; exfalso; apply Hverb; cbn; tauto.
    + split; [|congruence].
      unfold plain_verbs in Hin. cbn [In] in Hin.
      intros [->| ->]; exfalso;
        repeat (destruct Hin as [Hin|Hin]; [discriminate Hin|]); exact Hin.
  - split.
    + destruct Hc as [->| ->]; reflexivity.
    + split; [discriminate|auto].
Qed.

Lemma parsed_verbs_have_handlers_witness :
  in_command_map "dd" = true /\ (("dd" = "i" \/ "dd" = "a") <-> @None string <> None).
Proof.
  apply (parsed_verbs_have_handlers "dd" "dd" None).
  - reflexivity.
  - cbn. intros [H|[H|[H|[]]]]; discriminate H.
Defined.

(* ================================================================== *)
(** ** Where the scanner lands *)

Section Scanner.

Variable test : ascii -> bool.
Variable line : string.

Lemma scan_forward_sound (fuel : nat) :
  forall pos p, 0 <= pos -> scan_forward fuel test line pos = Ok p ->
  pos <= p /\
  (pos <= Py.len line -> p <= Py.len line) /\
  (p < Py.len line -> exists c, Py.char_at line p = Ok c /\ test c = false).
Proof.
  induction fuel as [|fuel IH]; intros pos p Hpos; [discriminate|].
  simpl. destruct (Z.ltb_spec pos (Py.len line)) as [Hlt|Hge].
  - destruct (char_at_in_range line pos) as (c & Hc); [lia|].
    rewrite Hc. cbn [bind]. destruct (test c) eqn:Et.
    + intros H. destruct (IH (pos + 1) p) as (H1 & H2 & H3); [lia|exact H|].
      split; [lia|]. split; [intros _; apply H2; lia|exact H3].
    + intros [= <-]. split; [lia|]. split; [lia|]. intros _. exists c. auto.
  - intros [= <-]. split; [lia|]. split; [lia|]. lia.
Qed.

Lemma scan_forward_advances (fuel : nat) (pos p : Z) (c : ascii) :
  0 <= pos -> scan_forward fuel test line pos = Ok p ->
  pos < Py.len line -> Py.char_at line pos = Ok c -> test c = true -> pos < p.
Proof.
  intros Hpos Hrun Hlt Hc Ht. destruct fuel as [|fuel]; [discriminate|].
  simpl in Hrun. destruct (Z.ltb_spec pos (Py.len line)); [|lia].
  rewrite Hc in Hrun. cbn [bind] in Hrun. rewrite Ht in Hrun.
  destruct (scan_forward_sound fuel (pos + 1) p) as (H1 & _); [lia|exact Hrun|lia].
Qed.

Lemma scan_backward_sound (fuel : nat) :
  forall pos p, 0 <= pos <= Py.len line -> scan_backward fuel test line pos = Ok p ->
  0 <= p <= pos /\
  (0 < p -> exists c, Py.char_at line (p - 1) = Ok c /\ test c = false).
Proof.
  induction fuel as [|fuel IH]; intros pos p Hpos; [discriminate|].
  simpl. destruct (Z.ltb_spec 0 pos) as [Hlt|Hge].
  - destruct (char_at_in_range line (pos - 1)) as (c & Hc); [lia|].
    rewrite Hc. cbn [bind]. destruct (test c) eqn:Et.
    + intros H. destruct (IH (pos - 1) p) as (H1 & H2); [lia|exact H|].
      split; [lia|exact H2].
    + intros [= <-]. split; [lia|]. intros _. exists c. auto.
  - intros [= <-]. split; [lia|]. lia.
Qed.

End Scanner.

Lemma find_word_boundary_forward (line : string) (pos : Z) :
  find_word_boundary line pos 1 = find_word_end line pos.
Proof. reflexivity. Qed.

Lemma find_word_end_lands (line : string) (pos : Z)
      (Hpos : 0 <= pos < Py.len line) :
  exists p,
    find_word_end line pos = Ok p /\
    pos < p <= Py.len line /\
    (p < Py.len line ->
     exists c, Py.char_at line p = Ok c /\ Py.isspace c = false).
Proof.
  unfold find_word_end.
  destruct (scan_forward_total (fun ch => negb (Py.isspace ch)) line pos)
    as (p1 & H1 & _); [lia|].
  rewrite H1. cbn [bind].
  destruct (scan_forward_sound _ _ _ pos p1 (proj1 Hpos) H1) as (Ha & Hb & Hc).
  destruct (scan_forward_total Py.isspace line p1) as (p2 & H2 & _); [lia|].
  assert (Hp1 : 0 <= p1) by lia.
  destruct (scan_forward_sound _ _ _ p1 p2 Hp1 H2) as (Hd & He & Hf).
  exists p2. split; [exact H2|]. split.
  - split; [|lia].
    destruct (char_at_in_range line pos Hpos) as (c & Hch).
    destruct (Py.isspace c) eqn:Esp.
    + (* the first scan stops at once on a whitespace character *)
      assert (Hstop : p1 = pos).
      { unfold forward_budget in H1. simpl in H1.
        destruct (Z.ltb_spec pos (Py.len line)); [|lia].
        rewrite Hch in H1. cbn [bind] in H1. rewrite Esp in H1.
        cbn [negb] in H1. injection H1 as <-. reflexivity. }
      subst p1.
      pose proof (scan_forward_advances Py.isspace _ _ pos p2 c
                    (proj1 Hpos) H2 (proj2 Hpos) Hch Esp).
      lia.
    + pose proof (scan_forward_advances (fun ch => negb (Py.isspace ch)) _ _
                    pos p1 c (proj1 Hpos) H1 (proj2 Hpos) Hch) as Hadv.
      cbv beta in Hadv. rewrite Esp in Hadv. specialize (Hadv eq_refl). lia.
  - exact Hf.
Qed.

(** X4.  Scanning forward from a position inside the line always
    advances, stays within the line, and stops at the end of the line or on
    a character that is not whitespace: the start of the next word.
    [find_word_boundary] with direction 1 and [find_word_end] are the same
    scan. *)
Theorem forward_scan_lands_on_word (line : string) (pos : Z)
        (Hpos : 0 <= pos < Py.len line) :
  exists p,
    find_word_end line pos = Ok p /\
    find_word_boundary line pos 1 = Ok p /\
    pos < p <= Py.len line /\
    (p < Py.len line ->
     exists c, Py.char_at line p = Ok c /\ Py.isspace c = false).
Proof.
  destruct (find_word_end_lands line pos Hpos) as (p & Hp & Hrange & Hland).
  exists p. split; [exact Hp|].
  split; [rewrite find_word_boundary_forward; exact Hp|].
  split; [exact Hrange|exact Hland].
Qed.

Lemma forward_scan_lands_on_word_witness :
  exists p,
    find_word_end "foo bar" 0 = Ok p /\
    find_word_boundary "foo bar" 0 1 = Ok p /\
    0 < p <= Py.len "foo bar" /\
    (p < Py.len "foo bar" ->
     exists c, Py.char_at "foo bar" p = Ok c /\ Py.isspace c = false).
Proof.
  apply (forward_scan_lands_on_word "foo bar" 0). vm_compute. split; congruence.
Defined.

Lemma find_word_boundary_backward_lands (line : string) (pos : Z)
      (Hpos : 0 <= pos <= Py.len line) :
  exists p,
    find_word_boundary line pos (-1) = Ok p /\
    0 <= p <= pos /\
    (0 < p -> exists c, Py.char_at line (p - 1) = Ok c /\ Py.isspace c = true).
Proof.
  unfold find_word_boundary. cbn [Z.eqb Pos.eqb].
  destruct (scan_backward_total (fun ch => Py.isspace ch) line pos Hpos)
    as (p1 & H1 & Hle1).
  rewrite H1. cbn [bind].
  destruct (scan_backward_total (fun ch => negb (Py.isspace ch)) line p1)
    as (p2 & H2 & Hle2); [lia|].
  assert (Hp1 : 0 <= p1 <= Py.len line) by lia.
  destruct (scan_backward_sound _ _ _ p1 p2 Hp1 H2) as (Ha & Hb).
  exists p2. split; [exact H2|]. split; [lia|].
  intros Hp. destruct (Hb Hp) as (c & Hc & Hn). exists c. split; [exact Hc|].
  apply negb_false_iff in Hn. exact Hn.
Qed.

(** X5.  Scanning backward from a position of the line never moves right,
    and stops at the start of the line or just after a whitespace
    character: the start of a word. *)
Theorem backward_scan_lands_on_word (line : string) (pos : Z)
        (Hpos : 0 <= pos <= Py.len line) :
  exists p,
    find_word_boundary line pos (-1) = Ok p /\
    0 <= p <= pos /\
    (0 < p -> exists c, Py.char_at line (p - 1) = Ok c /\ Py.isspace c = true).
Proof.
  exact (find_word_boundary_backward_lands line pos Hpos).
Qed.

Lemma backward_scan_lands_on_word_witness :
  exists p,
    find_word_boundary "foo bar" 6 (-1) = Ok p /\
    0 <= p <= 6 /\
    (0 < p -> exists c, Py.char_at "foo bar" (p - 1) = Ok c /\ Py.isspace c = true).
Proof.
  apply (backward_scan_lands_on_word "foo bar" 6). vm_compute. split; congruence.
Defined.

(* ================================================================== *)
(** ** Slices and item assignment *)

Lemma take_drop (n : nat) (s : string) : (Py.take n s ++ Py.drop n s)%string = s.
Proof.
  revert s. induction n as [|n IH]; intros [|c s]; cbn; try reflexivity.
  rewrite IH. reflexivity.
Qed.

Lemma length_take (n : nat) (s : string) :
  String.length (Py.take n s) = Nat.min n (String.length s).
Proof.
  revert s. induction n as [|n IH]; intros [|c s]; cbn; try reflexivity.
  rewrite IH. reflexivity.
Qed.

Lemma length_string_app (a b : string) :
  String.length (a ++ b) = (String.length a + String.length b)%nat.
Proof. induction a as [|c a IH]; cbn; [reflexivity|]. rewrite IH. reflexivity. Qed.

Lemma len_app (a b : string) : Py.len (a ++ b) = Py.len a + Py.len b.
Proof. unfold Py.len. rewrite length_string_app. lia. Qed.

Lemma take_app_length (a b : string) : Py.take (String.length a) (a ++ b) = a.
Proof. induction a as [|c a IH]; cbn; [destruct b; reflexivity|]. rewrite IH. reflexivity. Qed.

Lemma drop_app_length (a b : string) : Py.drop (String.length a) (a ++ b) = b.
Proof. induction a as [|c a IH]; cbn; [reflexivity|exact IH]. Qed.

Lemma slice_bound_in_range (n i : Z) :
  0 <= i <= n -> Py.slice_bound n i = Z.to_nat i.
Proof.
  intros H. unfold Py.slice_bound. destruct (Z.ltb_spec i 0); [lia|].
  f_equal. lia.
Qed.

Lemma upto_from (line : string) (i : Z) :
  (Py.upto line i ++ Py.from line i)%string = line.
Proof. unfold Py.upto, Py.from. apply take_drop. Qed.

Lemma len_upto (line : string) (i : Z) :
  0 <= i <= Py.len line -> Py.len (Py.upto line i) = i.
Proof.
  intros H. unfold Py.upto. rewrite slice_bound_in_range by exact H.
  unfold Py.len in *. rewrite length_take. lia.
Qed.

Lemma upto_app_exact (a b : string) : Py.upto (a ++ b) (Py.len a) = a.
Proof.
  unfold Py.upto. rewrite slice_bound_in_range.
  - unfold Py.len. rewrite Nat2Z.id. apply take_app_length.
  - rewrite len_app. pose proof (len_nonneg a). pose proof (len_nonneg b). lia.
Qed.

Lemma from_app_exact (a b : string) : Py.from (a ++ b) (Py.len a) = b.
Proof.
  unfold Py.from. rewrite slice_bound_in_range.
  - unfold Py.len. rewrite Nat2Z.id. apply drop_app_length.
  - rewrite len_app. pose proof (len_nonneg a). pose proof (len_nonneg b). lia.
Qed.

Lemma from_app_skip (a b : string) (c : ascii) :
  Py.from (a ++ String c b) (Py.len a + 1) = b.
Proof.
  replace (a ++ String c b)%string
    with ((a ++ String c EmptyString) ++ b)%string.
  - replace (Py.len a + 1) with (Py.len (a ++ String c EmptyString)).
    + apply from_app_exact.
    + rewrite len_app. reflexivity.
  - induction a as [|x a IH]; cbn; [reflexivity|]. rewrite IH. reflexivity.
Qed.

(** The character at an index splits the line around it. *)
Lemma char_at_split (line : string) (i : Z) (c : ascii) :
  0 <= i -> Py.char_at line i = Ok c ->
  i < Py.len line /\
  line = (Py.upto line i ++ String c (Py.from line (i + 1)))%string.
Proof.
  intros Hi Hc. unfold Py.char_at, Py.index in Hc.
  destruct (Z.ltb_spec i 0); [lia|].
  destruct (Z.ltb_spec i (Py.len line)) as [Hlt|]; [|discriminate].
  split; [exact Hlt|].
  unfold Py.upto, Py.from.
  rewrite !slice_bound_in_range by lia.
  replace (Z.to_nat (i + 1)) with (S (Z.to_nat i)) by lia.
  destruct (String.get (Z.to_nat i) line) as [c'|] eqn:Eg; [|discriminate].
  injection Hc as ->. clear - Eg. revert line Eg.
  induction (Z.to_nat i) as [|n IH]; intros [|x line] Eg; cbn in *; try discriminate.
  - injection Eg as ->. reflexivity.
  - rewrite <- (IH line Eg). reflexivity.
Qed.

Section ItemFacts.

Context {A : Type}.

Lemma getitem_nth (l : list A) (i : Z) (x : A) :
  0 <= i -> Py.getitem l i = Ok x ->
  i < Py.llen l /\ nth_error l (Z.to_nat i) = Some x.
Proof.
  intros Hi H. unfold Py.getitem, Py.index in H.
  destruct (Z.ltb_spec i 0); [lia|].
  destruct (Z.ltb_spec i (Py.llen l)); [|discriminate].
  destruct (nth_error l (Z.to_nat i)) eqn:E; [|discriminate].
  injection H as ->. auto.
Qed.

Lemma llen_app (l1 l2 : list A) : Py.llen (l1 ++ l2) = Py.llen l1 + Py.llen l2.
Proof. unfold Py.llen. rewrite length_app. lia. Qed.

(** [l[i] = v] keeps the length, puts [v] at [i] and leaves the other
    items where they were. *)
Lemma setitem_spec (l l' : list A) (i : Z) (v : A) :
  0 <= i -> Py.setitem l i v = Ok l' ->
  Py.llen l' = Py.llen l /\
  Py.getitem l' i = Ok v /\
  (forall j, 0 <= j -> j <> i -> Py.getitem l' j = Py.getitem l j).
Proof.
  intros Hi H. unfold Py.setitem, Py.index in H.
  destruct (Z.ltb_spec i 0); [lia|].
  destruct (Z.ltb_spec i (Py.llen l)) as [Hlt|]; [|discriminate].
  assert (Hl' : l' = firstn (Z.to_nat i) l ++ v :: skipn (S (Z.to_nat i)) l)
    by congruence.
  subst l'. clear H.
  assert (Hk : (Z.to_nat i < List.length l)%nat) by (unfold Py.llen in Hlt; lia).
  set (k := Z.to_nat i) in *.
  assert (Hlen : List.length (firstn k l ++ v :: skipn (S k) l) = List.length l).
  { rewrite length_app, length_firstn. cbn [List.length]. rewrite length_skipn. lia. }
  assert (Hll : Py.llen (firstn k l ++ v :: skipn (S k) l) = Py.llen l)
    by (unfold Py.llen; rewrite Hlen; reflexivity).
  split; [exact Hll|]. split.
  - unfold Py.getitem. rewrite Hll, index_in_range by lia. fold k.
    rewrite nth_error_app2 by (rewrite length_firstn; lia).
    rewrite length_firstn. replace (k - Nat.min k (List.length l))%nat with 0%nat by lia.
    reflexivity.
  - intros j Hj Hne. unfold Py.getitem. rewrite Hll.
    unfold Py.index. destruct (Z.ltb_spec j 0); [lia|].
    destruct (Z.ltb_spec j (Py.llen l)) as [Hjl|]; [|reflexivity].
    assert (Hjk : Z.to_nat j <> k) by (unfold k; lia).
    assert (Hjn : (Z.to_nat j < List.length l)%nat) by (unfold Py.llen in Hjl; lia).
    replace (nth_error (firstn k l ++ v :: skipn (S k) l) (Z.to_nat j))
      with (nth_error l (Z.to_nat j)); [reflexivity|].
    destruct (Nat.lt_ge_cases (Z.to_nat j) k) as [Hlt'|Hge'].
    + rewrite nth_error_app1 by (rewrite length_firstn; lia).
      rewrite nth_error_firstn.
      destruct (Nat.ltb_spec (Z.to_nat j) k); [reflexivity|lia].
    + rewrite nth_error_app2 by (rewrite length_firstn; lia).
      rewrite length_firstn.
      replace (Z.to_nat j - Nat.min k (List.length l))%nat
        with (S (Z.to_nat j - S k)) by lia.
      cbn [nth_error]. rewrite nth_error_skipn. f_equal. lia.
Qed.

(** Assigning twice at one index keeps the second value only; assigning
    the item that is there changes nothing. *)
Lemma setitem_twice (l l1 : list A) (i : Z) (v w : A) :
  0 <= i -> Py.setitem l i v = Ok l1 -> Py.setitem l1 i w = Py.setitem l i w.
Proof.
  intros Hi H. unfold Py.setitem, Py.index in *.
  destruct (Z.ltb_spec i 0); [lia|].
  destruct (Z.ltb_spec i (Py.llen l)) as [Hlt|]; [|discriminate].
  assert (Hl1 : l1 = firstn (Z.to_nat i) l ++ v :: skipn (S (Z.to_nat i)) l)
    by congruence.
  subst l1. clear H.
  assert (Hk : (Z.to_nat i < List.length l)%nat) by (unfold Py.llen in Hlt; lia).
  set (k := Z.to_nat i) in *.
  assert (Hlen : List.length (firstn k l ++ v :: skipn (S k) l) = List.length l).
  { rewrite length_app, length_firstn. cbn [List.length]. rewrite length_skipn. lia. }
  unfold Py.llen. rewrite Hlen. fold (Py.llen l).
  destruct (Z.ltb_spec i (Py.llen l)); [|lia].
  f_equal.
  assert (Hf : List.length (firstn k l) = k) by (rewrite length_firstn; lia).
  rewrite firstn_app, Hf, firstn_firstn, Nat.min_id, Nat.sub_diag.
  cbn [firstn]. rewrite app_nil_r.
  rewrite skipn_app, Hf.
  rewrite (skipn_all2 (firstn k l)) by lia.
  replace (S k - k)%nat with 1%nat by lia. reflexivity.
Qed.

Lemma setitem_same (l : list A) (i : Z) (x : A) :
  0 <= i -> Py.getitem l i = Ok x -> Py.setitem l i x = Ok l.
Proof.
  intros Hi H. destruct (getitem_nth l i x Hi H) as [Hlt Hn].
  unfold Py.setitem. rewrite index_in_range by lia. f_equal.
  set (k := Z.to_nat i) in *.
  rewrite <- (firstn_skipn k l) at 3. f_equal.
  clear - Hn. revert l Hn. induction k as [|k IH]; intros [|y l] Hn; cbn in *;
    try discriminate.
  - injection Hn as ->. reflexivity.
  - apply IH. exact Hn.
Qed.

(** Deleting the item that was just inserted gives the list back. *)
Lemma delitem_insert (l : list A) (i : Z) (v : A) :
  Py.delitem (Py.insert l i v) (Z.of_nat (Py.slice_bound (Py.llen l) i)) = Ok l.
Proof.
  unfold Py.insert. set (k := Py.slice_bound (Py.llen l) i).
  assert (Hk : (k <= List.length l)%nat).
  { unfold k, Py.slice_bound, Py.llen.
    destruct (Z.ltb_spec i 0); lia. }
  assert (Hf : List.length (firstn k l) = k) by (rewrite length_firstn; lia).
  unfold Py.delitem. rewrite index_in_range.
  - rewrite Nat2Z.id. f_equal.
    rewrite firstn_app, Hf, firstn_firstn, Nat.min_id, Nat.sub_diag.
    cbn [firstn]. rewrite app_nil_r.
    rewrite skipn_app, Hf, (skipn_all2 (firstn k l)) by lia.
    replace (S k - k)%nat with 1%nat by lia. cbn [skipn app].
    apply firstn_skipn.
  - rewrite llen_app. unfold Py.llen. rewrite Hf. cbn [List.length]. lia.
Qed.

Lemma llen_insert (l : list A) (i : Z) (v : A) :
  Py.llen (Py.insert l i v) = Py.llen l + 1.
Proof.
  unfold Py.insert, Py.llen. rewrite length_app. cbn [List.length].
  rewrite length_firstn, length_skipn. lia.
Qed.

Lemma getitem_insert (l : list A) (i : Z) (v : A) :
  Py.getitem (Py.insert l i v) (Z.of_nat (Py.slice_bound (Py.llen l) i)) = Ok v.
Proof.
  assert (Hk : (Py.slice_bound (Py.llen l) i <= List.length l)%nat).
  { unfold Py.slice_bound, Py.llen. destruct (Z.ltb_spec i 0); lia. }
  unfold Py.getitem. rewrite llen_insert, index_in_range
    by (unfold Py.llen in *; lia).
  rewrite Nat2Z.id. unfold Py.insert.
  set (k := Py.slice_bound (Py.llen l) i) in *.
  rewrite nth_error_app2 by (rewrite length_firstn; lia).
  rewrite length_firstn. replace (k - Nat.min k (List.length l))%nat with 0%nat by lia.
  reflexivity.
Qed.

End ItemFacts.

(* ================================================================== *)
(** ** The value of a dispatch *)

Lemma clamp_cursor_value (s : state) : clamp_cursor s = Ok (clamped s).
Proof.
  unfold clamp_cursor, clamped, clamped_line, clamped_row, line_length_at.
  cbn [content set_current_line current_line current_row].
  destruct (content s) as [|l0 ls] eqn:Ec.
  - cbn. reflexivity.
  - set (n := Py.llen (l0 :: ls)).
    assert (Hn : 0 < n) by (unfold n, Py.llen; simpl; lia).
    destruct (Z.ltb_spec 0 n); [|lia].
    set (cl := Z.max 0 (Z.min (current_line s) (n - 1))).
    assert (Hcl : 0 <= cl < n) by (unfold cl; lia).
    cbn [Py.list_truthy andb].
    destruct (Z.ltb_spec cl n); [|lia].
    destruct (getitem_in_range (l0 :: ls) cl Hcl) as (line & Hg & _).
    rewrite Hg. cbn [bind]. pose proof (len_nonneg line).
    replace (if 0 <? Py.len line then Py.len line - 1 else 0)
      with (Z.max 0 (Py.len line - 1))
      by (destruct (Z.ltb_spec 0 (Py.len line)); lia).
    reflexivity.
Qed.

Lemma clamped_valid (s : state) : cursor_inv s -> clamped s = s.
Proof.
  intros H. pose proof (clamp_cursor_fix s H) as Hf.
  rewrite clamp_cursor_value in Hf. injection Hf as Hf. exact Hf.
Qed.

Lemma clamped_inv (s : state) : cursor_inv (clamped s).
Proof.
  destruct (clamp_cursor_total s) as (s' & Hc & _ & Hinv).
  rewrite clamp_cursor_value in Hc. injection Hc as <-. exact Hinv.
Qed.

(** A dispatch of a snapshot-taking verb of the command table, from the
    outcome of its handler on the state with the snapshot pushed. *)
Lemma dispatch_value (fuel : nat) (s s2 : state) (cmd : string)
      (arg : option string) (h : handler) :
  no_snapshot cmd = false ->
  command_map (handle_command fuel) cmd = Some h ->
  in_command_map cmd = true ->
  String.eqb cmd "r" = false ->
  h (save_state s) arg = Ok s2 ->
  handle_command (S fuel) s cmd arg = Ok (record_command (clamped s2) (cmd, arg)).
Proof.
  intros Hn Hm Hin Hr Hh.
  cbn [handle_command]. rewrite Hn, Hm. cbn [negb]. rewrite Hh. cbn [bind].
  rewrite clamp_cursor_value. cbn [bind]. rewrite Hin, Hr. reflexivity.
Qed.

(** Whatever a dispatch returns is clamped. *)
Lemma dispatch_result_inv (fuel : nat) (s s' : state) (cmd : string)
      (arg : option string) :
  handle_command fuel s cmd arg = Ok s' -> cursor_inv s'.
Proof.
  destruct fuel as [|fuel]; [discriminate|]. cbn [handle_command].
  destruct (match command_map (handle_command fuel) cmd with
            | Some h => h (if negb (no_snapshot cmd) then save_state s else s) arg
            | None => Ok (if negb (no_snapshot cmd) then save_state s else s)
            end) as [s2| |]; cbn [bind]; try discriminate.
  rewrite clamp_cursor_value. cbn [bind].
  pose proof (clamped_inv s2) as Hinv.
  destruct (negb (no_snapshot cmd)).
  - destruct (in_command_map cmd && negb (String.eqb cmd "r"));
      intros [= <-]; exact Hinv.
  - destruct (String.eqb cmd "u" && Py.list_truthy (command_history (clamped s2)));
      intros [= <-]; exact Hinv.
Qed.

(* ================================================================== *)
(** ** Bookkeeping of the handlers *)

Ltac crack H :=
  repeat (cbn [bind negb] in H;
          match type of H with
          | Ok _ = Ok _ => injection H as <-
          | Raise _ = Ok _ => discriminate H
          | OutOfFuel = Ok _ => discriminate H
          | clamp_cursor _ = Ok _ => rewrite clamp_cursor_value in H
          | bind ?m _ = Ok _ => destruct m eqn:?
          | (if ?b then _ else _) = Ok _ => destruct b eqn:?
          | match ?x with _ => _ end = Ok _ => destruct x eqn:?
          end).

Ltac books :=
  split; [cbn; rewrite ?seed_line_undo_stack; reflexivity|];
  first [ left; cbn; rewrite ?seed_line_history; reflexivity
        | right; eexists; cbn; unfold Py.append;
          rewrite ?seed_line_history; reflexivity ].

Lemma handler_books dispatch (s s' : state) (cmd : string) (arg : option string)
      (h : handler) :
  cmd <> "u" -> cmd <> "r" ->
  command_map dispatch cmd = Some h ->
  h s arg = Ok s' ->
  books_kept s s'.
Proof.
  intros Hu Hr H Hrun. unfold command_map in H.
  do 20 (next_key H;
         [injection H as <-; lazy beta in Hrun;
          unfold handle_cursor_toggle, handle_h, handle_l, handle_j, handle_k,
            handle_caret, handle_word_navigation, next_word, previous_word,
            handle_dollar, handle_i, handle_a, handle_x, handle_dw, handle_yy,
            handle_dd, handle_insert_line, handle_paste, concat3 in Hrun;
          crack Hrun; books|]).
  next_key H; [congruence|].
  next_key H; [congruence|].
  discriminate.
Qed.

Ltac crack_all :=
  repeat match goal with
         | H : Ok _ = Ok _ |- _ => injection H as H; subst
         | H : Raise _ = Ok _ |- _ => discriminate H
         | H : OutOfFuel = Ok _ |- _ => discriminate H
         | H : clamp_cursor _ = Ok _ |- _ => rewrite clamp_cursor_value in H
         | H : bind ?m _ = Ok _ |- _ => destruct m eqn:?; cbn [bind] in H
         | H : (if ?b then _ else _) = Ok _ |- _ => destruct b eqn:?
         | H : match ?x with _ => _ end = Ok _ |- _ => destruct x eqn:?
         end.

Lemma pop_inv {A : Type} (l r : list A) (x : A) :
  Py.pop l = Some (x, r) -> l = r ++ [x].
Proof.
  unfold Py.pop. destruct (Py.last_item l) as [y|] eqn:El; [|discriminate].
  intros [= <- <-]. destruct l as [|a l] using rev_ind; [discriminate|].
  rewrite last_item_app in El. injection El as ->.
  rewrite removelast_last. reflexivity.
Qed.

Lemma length_removelast {A : Type} (l : list A) :
  List.length (removelast l) = (List.length l - 1)%nat.
Proof.
  destruct l as [|a l] using rev_ind; [reflexivity|].
  rewrite removelast_last, length_app. cbn. lia.
Qed.

Lemma truthy_length {A : Type} (l : list A) :
  Py.list_truthy l = false -> List.length l = 0%nat.
Proof. destruct l; [reflexivity|discriminate]. Qed.

Lemma no_snapshot_cases (cmd : string) :
  no_snapshot cmd = true -> cmd = "u" \/ cmd = "r" \/ cmd = "?" \/ cmd = "s".
Proof.
  unfold no_snapshot. intros H. apply mem_In in H. cbn [In] in H.
  intuition auto.
Qed.

Lemma books_kept_bound (s s' : state) :
  books_kept s s' ->
  List.length (undo_stack s') = List.length (undo_stack s) /\
  (List.length (command_history s') <= List.length (command_history s) + 1)%nat.
Proof.
  intros [Hu [Hh|(e & Hh)]]; rewrite Hu, Hh; [lia|].
  rewrite length_app. cbn. lia.
Qed.

(** Every dispatch that returns keeps the history within twice the depth
    of the undo stack. *)
Lemma dispatch_history_bounded (fuel : nat) :
  forall (s s' : state) (cmd : string) (arg : option string),
    handle_command fuel s cmd arg = Ok s' ->
    history_bounded s -> history_bounded s'.
Proof.
  unfold history_bounded.
  induction fuel as [|fuel IH]; intros s s' cmd arg Hrun Hb; [discriminate|].
  cbn [handle_command] in Hrun.
  destruct (String.eqb_spec cmd "u") as [->|Hu].
  { change (no_snapshot "u") with true in Hrun. cbn [negb] in Hrun.
    change (command_map ?d "u") with (Some handle_u) in Hrun.
    change (String.eqb "u" "u") with true in Hrun. cbn [andb] in Hrun.
    unfold handle_u in Hrun.
    destruct (Py.pop (undo_stack s)) as [[saved rest]|] eqn:Ep.
    - apply pop_inv in Ep.
      assert (Hlen : List.length (undo_stack s) = S (List.length rest))
        by (rewrite Ep, length_app; cbn; lia).
      crack_all; cbn in *;
        repeat match goal with
               | H : Py.list_truthy _ = false |- _ => apply truthy_length in H
               end;
        rewrite ?length_removelast in *; lia.
    - crack_all; cbn in *; rewrite ?length_removelast in *; lia. }
  destruct (String.eqb_spec cmd "r") as [->|Hr].
  { change (no_snapshot "r") with true in Hrun. cbn [negb] in Hrun.
    change (command_map ?d "r") with (Some (handle_r d)) in Hrun.
    change (String.eqb "r" "u") with false in Hrun. cbn [andb] in Hrun.
    unfold handle_r in Hrun.
    destruct (Py.last_item (command_history s)) as [[c a]|].
    - cbn [fst snd] in Hrun.
      destruct (handle_command fuel s c a) as [s2| |] eqn:E2; try discriminate.
      specialize (IH _ _ _ _ E2 Hb). crack_all. cbn. exact IH.
    - crack_all. cbn. exact Hb. }
  destruct (no_snapshot cmd) eqn:En; cbn [negb] in Hrun.
  - destruct (no_snapshot_cases cmd En) as [->|[->|[->| ->]]]; try congruence;
      cbn in Hrun; crack_all; cbn; exact Hb.
  - assert (H2 : exists s2,
               match command_map (handle_command fuel) cmd with
               | Some h => h (save_state s) arg
               | None => Ok (save_state s)
               end = Ok s2 /\ books_kept (save_state s) s2).
    { destruct (command_map (handle_command fuel) cmd) as [h|] eqn:Eh.
      - destruct (h (save_state s) arg) as [s2| |] eqn:E2; try discriminate.
        exists s2. split; [reflexivity|]. eapply handler_books; eassumption.
      - exists (save_state s). split; [reflexivity|]. split; [reflexivity|].
        left. reflexivity. }
    destruct H2 as (s2 & E2 & Hbooks). rewrite E2 in Hrun.
    apply books_kept_bound in Hbooks. destruct Hbooks as [Hub Hhb].
    cbn in Hub, Hhb. unfold Py.append in Hub. rewrite length_app in Hub.
    cbn in Hub.
    crack_all; cbn; unfold Py.append; rewrite ?length_app; cbn; lia.
Qed.

(** X6.  In every reachable state the history holds at most twice as many
    entries as the undo stack holds snapshots.  In particular the history
    is empty whenever there is nothing to undo. *)
Theorem history_within_twice_undo (s : state) (Hreach : reachable s) :
  (List.length (command_history s) <= 2 * List.length (undo_stack s))%nat /\
  (undo_stack s = [] -> command_history s = []).
Proof.
  assert (Hb : history_bounded s).
  { induction Hreach as [|s s' input cmd arg fuel _ IH _ Hrun].
    - unfold history_bounded. cbn. lia.
    - eapply dispatch_history_bounded; eassumption. }
  split; [exact Hb|].
  intros Hu. unfold history_bounded in Hb. rewrite Hu in Hb.
  destruct (command_history s); [reflexivity|cbn in Hb; lia].
Qed.

Lemma history_within_twice_undo_witness :
  exists s,
    handle_command 1 initialize_state "i" (Some "hi") = Ok s /\
    List.length (command_history s) = 2%nat /\
    List.length (undo_stack s) = 1%nat /\
    (List.length (command_history s) <= 2 * List.length (undo_stack s))%nat /\
    (undo_stack s = [] -> command_history s = []).
Proof.
  eexists. split; [run|]. split; [reflexivity|]. split; [reflexivity|].
  apply history_within_twice_undo.
  apply (reach_step initialize_state _ "ihi" "i" (Some "hi") 1%nat reach_init).
  - reflexivity.
  - run.
Defined.

(* ================================================================== *)
(** ** Verbs that change nothing *)

(** X7.  With a valid cursor, show and help dispatched through
    [handle_command] return the state they were given, and so does repeat
    when the history is empty: no snapshot, no history entry, no change. *)
Theorem idle_verbs_change_nothing
        (s : state) (cmd : string) (arg : option string) (fuel : nat)
        (Hinv : cursor_inv s)
        (Hcmd : cmd = "s" \/ cmd = "?" \/ (cmd = "r" /\ command_history s = [])) :
  handle_command (S fuel) s cmd arg = Ok s.
Proof.
  destruct Hcmd as [->|[->|[-> Hh]]]; cbn [handle_command].
  - change (no_snapshot "s") with true. cbn [negb].
    change (command_map (handle_command fuel) "s") with (@None handler).
    cbn [bind]. rewrite (clamp_cursor_fix s Hinv). reflexivity.
  - change (no_snapshot "?") with true. cbn [negb].
    change (command_map (handle_command fuel) "?") with (@None handler).
    cbn [bind]. rewrite (clamp_cursor_fix s Hinv). reflexivity.
  - change (no_snapshot "r") with true. cbn [negb].
    change (command_map (handle_command fuel) "r")
      with (Some (handle_r (handle_command fuel))).
    unfold handle_r. rewrite Hh. cbn [Py.last_item bind].
    rewrite (clamp_cursor_fix s Hinv). reflexivity.
Qed.

Lemma idle_verbs_change_nothing_witness :
  handle_command 1 initialize_state "r" None = Ok initialize_state.
Proof.
  apply (idle_verbs_change_nothing initialize_state "r" None 0%nat).
  - exact (proj1 initialize_state_inv).
  - right. right. split; reflexivity.
Defined.

(** X8.  In a reachable state with an empty undo stack, undo returns the
    state it was given: there is no snapshot to restore and, by the bound
    on the history, no history entry to drop. *)
Theorem undo_with_nothing_to_undo
        (s : state) (arg : option string) (fuel : nat)
        (Hreach : reachable s)
        (Hempty : undo_stack s = []) :
  handle_command (S fuel) s "u" arg = Ok s.
Proof.
  assert (Hb : history_bounded s).
  { clear Hempty. induction Hreach as [|s s' input cmd a f _ IH _ Hrun].
    - unfold history_bounded. cbn. lia.
    - eapply dispatch_history_bounded; eassumption. }
  assert (Hh : command_history s = []).
  { unfold history_bounded in Hb. rewrite Hempty in Hb.
    destruct (command_history s); [reflexivity|cbn in Hb; lia]. }
  cbn [handle_command]. change (no_snapshot "u") with true. cbn [negb].
  change (command_map (handle_command fuel) "u") with (Some handle_u).
  unfold handle_u. rewrite Hempty. cbn [Py.pop Py.last_item bind].
  rewrite (clamp_cursor_fix s (reachable_cursor_inv s Hreach)). cbn [bind].
  rewrite Hh. reflexivity.
Qed.

Lemma undo_with_nothing_to_undo_witness :
  handle_command 1 initialize_state "u" None = Ok initialize_state.
Proof.
  apply (undo_with_nothing_to_undo initialize_state None 0%nat).
  - exact reach_init.
  - reflexivity.
Defined.

(* ================================================================== *)
(** ** Repeat and the record of a dispatch *)

(** X9.  Repeat is a second dispatch of the last history entry, whatever
    the state: with a non-empty history, dispatching r gives exactly what
    dispatching that entry's verb and argument gives, exception or result,
    one level of recursion further down. *)
Theorem repeat_is_redispatch
        (s : state) (c : string) (a arg : option string) (fuel : nat)
        (Hlast : Py.last_item (command_history s) = Some (c, a)) :
  handle_command (S fuel) s "r" arg = handle_command fuel s c a.
Proof.
  cbn [handle_command]. change (no_snapshot "r") with true. cbn [negb].
  change (command_map (handle_command fuel) "r")
    with (Some (handle_r (handle_command fuel))).
  unfold handle_r. rewrite Hlast. cbn [fst snd].
  destruct (handle_command fuel s c a) as [s2| |] eqn:E; cbn [bind];
    try reflexivity.
  rewrite (clamp_cursor_fix s2 (dispatch_result_inv _ _ _ _ _ E)).
  reflexivity.
Qed.

Lemma repeat_is_redispatch_witness :
  handle_command 2 (record_command initialize_state ("o", None)) "r" None
  = handle_command 1 (record_command initialize_state ("o", None)) "o" None.
Proof.
  apply (repeat_is_redispatch (record_command initialize_state ("o", None))
           "o" None None 1%nat).
  reflexivity.
Defined.

(** X10.  A dispatch of a verb of the command table other than undo and
    repeat, from a state with a valid cursor, pushes exactly the snapshot of
    the state it started from, and leaves the dispatched verb and argument
    as the last history entry, the one a following repeat replays. *)
Theorem dispatch_pushes_snapshot
        (s : state) (cmd : string) (arg : option string) (fuel : nat)
        (Hinv : cursor_inv s)
        (Hverb : no_snapshot cmd = false)
        (Hmap : in_command_map cmd = true)
        (Harg : arg_ok cmd arg) :
  exists s',
    handle_command (S fuel) s cmd arg = Ok s' /\
    undo_stack s' = undo_stack s ++ [snapshot_of s] /\
    Py.last_item (command_history s') = Some (cmd, arg).
Proof.
  assert (Hu : cmd <> "u") by (intros ->; discriminate Hverb).
  assert (Hr : cmd <> "r") by (intros ->; discriminate Hverb).
  destruct (dispatch_plain fuel s cmd arg Hinv Hu Hr Harg)
    as (s' & Hrun & _ & Hstack & _).
  rewrite Hverb in Hstack.
  exists s'. split; [exact Hrun|]. split; [exact Hstack|].
  cbn [handle_command] in Hrun. rewrite Hverb, Hmap in Hrun.
  apply String.eqb_neq in Hr. rewrite Hr in Hrun. cbn [negb andb] in Hrun.
  crack_all; cbn; apply last_item_app.
Qed.

Lemma dispatch_pushes_snapshot_witness :
  exists s',
    handle_command 1 initialize_state "o" None = Ok s' /\
    undo_stack s' = undo_stack initialize_state ++ [snapshot_of initialize_state] /\
    Py.last_item (command_history s') = Some ("o", None).
Proof.
  apply (dispatch_pushes_snapshot initialize_state "o" None 0%nat).
  - exact (proj1 initialize_state_inv).
  - reflexivity.
  - reflexivity.
  - intros [H|H]; discriminate H.
Defined.

(* ================================================================== *)
(** ** Cursor movement *)

Lemma navigation_handler_keeps dispatch (s s' : state) (cmd : string)
      (arg : option string) (h : handler) :
  In cmd navigation_verbs ->
  command_map dispatch cmd = Some h ->
  h s arg = Ok s' ->
  content s' = content s /\ clipboard s' = clipboard s /\
  command_history s' = command_history s.
Proof.
  intros Hin H Hrun. unfold navigation_verbs in Hin. cbn [In] in Hin.
  repeat (destruct Hin as [<-|Hin];
          [cbn in H; injection H as <-; lazy beta in Hrun;
           unfold handle_cursor_toggle, handle_h, handle_l, handle_j, handle_k,
             handle_caret, handle_word_navigation, next_word, previous_word,
             handle_dollar in Hrun;
           crack Hrun; cbn; auto|]).
  contradiction.
Qed.

Lemma navigation_verb_facts (cmd : string) :
  In cmd navigation_verbs ->
  no_snapshot cmd = false /\ in_command_map cmd = true /\
  cmd <> "u" /\ cmd <> "r" /\ cmd <> "i" /\ cmd <> "a".
Proof.
  unfold navigation_verbs. cbn [In]. intros Hin.
  repeat (destruct Hin as [<-|Hin];
          [repeat split; try reflexivity; discriminate|]).
  contradiction.
Qed.

(** X11.  The verbs that move the cursor or toggle a marker (. ; h l j k ^
    w b $) never change the document or the clipboard, and each dispatch is
    recorded in the history exactly once. *)
Theorem navigation_keeps_document
        (s : state) (cmd : string) (arg : option string) (fuel : nat)
        (Hinv : cursor_inv s)
        (Hcmd : In cmd navigation_verbs) :
  exists s',
    handle_command (S fuel) s cmd arg = Ok s' /\
    content s' = content s /\
    clipboard s' = clipboard s /\
    command_history s' = command_history s ++ [(cmd, arg)].
Proof.
  destruct (navigation_verb_facts cmd Hcmd) as (Hn & Hm & Hu & Hr & Hi & Ha).
  assert (Harg : arg_ok cmd arg) by (intros [H|H]; congruence).
  destruct (dispatch_plain fuel s cmd arg Hinv Hu Hr Harg) as (s' & Hrun & _).
  exists s'. split; [exact Hrun|].
  cbn [handle_command] in Hrun. rewrite Hn, Hm in Hrun.
  apply String.eqb_neq in Hr. rewrite Hr in Hrun. cbn [negb andb] in Hrun.
  destruct (command_map (handle_command fuel) cmd) as [h|] eqn:Eh.
  - destruct (h (save_state s) arg) as [s2| |] eqn:E2; try discriminate.
    destruct (navigation_handler_keeps _ _ _ _ _ _ Hcmd Eh E2) as (Hc & Hb & Hh).
    cbn [bind] in Hrun. rewrite clamp_cursor_value in Hrun. cbn [bind] in Hrun.
    injection Hrun as <-. cbn. unfold Py.append. rewrite Hc, Hb, Hh. auto.
  - unfold in_command_map in Hm. unfold command_map in Eh, Hm.
    repeat match type of Eh with
           | (if ?b then _ else _) = None => destruct b; [discriminate Eh|]
           end.
    discriminate Hm.
Qed.

Lemma navigation_keeps_document_witness :
  exists s',
    handle_command 1 initialize_state "$" None = Ok s' /\
    content s' = content initialize_state /\
    clipboard s' = clipboard initialize_state /\
    command_history s' = command_history initialize_state ++ [("$", None)].
Proof.
  apply (navigation_keeps_document initialize_state "$" None 0%nat).
  - exact (proj1 initialize_state_inv).
  - cbn. tauto.
Defined.

Lemma clamped_line_valid (doc : list string) (cl : Z) :
  0 <= cl <= Z.max 0 (Py.llen doc - 1) -> clamped_line doc cl = cl.
Proof.
  intros H. unfold clamped_line. destruct (Z.ltb_spec 0 (Py.llen doc)); lia.
Qed.

(** The cursor of a state with a valid cursor, spelled out. *)
Lemma cursor_inv_bounds (s : state) :
  cursor_inv s ->
  0 <= current_line s <= Z.max 0 (Py.llen (content s) - 1) /\
  0 <= current_row s <= Z.max 0 (line_length_at (content s) (current_line s) - 1).
Proof. intros H. exact H. Qed.

Lemma line_length_at_nonneg (doc : list string) (cl : Z) : 0 <= line_length_at doc cl.
Proof.
  unfold line_length_at. destruct (Py.getitem doc cl); try lia. apply len_nonneg.
Qed.

(** The handlers of l and $ on a state with a valid cursor. *)
Lemma handle_l_value (s : state) (arg : option string) :
  cursor_inv s ->
  exists r, handle_l s arg = Ok (set_current_row s r) /\
            r = Z.min (line_length_at (content s) (current_line s)) (current_row s + 1)
            \/ (content s = [] /\ handle_l s arg = Ok s).
Proof.
  intros Hinv. unfold handle_l. destruct (Py.list_truthy (content s)) eqn:Et.
  - destruct (current_line_ok s Hinv Et) as (line & Hg & _).
    eexists. left. rewrite Hg. cbn [bind]. split; [reflexivity|].
    unfold line_length_at. rewrite Hg. reflexivity.
  - exists 0. right. destruct (content s); [auto|discriminate].
Qed.

Lemma handle_dollar_value (s : state) (arg : option string) :
  cursor_inv s ->
  handle_dollar s arg
  = Ok (set_current_row s (line_length_at (content s) (current_line s))).
Proof.
  intros Hinv. unfold handle_dollar. destruct (Py.list_truthy (content s)) eqn:Et.
  - destruct (current_line_ok s Hinv Et) as (line & Hg & _).
    unfold line_length_at. rewrite Hg. reflexivity.
  - destruct (content s) eqn:Ec; [|discriminate].
    destruct (empty_document_cursor s Hinv Ec) as [-> _]. reflexivity.
Qed.

(** X12.  With a valid cursor, h moves the column one to the left but not
    below 0, l one to the right but not beyond the last character of the
    line, ^ to column 0 and $ to the last character of the line (column 0 on
    an empty line or document).  None of them moves the line cursor. *)
Theorem horizontal_moves (s : state) (arg : option string) (fuel : nat)
        (Hinv : cursor_inv s) :
  let last_column := Z.max 0 (current_line_length s - 1) in
  forall cmd target,
    (cmd = "h" /\ target = Z.max 0 (current_row s - 1)) \/
    (cmd = "l" /\ target = Z.min (current_row s + 1) last_column) \/
    (cmd = "^" /\ target = 0) \/
    (cmd = "$" /\ target = last_column) ->
    exists s',
      handle_command (S fuel) s cmd arg = Ok s' /\
      current_line s' = current_line s /\
      current_row s' = target.
Proof.
  intros last_column cmd target Hcmd.
  destruct (cursor_inv_bounds s Hinv) as [Hl Hr].
  pose proof (line_length_at_nonneg (content s) (current_line s)) as Hnn.
  assert (Hline : clamped_line (content s) (current_line s) = current_line s)
    by (apply clamped_line_valid; exact Hl).
  assert (Hdone : forall c r,
             in_command_map c = true -> no_snapshot c = false ->
             String.eqb c "r" = false ->
             (exists h, command_map (handle_command fuel) c = Some h /\
                        h (save_state s) arg = Ok (set_current_row (save_state s) r)) ->
             Z.max 0 (Z.min r last_column) = target ->
             exists s', handle_command (S fuel) s c arg = Ok s' /\
                        current_line s' = current_line s /\
                        current_row s' = target).
  { intros c r Hm Hn Hrr (h & Hh & Hv) Ht.
    eexists. split; [eapply dispatch_value; eassumption|].
    cbn. rewrite Hline. split; [reflexivity|exact Ht]. }
  unfold last_column, current_line_length in *.
  fold (line_length_at (content s) (current_line s)) in *.
  destruct Hcmd as [[-> ->]|[[-> ->]|[[-> ->]|[-> ->]]]].
  - apply (Hdone "h" (Z.max 0 (current_row s - 1))); try reflexivity; [|lia].
    exists handle_h. split; reflexivity.
  - destruct (handle_l_value (save_state s) arg Hinv) as (r & [[Hv ->]|[Hc Hv]]).
    + apply (Hdone "l" (Z.min (line_length_at (content s) (current_line s))
                                 (current_row s + 1)));
        try reflexivity; [|lia].
      exists handle_l. split; [reflexivity|exact Hv].
    + cbn in Hc.
      destruct (empty_document_cursor s Hinv Hc) as [H0 H1].
      apply (Hdone "l" (current_row s)); try reflexivity;
        [|rewrite Hc, H0, H1; reflexivity].
      exists handle_l. split; [reflexivity|].
      rewrite Hv. destruct s; reflexivity.
  - apply (Hdone "^" 0); try reflexivity; [|lia].
    exists handle_caret. split; reflexivity.
  - apply (Hdone "$" (line_length_at (content s) (current_line s)));
      try reflexivity; [|lia].
    exists handle_dollar. split; [reflexivity|].
    apply (handle_dollar_value (save_state s) arg Hinv).
Qed.

Lemma horizontal_moves_witness :
  exists s',
    handle_command 1 (set_content initialize_state ["abc"]) "$" None = Ok s' /\
    current_line s' = 0 /\
    current_row s' = 2.
Proof.
  apply (horizontal_moves (set_content initialize_state ["abc"]) None 0%nat
           ltac:(vm_compute; repeat split; congruence) "$" 2).
  right. right. right. split; reflexivity.
Defined.

(** The fields of the state a recorded dispatch returns, from the outcome
    of the handler. *)
Lemma dispatch_fields (fuel : nat) (s s2 : state) (cmd : string)
      (arg : option string) (h : handler) :
  no_snapshot cmd = false ->
  command_map (handle_command fuel) cmd = Some h ->
  in_command_map cmd = true ->
  String.eqb cmd "r" = false ->
  h (save_state s) arg = Ok s2 ->
  exists s',
    handle_command (S fuel) s cmd arg = Ok s' /\
    cursor_inv s' /\
    content s' = content s2 /\
    clipboard s' = clipboard s2 /\
    current_line s' = clamped_line (content s2) (current_line s2) /\
    current_row s' = clamped_row (content s2) (current_line s') (current_row s2).
Proof.
  intros Hn Hm Hin Hr Hh.
  exists (record_command (clamped s2) (cmd, arg)).
  split; [eapply dispatch_value; eassumption|].
  split; [exact (clamped_inv s2)|]. repeat split.
Qed.

(** X13.  With a valid cursor, j moves the line cursor one line up but not
    above line 0 and k one line down but not below the last line; the
    document is unchanged and the column is pulled back into the line the
    cursor lands on. *)
Theorem vertical_moves (s : state) (arg : option string) (fuel : nat)
        (Hinv : cursor_inv s) :
  forall cmd target,
    (cmd = "j" /\ target = Z.max 0 (current_line s - 1)) \/
    (cmd = "k" /\ target = Z.min (current_line s + 1) (Z.max 0 (line_count s - 1))) ->
    exists s',
      handle_command (S fuel) s cmd arg = Ok s' /\
      content s' = content s /\
      current_line s' = target /\
      current_row s'
      = Z.min (current_row s) (Z.max 0 (line_length_at (content s) target - 1)).
Proof.
  intros cmd target Hcmd.
  destruct (cursor_inv_bounds s Hinv) as [Hl Hr]. unfold line_count in *.
  assert (Hdone : forall c h s2,
             in_command_map c = true -> no_snapshot c = false ->
             String.eqb c "r" = false ->
             command_map (handle_command fuel) c = Some h ->
             h (save_state s) arg = Ok s2 ->
             content s2 = content s -> current_row s2 = current_row s ->
             current_line s2 = target ->
             0 <= target <= Z.max 0 (Py.llen (content s) - 1) ->
             exists s', handle_command (S fuel) s c arg = Ok s' /\
                        content s' = content s /\
                        current_line s' = target /\
                        current_row s'
                        = Z.min (current_row s)
                            (Z.max 0 (line_length_at (content s) target - 1))).
  { intros c h s2 Hm Hn Hrr Hh Hv Hc2 Hr2 Hl2 Ht.
    destruct (dispatch_fields fuel s s2 c arg h Hn Hh Hm Hrr Hv)
      as (s' & Hrun & _ & Hc' & _ & Hl' & Hr').
    rewrite Hc2, Hl2, clamped_line_valid in Hl' by exact Ht.
    rewrite Hc2, Hr2, Hl' in Hr'. unfold clamped_row in Hr'.
    pose proof (line_length_at_nonneg (content s) target).
    exists s'. split; [exact Hrun|]. split; [congruence|]. split; [exact Hl'|].
    rewrite Hr'. lia. }
  destruct Hcmd as [[-> ->]|[-> ->]].
  - destruct (Z.ltb_spec 0 (current_line s)) as [Hpos|Hzero].
    + apply (Hdone "j" handle_j (set_current_line (save_state s) (current_line s - 1)));
        try reflexivity; try lia.
      * unfold handle_j. cbn. destruct (Z.ltb_spec 0 (current_line s)); [reflexivity|lia].
      * cbn. lia.
    + apply (Hdone "j" handle_j (save_state s)); try reflexivity; try lia.
      * unfold handle_j. cbn. destruct (Z.ltb_spec 0 (current_line s)); [lia|reflexivity].
      * cbn. lia.
  - destruct (Z.ltb_spec (current_line s) (Py.llen (content s) - 1)) as [Hlt|Hge].
    + apply (Hdone "k" handle_k (set_current_line (save_state s) (current_line s + 1)));
        try reflexivity; try lia.
      * unfold handle_k. cbn.
        destruct (Z.ltb_spec (current_line s) (Py.llen (content s) - 1));
          [reflexivity|lia].
      * cbn. lia.
    + apply (Hdone "k" handle_k (save_state s)); try reflexivity; try lia.
      * unfold handle_k. cbn.
        destruct (Z.ltb_spec (current_line s) (Py.llen (content s) - 1));
          [lia|reflexivity].
      * cbn. lia.
Qed.

Lemma vertical_moves_witness :
  exists s',
    handle_command 1 (set_content initialize_state ["ab"; "c"]) "k" None = Ok s' /\
    content s' = content (set_content initialize_state ["ab"; "c"]) /\
    current_line s' = 1 /\
    current_row s'
    = Z.min (current_row (set_content initialize_state ["ab"; "c"]))
        (Z.max 0 (line_length_at
                    (content (set_content initialize_state ["ab"; "c"])) 1 - 1)).
Proof.
  apply (vertical_moves (set_content initialize_state ["ab"; "c"]) None 0%nat
           ltac:(vm_compute; repeat split; congruence) "k" 1).
  right. split; reflexivity.
Defined.

(** X14.  With a valid cursor, the toggle . flips the row marker flag and
    ; flips the line marker flag, each leaving the other flag alone; a
    second dispatch of the same toggle brings document, cursor, flags and
    clipboard back to what they were. *)
Theorem toggle_twice (s : state) (arg : option string) (fuel : nat)
        (Hinv : cursor_inv s) :
  (exists s1 s2,
      handle_command (S fuel) s "." arg = Ok s1 /\
      show_row_cursor s1 = negb (show_row_cursor s) /\
      show_line_cursor s1 = show_line_cursor s /\
      handle_command (S fuel) s1 "." arg = Ok s2 /\
      snapshot_of s2 = snapshot_of s) /\
  (exists s1 s2,
      handle_command (S fuel) s ";" arg = Ok s1 /\
      show_line_cursor s1 = negb (show_line_cursor s) /\
      show_row_cursor s1 = show_row_cursor s /\
      handle_command (S fuel) s1 ";" arg = Ok s2 /\
      snapshot_of s2 = snapshot_of s).
Proof.
  split.
  - set (t1 := set_show_row_cursor (save_state s) (negb (show_row_cursor s))).
    assert (H1 : handle_command (S fuel) s "." arg
                 = Ok (record_command (clamped t1) (".", arg)))
      by (eapply dispatch_value; reflexivity).
    rewrite (clamped_valid t1 Hinv) in H1.
    set (s1 := record_command t1 (".", arg)) in *.
    set (t2 := set_show_row_cursor (save_state s1) (negb (show_row_cursor s1))).
    assert (H2 : handle_command (S fuel) s1 "." arg
                 = Ok (record_command (clamped t2) (".", arg)))
      by (eapply dispatch_value; reflexivity).
    rewrite (clamped_valid t2 Hinv) in H2.
    exists s1. eexists. split; [exact H1|]. split; [reflexivity|].
    split; [reflexivity|]. split; [exact H2|].
    unfold snapshot_of. cbn. rewrite negb_involutive. reflexivity.
  - set (t1 := set_show_line_cursor (save_state s) (negb (show_line_cursor s))).
    assert (H1 : handle_command (S fuel) s ";" arg
                 = Ok (record_command (clamped t1) (";", arg)))
      by (eapply dispatch_value; reflexivity).
    rewrite (clamped_valid t1 Hinv) in H1.
    set (s1 := record_command t1 (";", arg)) in *.
    set (t2 := set_show_line_cursor (save_state s1) (negb (show_line_cursor s1))).
    assert (H2 : handle_command (S fuel) s1 ";" arg
                 = Ok (record_command (clamped t2) (";", arg)))
      by (eapply dispatch_value; reflexivity).
    rewrite (clamped_valid t2 Hinv) in H2.
    exists s1. eexists. split; [exact H1|]. split; [reflexivity|].
    split; [reflexivity|]. split; [exact H2|].
    unfold snapshot_of. cbn. rewrite negb_involutive. reflexivity.
Qed.

Lemma toggle_twice_witness :
  (exists s1 s2,
      handle_command 1 initialize_state "." None = Ok s1 /\
      show_row_cursor s1 = negb (show_row_cursor initialize_state) /\
      show_line_cursor s1 = show_line_cursor initialize_state /\
      handle_command 1 s1 "." None = Ok s2 /\
      snapshot_of s2 = snapshot_of initialize_state) /\
  (exists s1 s2,
      handle_command 1 initialize_state ";" None = Ok s1 /\
      show_line_cursor s1 = negb (show_line_cursor initialize_state) /\
      show_row_cursor s1 = show_row_cursor initialize_state /\
      handle_command 1 s1 ";" None = Ok s2 /\
      snapshot_of s2 = snapshot_of initialize_state).
Proof.
  apply (toggle_twice initialize_state None 0%nat).
  exact (proj1 initialize_state_inv).
Defined.

(* ================================================================== *)
(** ** Editing the line under the cursor *)

Lemma seeded_line_bounds (s : state) :
  cursor_inv s ->
  exists line,
    Py.getitem (content (seed_line s)) (current_line s) = Ok line /\
    0 <= current_line s < Py.llen (content (seed_line s)) /\
    0 <= current_row s <= Z.max 0 (Py.len line - 1) /\
    current_line (seed_line s) = current_line s /\
    current_row (seed_line s) = current_row s.
Proof.
  intros Hinv. unfold seed_line.
  destruct (Py.list_truthy (content s)) eqn:Et; cbn [negb].
  - destruct (current_line_ok s Hinv Et) as (line & Hg & Hl & Hr).
    exists line. auto.
  - destruct (content s) eqn:Ec; [|discriminate].
    destruct (empty_document_cursor s Hinv Ec) as [Hl Hr].
    exists EmptyString. cbn. rewrite Hl, Hr. repeat split; try lia; reflexivity.
Qed.

(** The dispatch of i and of a on a state with a valid cursor: the line
    under the cursor (after seeding) is replaced by the line with the text
    put in at [at_]. *)
Lemma dispatch_text (fuel : nat) (s : state) (cmd t : string) (shift : Z) :
  cursor_inv s ->
  (cmd = "i" /\ shift = 0) \/ (cmd = "a" /\ shift = 1) ->
  exists line doc s',
    Py.getitem (content (seed_line s)) (current_line s) = Ok line /\
    0 <= current_row s <= Z.max 0 (Py.len line - 1) /\
    Py.setitem (content (seed_line s)) (current_line s)
      (Py.upto line (current_row s + shift) ++ t
       ++ Py.from line (current_row s + shift))%string = Ok doc /\
    handle_command (S fuel) s cmd (Some t) = Ok s' /\
    cursor_inv s' /\
    content s' = doc /\
    clipboard s' = clipboard s /\
    current_line s' = current_line s /\
    current_row s'
    = Z.min (current_row s + shift * Py.len t)
        (Z.max 0 (Py.len line + Py.len t - 1)).
Proof.
  intros Hinv Hcmd.
  destruct (seeded_line_bounds s Hinv) as (line & Hg & Hl & Hr & Hsl & Hsr).
  set (new := (Py.upto line (current_row s + shift) ++ t
               ++ Py.from line (current_row s + shift))%string).
  destruct (getitem_ok_setitem_ok _ _ _ new Hg) as (doc & Hset).
  destruct (setitem_spec _ _ _ _ (proj1 Hl) Hset) as (Hlen & Hget & _).
  assert (Hnew : Py.len new = Py.len line + Py.len t).
  { unfold new. rewrite !len_app.
    rewrite <- (upto_from line (current_row s + shift)) at 3.
    rewrite len_app. lia. }
  pose proof (len_nonneg line) as Hnl. pose proof (len_nonneg t) as Hnt.
  exists line, doc.
  assert (Hseed : content (seed_line (save_state s)) = content (seed_line s) /\
                  current_line (seed_line (save_state s)) = current_line s /\
                  current_row (seed_line (save_state s)) = current_row s /\
                  clipboard (seed_line (save_state s)) = clipboard s)
    by (unfold seed_line; cbn; destruct (negb _); repeat split).
  destruct Hseed as (Hs1 & Hs2 & Hs3 & Hs4).
  assert (Hfin : forall h s2,
             command_map (handle_command fuel) cmd = Some h ->
             h (save_state s) (Some t) = Ok s2 ->
             content s2 = doc -> clipboard s2 = clipboard s ->
             current_line s2 = current_line s ->
             current_row s2 = current_row s + shift * Py.len t ->
             exists s',
               handle_command (S fuel) s cmd (Some t) = Ok s' /\
               cursor_inv s' /\ content s' = doc /\
               clipboard s' = clipboard s /\
               current_line s' = current_line s /\
               current_row s'
               = Z.min (current_row s + shift * Py.len t)
                   (Z.max 0 (Py.len line + Py.len t - 1))).
  { intros h s2 Hh Hv Hc2 Hb2 Hl2 Hr2.
    assert (Hfacts : no_snapshot cmd = false /\ in_command_map cmd = true /\
                     String.eqb cmd "r" = false)
      by (destruct Hcmd as [[-> _]|[-> _]]; repeat split).
    destruct Hfacts as (Hn & Hm & Hrr).
    destruct (dispatch_fields fuel s s2 cmd (Some t) h Hn Hh Hm Hrr Hv)
      as (s' & Hrun & Hinv' & Hc' & Hb' & Hl' & Hr').
    rewrite Hc2, Hl2, clamped_line_valid in Hl' by (rewrite Hlen; lia).
    rewrite Hc2, Hr2, Hl' in Hr'. unfold clamped_row, line_length_at in Hr'.
    rewrite Hget, Hnew in Hr'.
    exists s'. repeat (split; [congruence|]). rewrite Hr'.
    destruct Hcmd as [[_ ->]|[_ ->]]; lia. }
  enough (Hex : exists s',
             handle_command (S fuel) s cmd (Some t) = Ok s' /\
             cursor_inv s' /\ content s' = doc /\
             clipboard s' = clipboard s /\
             current_line s' = current_line s /\
             current_row s'
             = Z.min (current_row s + shift * Py.len t)
                 (Z.max 0 (Py.len line + Py.len t - 1))).
  { destruct Hex as (s' & Hx). exists s'.
    split; [exact Hg|]. split; [exact Hr|]. split; [exact Hset|exact Hx]. }
  destruct Hcmd as [[-> ->]|[-> ->]].
  - apply (Hfin handle_i
             (record_command (set_content (seed_line (save_state s)) doc)
                ("i", Some t))); try reflexivity; try assumption; [|cbn; lia].
    unfold handle_i. rewrite Hs1, Hs2, Hs3, Hg. cbn [bind concat3].
    unfold new in Hset. rewrite Z.add_0_r in Hset. rewrite Hset. reflexivity.
  - apply (Hfin handle_a
             (record_command
                (set_current_row (set_content (seed_line (save_state s)) doc)
                   (current_row s + Py.len t))
                ("a", Some t))); try reflexivity; try assumption;
      [|cbn [current_row record_command set_command_history set_current_row]; lia].
    unfold handle_a. rewrite Hs1, Hs2, Hs3, Hg. cbn [bind concat3].
    unfold new in Hset. rewrite Hset. cbn [bind].
    cbn. rewrite Hs3. reflexivity.
Qed.

Lemma string_app_nil_r (t : string) : (t ++ EmptyString)%string = t.
Proof. induction t as [|c t IH]; cbn; [reflexivity|]. rewrite IH. reflexivity. Qed.

Lemma getitem_ok_truthy {A : Type} (l : list A) (i : Z) (x : A) :
  Py.getitem l i = Ok x -> Py.list_truthy l = true.
Proof.
  intros H. destruct l; [|reflexivity]. exfalso.
  unfold Py.getitem, Py.index in H. change (Py.llen (@nil A)) with 0 in H.
  destruct (Z.ltb_spec i 0).
  - destruct (Z.leb_spec 0 (0 + i)); [lia|discriminate].
  - destruct (Z.ltb_spec i 0); [lia|discriminate].
Qed.

Lemma seed_line_nonempty (s : state) (line : string) :
  Py.getitem (content s) (current_line s) = Ok line -> seed_line s = s.
Proof.
  intros H. unfold seed_line. rewrite (getitem_ok_truthy _ _ _ H). reflexivity.
Qed.

(** X15.  With a valid cursor on a line of the document, i puts its text
    immediately before the cursor column: the line becomes the part before
    the column, the text, then the rest.  The number of lines, every other
    line, the clipboard and the cursor (line and column) are unchanged. *)
Theorem insert_puts_text_before_cursor
        (s : state) (line t : string) (fuel : nat)
        (Hinv : cursor_inv s)
        (Hline : Py.getitem (content s) (current_line s) = Ok line) :
  exists s',
    handle_command (S fuel) s "i" (Some t) = Ok s' /\
    Py.getitem (content s') (current_line s)
    = Ok (Py.upto line (current_row s) ++ t ++ Py.from line (current_row s))%string /\
    Py.llen (content s') = Py.llen (content s) /\
    (forall j, 0 <= j -> j <> current_line s ->
               Py.getitem (content s') j = Py.getitem (content s) j) /\
    clipboard s' = clipboard s /\
    current_line s' = current_line s /\
    current_row s' = current_row s.
Proof.
  destruct (dispatch_text fuel s "i" t 0 Hinv ltac:(left; split; reflexivity))
    as (line' & doc & s' & Hg & Hr & Hset & Hrun & _ & Hc & Hb & Hl & Hrow).
  rewrite (seed_line_nonempty s line Hline) in Hg, Hset.
  rewrite Hline in Hg. injection Hg as <-.
  rewrite Z.add_0_r in Hset.
  destruct (cursor_inv_bounds s Hinv) as [Hcl _].
  destruct (setitem_spec _ _ _ _ (proj1 Hcl) Hset) as (Hlen & Hget & Hother).
  exists s'. rewrite Hc. repeat (split; [assumption|]).
  pose proof (len_nonneg line). pose proof (len_nonneg t). lia.
Qed.

Lemma insert_puts_text_before_cursor_witness :
  exists s',
    handle_command 1 (set_content initialize_state ["abc"]) "i" (Some "x") = Ok s' /\
    Py.getitem (content s') (current_line (set_content initialize_state ["abc"]))
    = Ok (Py.upto "abc" (current_row (set_content initialize_state ["abc"]))
          ++ "x"
          ++ Py.from "abc" (current_row (set_content initialize_state ["abc"])))%string /\
    Py.llen (content s') = Py.llen (content (set_content initialize_state ["abc"])) /\
    (forall j, 0 <= j -> j <> current_line (set_content initialize_state ["abc"]) ->
               Py.getitem (content s') j
               = Py.getitem (content (set_content initialize_state ["abc"])) j) /\
    clipboard s' = clipboard (set_content initialize_state ["abc"]) /\
    current_line s' = current_line (set_content initialize_state ["abc"]) /\
    current_row s' = current_row (set_content initialize_state ["abc"]).
Proof.
  apply (insert_puts_text_before_cursor
           (set_content initialize_state ["abc"]) "abc" "x" 0%nat).
  - vm_compute. repeat split; congruence.
  - reflexivity.
Defined.

(** X16.  With a valid cursor on a line of the document, a puts its text
    immediately after the character under the cursor and moves the column
    right by the length of the text, onto the last character put in; on an
    empty line the column ends on the last character of the text.  The
    number of lines, every other line and the line cursor are unchanged. *)
Theorem append_puts_text_after_cursor
        (s : state) (line t : string) (fuel : nat)
        (Hinv : cursor_inv s)
        (Hline : Py.getitem (content s) (current_line s) = Ok line) :
  exists s',
    handle_command (S fuel) s "a" (Some t) = Ok s' /\
    Py.getitem (content s') (current_line s)
    = Ok (Py.upto line (current_row s + 1) ++ t
          ++ Py.from line (current_row s + 1))%string /\
    Py.llen (content s') = Py.llen (content s) /\
    (forall j, 0 <= j -> j <> current_line s ->
               Py.getitem (content s') j = Py.getitem (content s) j) /\
    current_line s' = current_line s /\
    (0 < Py.len line -> current_row s' = current_row s + Py.len t) /\
    (Py.len line = 0 -> current_row s' = Z.max 0 (Py.len t - 1)).
Proof.
  destruct (dispatch_text fuel s "a" t 1 Hinv ltac:(right; split; reflexivity))
    as (line' & doc & s' & Hg & Hr & Hset & Hrun & _ & Hc & Hb & Hl & Hrow).
  rewrite (seed_line_nonempty s line Hline) in Hg, Hset.
  rewrite Hline in Hg. injection Hg as <-.
  destruct (cursor_inv_bounds s Hinv) as [Hcl _].
  destruct (setitem_spec _ _ _ _ (proj1 Hcl) Hset) as (Hlen & Hget & Hother).
  exists s'. rewrite Hc. repeat (split; [assumption|]).
  pose proof (len_nonneg line). pose proof (len_nonneg t).
  split; intros; lia.
Qed.

Lemma append_puts_text_after_cursor_witness :
  exists s',
    handle_command 1 (set_content initialize_state ["abc"]) "a" (Some "xy") = Ok s' /\
    Py.getitem (content s') (current_line (set_content initialize_state ["abc"]))
    = Ok (Py.upto "abc" (current_row (set_content initialize_state ["abc"]) + 1)
          ++ "xy"
          ++ Py.from "abc" (current_row (set_content initialize_state ["abc"]) + 1))%string /\
    Py.llen (content s') = Py.llen (content (set_content initialize_state ["abc"])) /\
    (forall j, 0 <= j -> j <> current_line (set_content initialize_state ["abc"]) ->
               Py.getitem (content s') j
               = Py.getitem (content (set_content initialize_state ["abc"])) j) /\
    current_line s' = current_line (set_content initialize_state ["abc"]) /\
    (0 < Py.len "abc" ->
     current_row s' = current_row (set_content initialize_state ["abc"]) + Py.len "xy") /\
    (Py.len "abc" = 0 -> current_row s' = Z.max 0 (Py.len "xy" - 1)).
Proof.
  apply (append_puts_text_after_cursor
           (set_content initialize_state ["abc"]) "abc" "xy" 0%nat).
  - vm_compute. repeat split; congruence.
  - reflexivity.
Defined.

(** X17.  On the empty document, with a valid cursor, i and a both seed one
    empty line first: the document becomes the one line holding the text.
    After i the cursor is at line 0, column 0; after a the column is on
    the last character of the text. *)
Theorem text_into_empty_document (s : state) (t : string) (fuel : nat)
        (Hinv : cursor_inv s)
        (Hdoc : content s = []) :
  (exists s',
      handle_command (S fuel) s "i" (Some t) = Ok s' /\
      content s' = [t] /\ current_line s' = 0 /\ current_row s' = 0) /\
  (exists s',
      handle_command (S fuel) s "a" (Some t) = Ok s' /\
      content s' = [t] /\ current_line s' = 0 /\
      current_row s' = Z.max 0 (Py.len t - 1)).
Proof.
  destruct (empty_document_cursor s Hinv Hdoc) as [Hl0 Hr0].
  assert (Hseed : content (seed_line s) = [EmptyString])
    by (unfold seed_line; rewrite Hdoc; reflexivity).
  pose proof (len_nonneg t) as Hnt.
  split.
  - destruct (dispatch_text fuel s "i" t 0 Hinv ltac:(left; split; reflexivity))
      as (line & doc & s' & Hg & _ & Hset & Hrun & _ & Hc & _ & Hl & Hrow).
    rewrite Hseed, Hl0 in Hg, Hset. injection Hg as <-.
    rewrite Hr0 in Hset. cbn in Hset. injection Hset as <-.
    exists s'. split; [exact Hrun|]. split; [|split; [congruence|]].
    + rewrite Hc. cbn. rewrite ?string_app_nil_r. reflexivity.
    + rewrite Hrow, Hr0. change (Py.len EmptyString) with 0. lia.
  - destruct (dispatch_text fuel s "a" t 1 Hinv ltac:(right; split; reflexivity))
      as (line & doc & s' & Hg & _ & Hset & Hrun & _ & Hc & _ & Hl & Hrow).
    rewrite Hseed, Hl0 in Hg, Hset. injection Hg as <-.
    rewrite Hr0 in Hset. cbn in Hset. injection Hset as <-.
    exists s'. split; [exact Hrun|]. split; [|split; [congruence|]].
    + rewrite Hc. cbn. rewrite ?string_app_nil_r. reflexivity.
    + rewrite Hrow, Hr0. change (Py.len EmptyString) with 0. lia.
Qed.

Lemma text_into_empty_document_witness :
  (exists s',
      handle_command 1 initialize_state "i" (Some "hi") = Ok s' /\
      content s' = ["hi"] /\ current_line s' = 0 /\ current_row s' = 0) /\
  (exists s',
      handle_command 1 initialize_state "a" (Some "hi") = Ok s' /\
      content s' = ["hi"] /\ current_line s' = 0 /\
      current_row s' = Z.max 0 (Py.len "hi" - 1)).
Proof.
  apply (text_into_empty_document initialize_state "hi" 0%nat).
  - exact (proj1 initialize_state_inv).
  - reflexivity.
Defined.

Lemma len_from (line : string) (i : Z) :
  0 <= i <= Py.len line -> Py.len (Py.from line i) = Py.len line - i.
Proof.
  intros H. pose proof (upto_from line i) as Hs.
  apply (f_equal Py.len) in Hs. rewrite len_app, len_upto in Hs by exact H. lia.
Qed.

(** The dispatch of x on a non-empty line under a valid cursor. *)
Lemma dispatch_delete_char (fuel : nat) (s : state) (line : string)
      (arg : option string) :
  cursor_inv s ->
  Py.getitem (content s) (current_line s) = Ok line ->
  0 < Py.len line ->
  exists doc s',
    Py.setitem (content s) (current_line s)
      (Py.upto line (current_row s) ++ Py.from line (current_row s + 1))%string
    = Ok doc /\
    handle_command (S fuel) s "x" arg = Ok s' /\
    cursor_inv s' /\
    content s' = doc /\
    clipboard s' = clipboard s /\
    current_line s' = current_line s /\
    current_row s' = Z.min (current_row s) (Z.max 0 (Py.len line - 2)).
Proof.
  intros Hinv Hg Hne.
  destruct (current_line_ok s Hinv (getitem_ok_truthy _ _ _ Hg))
    as (line' & Hg' & Hl & Hr).
  rewrite Hg in Hg'. injection Hg' as <-.
  set (new := (Py.upto line (current_row s) ++ Py.from line (current_row s + 1))%string).
  destruct (getitem_ok_setitem_ok _ _ _ new Hg) as (doc & Hset).
  destruct (setitem_spec _ _ _ _ (proj1 Hl) Hset) as (Hlen & Hget & _).
  assert (Hnew : Py.len new = Py.len line - 1).
  { unfold new. rewrite len_app, len_upto, len_from by lia. lia. }
  assert (Hv : handle_x (save_state s) arg
               = Ok (record_command (set_content (save_state s) doc) ("x", None))).
  { unfold handle_x.
    change (content (save_state s)) with (content s).
    change (current_line (save_state s)) with (current_line s).
    change (current_row (save_state s)) with (current_row s).
    rewrite (getitem_ok_truthy _ _ _ Hg), Hg. cbn [bind].
    rewrite (proj2 (len_truthy line) Hne).
    destruct (Z.ltb_spec (current_row s) (Py.len line)); [|lia].
    cbn [andb]. fold new. rewrite Hset. reflexivity. }
  destruct (dispatch_fields fuel s _ "x" arg handle_x
              eq_refl eq_refl eq_refl eq_refl Hv)
    as (s' & Hrun & Hinv' & Hc' & Hb' & Hl' & Hr').
  cbn in Hc', Hb', Hl', Hr'.
  rewrite clamped_line_valid in Hl' by (rewrite Hlen; lia).
  rewrite Hl' in Hr'. unfold clamped_row, line_length_at in Hr'.
  rewrite Hget, Hnew in Hr'.
  exists doc, s'. repeat (split; [assumption|]). rewrite Hr'. lia.
Qed.

(** X18.  With a valid cursor on a non-empty line, x removes exactly the
    character under the cursor: the line becomes the part before the column
    followed by the part after it and is one character shorter.  The other
    lines and the line cursor stay; the column stays too, unless it was on
    the last character, in which case it moves onto the new last one. *)
Theorem delete_char_in_line
        (s : state) (line : string) (arg : option string) (fuel : nat)
        (Hinv : cursor_inv s)
        (Hline : Py.getitem (content s) (current_line s) = Ok line)
        (Hne : 0 < Py.len line) :
  exists s' line',
    handle_command (S fuel) s "x" arg = Ok s' /\
    Py.getitem (content s') (current_line s) = Ok line' /\
    line' = (Py.upto line (current_row s) ++ Py.from line (current_row s + 1))%string /\
    Py.len line' = Py.len line - 1 /\
    Py.llen (content s') = Py.llen (content s) /\
    (forall j, 0 <= j -> j <> current_line s ->
               Py.getitem (content s') j = Py.getitem (content s) j) /\
    current_line s' = current_line s /\
    current_row s' = Z.min (current_row s) (Z.max 0 (Py.len line - 2)).
Proof.
  destruct (dispatch_delete_char fuel s line arg Hinv Hline Hne)
    as (doc & s' & Hset & Hrun & _ & Hc & _ & Hl & Hr).
  destruct (cursor_inv_bounds s Hinv) as [Hcl Hcr].
  unfold line_length_at in Hcr. rewrite Hline in Hcr.
  destruct (setitem_spec _ _ _ _ (proj1 Hcl) Hset) as (Hlen & Hget & Hother).
  exists s'. eexists. rewrite Hc.
  split; [exact Hrun|]. split; [exact Hget|]. split; [reflexivity|].
  split; [rewrite len_app, len_upto, len_from by lia; lia|].
  repeat (split; [assumption|]). exact Hr.
Qed.

Lemma delete_char_in_line_witness :
  exists s' line',
    handle_command 1 (set_content initialize_state ["abc"]) "x" None = Ok s' /\
    Py.getitem (content s') (current_line (set_content initialize_state ["abc"]))
    = Ok line' /\
    line' = (Py.upto "abc" (current_row (set_content initialize_state ["abc"]))
             ++ Py.from "abc" (current_row (set_content initialize_state ["abc"]) + 1))%string /\
    Py.len line' = Py.len "abc" - 1 /\
    Py.llen (content s') = Py.llen (content (set_content initialize_state ["abc"])) /\
    (forall j, 0 <= j -> j <> current_line (set_content initialize_state ["abc"]) ->
               Py.getitem (content s') j
               = Py.getitem (content (set_content initialize_state ["abc"])) j) /\
    current_line s' = current_line (set_content initialize_state ["abc"]) /\
    current_row s'
    = Z.min (current_row (set_content initialize_state ["abc"]))
        (Z.max 0 (Py.len "abc" - 2)).
Proof.
  apply (delete_char_in_line (set_content initialize_state ["abc"]) "abc" None 0%nat).
  - vm_compute. repeat split; congruence.
  - reflexivity.
  - reflexivity.
Defined.

(** X19.  Inserting one character and deleting the character under the
    cursor cancel: with a valid cursor, i with a one-character text followed
    by x gives back the document (with its one empty line, if the document
    was empty and had to be seeded) and the cursor. *)
Theorem insert_char_then_delete
        (s : state) (c : ascii) (arg : option string) (fuel : nat)
        (Hinv : cursor_inv s) :
  exists s1 s2,
    handle_command (S fuel) s "i" (Some (String c EmptyString)) = Ok s1 /\
    handle_command (S fuel) s1 "x" arg = Ok s2 /\
    content s2 = content (seed_line s) /\
    current_line s2 = current_line s /\
    current_row s2 = current_row s.
Proof.
  destruct (dispatch_text fuel s "i" (String c EmptyString) 0 Hinv
              ltac:(left; split; reflexivity))
    as (line & doc & s1 & Hg & Hr & Hset & Hrun & Hinv1 & Hc & _ & Hl & Hrow).
  rewrite Z.add_0_r in Hset.
  destruct (seeded_line_bounds s Hinv) as (line0 & Hg0 & Hcl & _).
  rewrite Hg in Hg0. injection Hg0 as <-.
  destruct (setitem_spec _ _ _ _ (proj1 Hcl) Hset) as (_ & Hget & _).
  pose proof (len_nonneg line) as Hnl.
  assert (Hrow1 : current_row s1 = current_row s).
  { rewrite Hrow. change (Py.len (String c EmptyString)) with 1. lia. }
  set (line1 := (Py.upto line (current_row s) ++ String c EmptyString
                 ++ Py.from line (current_row s))%string) in *.
  assert (Hlen1 : Py.len line1 = Py.len line + 1).
  { unfold line1. rewrite !len_app, len_upto, len_from by lia.
    change (Py.len (String c EmptyString)) with 1. lia. }
  assert (Hg1 : Py.getitem (content s1) (current_line s1) = Ok line1)
    by (rewrite Hc, Hl; exact Hget).
  destruct (dispatch_delete_char fuel s1 line1 arg Hinv1 Hg1 ltac:(lia))
    as (doc2 & s2 & Hset2 & Hrun2 & _ & Hc2 & _ & Hl2 & Hr2).
  assert (Hback : (Py.upto line1 (current_row s1)
                   ++ Py.from line1 (current_row s1 + 1))%string = line).
  { rewrite Hrow1. unfold line1.
    set (a := Py.upto line (current_row s)).
    set (b := Py.from line (current_row s)).
    assert (Ha : current_row s = Py.len a) by (unfold a; rewrite len_upto; lia).
    cbn [String.append]. rewrite Ha, upto_app_exact, from_app_skip.
    unfold a, b. apply upto_from. }
  rewrite Hback, Hc, Hl in Hset2.
  rewrite (setitem_twice _ _ _ _ _ (proj1 Hcl) Hset) in Hset2.
  rewrite (setitem_same _ _ _ (proj1 Hcl) Hg) in Hset2. injection Hset2 as <-.
  exists s1, s2. split; [exact Hrun|]. split; [exact Hrun2|].
  split; [exact Hc2|]. split; [congruence|]. rewrite Hr2, Hrow1, Hlen1. lia.
Qed.

Lemma insert_char_then_delete_witness :
  exists s1 s2,
    handle_command 1 initialize_state "i" (Some "z") = Ok s1 /\
    handle_command 1 s1 "x" None = Ok s2 /\
    content s2 = content (seed_line initialize_state) /\
    current_line s2 = current_line initialize_state /\
    current_row s2 = current_row initialize_state.
Proof.
  apply (insert_char_then_delete initialize_state "z"%char None 0%nat).
  exact (proj1 initialize_state_inv).
Defined.

(** X20.  With a valid cursor on a non-empty line, dw removes the
    characters from the cursor column up to the start of the next word (or
    the end of the line): at least one character goes, what was before the
    column stays, and an emptied line stays in the document as an empty
    line.  The other lines and the line cursor are unchanged. *)
Theorem delete_word_in_line
        (s : state) (line : string) (arg : option string) (fuel : nat)
        (Hinv : cursor_inv s)
        (Hline : Py.getitem (content s) (current_line s) = Ok line)
        (Hne : 0 < Py.len line) :
  exists p s',
    find_word_end line (current_row s) = Ok p /\
    current_row s < p <= Py.len line /\
    handle_command (S fuel) s "dw" arg = Ok s' /\
    Py.getitem (content s') (current_line s)
    = Ok (Py.upto line (current_row s) ++ Py.from line p)%string /\
    Py.len (Py.upto line (current_row s) ++ Py.from line p)
    = Py.len line - (p - current_row s) /\
    Py.llen (content s') = Py.llen (content s) /\
    (forall j, 0 <= j -> j <> current_line s ->
               Py.getitem (content s') j = Py.getitem (content s) j) /\
    current_line s' = current_line s.
Proof.
  destruct (current_line_ok s Hinv (getitem_ok_truthy _ _ _ Hline))
    as (line' & Hg' & Hl & Hr).
  rewrite Hline in Hg'. injection Hg' as <-.
  destruct (find_word_end_lands line (current_row s) ltac:(lia))
    as (p & Hp & Hrange & _).
  set (joined := (Py.upto line (current_row s) ++ Py.from line p)%string).
  assert (Hj : (if Py.str_truthy joined then joined else EmptyString) = joined)
    by (destruct joined; reflexivity).
  destruct (getitem_ok_setitem_ok _ _ _ joined Hline) as (doc & Hset).
  destruct (setitem_spec _ _ _ _ (proj1 Hl) Hset) as (Hlen & Hget & Hother).
  assert (Hv : handle_dw (save_state s) arg
               = Ok (record_command (set_content (save_state s) doc) ("dw", None))).
  { unfold handle_dw.
    change (content (save_state s)) with (content s).
    change (current_line (save_state s)) with (current_line s).
    change (current_row (save_state s)) with (current_row s).
    rewrite (getitem_ok_truthy _ _ _ Hline), Hline. cbn [bind negb].
    rewrite (proj2 (len_truthy line) Hne). cbn [negb].
    rewrite Hp. cbn [bind]. fold joined. rewrite Hj, Hset. reflexivity. }
  destruct (dispatch_fields fuel s _ "dw" arg handle_dw
              eq_refl eq_refl eq_refl eq_refl Hv)
    as (s' & Hrun & _ & Hc' & _ & Hl' & _).
  cbn in Hc', Hl'. rewrite clamped_line_valid in Hl' by (rewrite Hlen; lia).
  exists p, s'. rewrite Hc'.
  split; [exact Hp|]. split; [exact Hrange|]. split; [exact Hrun|].
  split; [exact Hget|].
  split; [unfold joined; rewrite len_app, len_upto, len_from by lia; lia|].
  repeat (split; [assumption|]). exact Hl'.
Qed.

Lemma delete_word_in_line_witness :
  exists p s',
    find_word_end "foo bar" (current_row (set_content initialize_state ["foo bar"]))
    = Ok p /\
    current_row (set_content initialize_state ["foo bar"]) < p <= Py.len "foo bar" /\
    handle_command 1 (set_content initialize_state ["foo bar"]) "dw" None = Ok s' /\
    Py.getitem (content s') (current_line (set_content initialize_state ["foo bar"]))
    = Ok (Py.upto "foo bar" (current_row (set_content initialize_state ["foo bar"]))
          ++ Py.from "foo bar" p)%string /\
    Py.len (Py.upto "foo bar" (current_row (set_content initialize_state ["foo bar"]))
            ++ Py.from "foo bar" p)
    = Py.len "foo bar" - (p - current_row (set_content initialize_state ["foo bar"])) /\
    Py.llen (content s') = Py.llen (content (set_content initialize_state ["foo bar"])) /\
    (forall j, 0 <= j -> j <> current_line (set_content initialize_state ["foo bar"]) ->
               Py.getitem (content s') j
               = Py.getitem (content (set_content initialize_state ["foo bar"])) j) /\
    current_line s' = current_line (set_content initialize_state ["foo bar"]).
Proof.
  apply (delete_word_in_line (set_content initialize_state ["foo bar"])
           "foo bar" None 0%nat).
  - vm_compute. repeat split; congruence.
  - reflexivity.
  - reflexivity.
Defined.

(* ================================================================== *)
(** ** Whole lines *)

Lemma delitem_llen {A : Type} (l doc : list A) (i : Z) :
  0 <= i -> Py.delitem l i = Ok doc -> Py.llen doc = Py.llen l - 1.
Proof.
  intros Hi H. unfold Py.delitem, Py.index in H.
  destruct (Z.ltb_spec i 0); [lia|].
  destruct (Z.ltb_spec i (Py.llen l)) as [Hlt|]; [|discriminate].
  assert (Hd : doc = firstn (Z.to_nat i) l ++ skipn (S (Z.to_nat i)) l) by congruence.
  subst doc. unfold Py.llen in *.
  rewrite length_app, length_firstn, length_skipn. lia.
Qed.

(** The dispatch of dd on a non-empty document under a valid cursor. *)
Lemma dispatch_delete_line (fuel : nat) (s : state) (doc : list string)
      (arg : option string) :
  cursor_inv s ->
  Py.delitem (content s) (current_line s) = Ok doc ->
  exists s',
    handle_command (S fuel) s "dd" arg = Ok s' /\
    cursor_inv s' /\
    content s' = doc /\
    clipboard s' = clipboard s /\
    current_line s' = Z.min (current_line s) (Z.max 0 (Py.llen doc - 1)).
Proof.
  intros Hinv Hdel.
  destruct (cursor_inv_bounds s Hinv) as [Hl _].
  assert (Ht : Py.list_truthy (content s) = true).
  { destruct (content s); [|reflexivity].
    unfold Py.delitem, Py.index in Hdel. change (Py.llen (@nil string)) with 0 in Hdel.
    destruct (Z.ltb_spec (current_line s) 0); [lia|].
    destruct (Z.ltb_spec (current_line s) 0); [lia|discriminate]. }
  pose proof (delitem_llen _ _ _ (proj1 Hl) Hdel) as Hlen.
  set (line' := if Py.list_truthy doc
                then Z.max 0 (Z.min (current_line s) (Py.llen doc - 1)) else 0).
  assert (Hline' : line' = Z.min (current_line s) (Z.max 0 (Py.llen doc - 1))).
  { unfold line'. destruct doc as [|d doc'].
    - cbn. lia.
    - cbn [Py.list_truthy].
      assert (0 < Py.llen (d :: doc')) by (unfold Py.llen; cbn; lia). lia. }
  assert (Hv : handle_dd (save_state s) arg
               = Ok (record_command
                       (set_current_line (set_content (save_state s) doc) line')
                       ("dd", None))).
  { unfold handle_dd.
    change (content (save_state s)) with (content s).
    change (current_line (save_state s)) with (current_line s).
    rewrite Ht, Hdel. reflexivity. }
  destruct (dispatch_fields fuel s _ "dd" arg handle_dd
              eq_refl eq_refl eq_refl eq_refl Hv)
    as (s' & Hrun & Hinv' & Hc' & Hb' & Hl' & _).
  cbn in Hc', Hb', Hl'.
  rewrite clamped_line_valid in Hl' by (rewrite Hline'; lia).
  exists s'. repeat (split; [assumption|]). congruence.
Qed.

Lemma delitem_items {A : Type} (l doc : list A) (i : Z) :
  0 <= i -> Py.delitem l i = Ok doc ->
  (forall j, 0 <= j < i -> Py.getitem doc j = Py.getitem l j) /\
  (forall j, i <= j -> Py.getitem doc j = Py.getitem l (j + 1)).
Proof.
  intros Hi H. pose proof (delitem_llen _ _ _ Hi H) as Hlen.
  unfold Py.delitem, Py.index in H.
  destruct (Z.ltb_spec i 0); [lia|].
  destruct (Z.ltb_spec i (Py.llen l)) as [Hlt|]; [|discriminate].
  assert (Hd : doc = firstn (Z.to_nat i) l ++ skipn (S (Z.to_nat i)) l) by congruence.
  clear H. set (k := Z.to_nat i) in *.
  assert (Hk : (k < List.length l)%nat) by (unfold Py.llen in Hlt; lia).
  assert (Hf : List.length (firstn k l) = k) by (rewrite length_firstn; lia).
  split; intros j Hj; unfold Py.getitem, Py.index; rewrite Hlen.
  - destruct (Z.ltb_spec j 0); [lia|].
    destruct (Z.ltb_spec j (Py.llen l - 1)); destruct (Z.ltb_spec j (Py.llen l));
      try lia.
    rewrite Hd, nth_error_app1 by (rewrite Hf; lia).
    rewrite nth_error_firstn.
    destruct (Nat.ltb_spec (Z.to_nat j) k); [reflexivity|lia].
  - destruct (Z.ltb_spec j 0); [lia|]. destruct (Z.ltb_spec (j + 1) 0); [lia|].
    destruct (Z.ltb_spec j (Py.llen l - 1));
      destruct (Z.ltb_spec (j + 1) (Py.llen l)); try lia; [|reflexivity].
    rewrite Hd, nth_error_app2 by (rewrite Hf; lia).
    rewrite Hf, nth_error_skipn.
    replace (S k + (Z.to_nat j - k))%nat with (Z.to_nat (j + 1)) by lia.
    reflexivity.
Qed.

(** X21.  With a valid cursor on a line of the document, dd removes that
    line and nothing else: the lines before it stay, the lines after it
    move up by one.  The line cursor stays on the same index, or moves to
    the new last line when the last line was deleted.  The clipboard is not
    written: dd does not copy the line it deletes. *)
Theorem delete_line_removes_current
        (s : state) (line : string) (arg : option string) (fuel : nat)
        (Hinv : cursor_inv s)
        (Hline : Py.getitem (content s) (current_line s) = Ok line) :
  exists s',
    handle_command (S fuel) s "dd" arg = Ok s' /\
    Py.llen (content s') = Py.llen (content s) - 1 /\
    (forall j, 0 <= j < current_line s ->
               Py.getitem (content s') j = Py.getitem (content s) j) /\
    (forall j, current_line s <= j ->
               Py.getitem (content s') j = Py.getitem (content s) (j + 1)) /\
    current_line s' = Z.min (current_line s) (Z.max 0 (Py.llen (content s) - 2)) /\
    clipboard s' = clipboard s.
Proof.
  destruct (getitem_ok_delitem_ok _ _ _ Hline) as (doc & Hdel).
  destruct (cursor_inv_bounds s Hinv) as [Hl _].
  pose proof (delitem_llen _ _ _ (proj1 Hl) Hdel) as Hlen.
  destruct (delitem_items _ _ _ (proj1 Hl) Hdel) as [Hbefore Hafter].
  destruct (dispatch_delete_line fuel s doc arg Hinv Hdel)
    as (s' & Hrun & _ & Hc & Hb & Hcl).
  exists s'. rewrite Hc. repeat (split; [assumption|]).
  split; [|exact Hb]. rewrite Hcl, Hlen. f_equal. f_equal. lia.
Qed.

Lemma delete_line_removes_current_witness :
  exists s',
    handle_command 1 (set_content initialize_state ["a"; "b"]) "dd" None = Ok s' /\
    Py.llen (content s') = Py.llen (content (set_content initialize_state ["a"; "b"])) - 1 /\
    (forall j, 0 <= j < current_line (set_content initialize_state ["a"; "b"]) ->
               Py.getitem (content s') j
               = Py.getitem (content (set_content initialize_state ["a"; "b"])) j) /\
    (forall j, current_line (set_content initialize_state ["a"; "b"]) <= j ->
               Py.getitem (content s') j
               = Py.getitem (content (set_content initialize_state ["a"; "b"])) (j + 1)) /\
    current_line s'
    = Z.min (current_line (set_content initialize_state ["a"; "b"]))
        (Z.max 0 (Py.llen (content (set_content initialize_state ["a"; "b"])) - 2)) /\
    clipboard s' = clipboard (set_content initialize_state ["a"; "b"]).
Proof.
  apply (delete_line_removes_current (set_content initialize_state ["a"; "b"])
           "a" None 0%nat).
  - vm_compute. repeat split; congruence.
  - reflexivity.
Defined.

(** The dispatch of o, O, p and P under a valid cursor: one line [v] goes
    in at index [idx] (the cursor line for O and P, the next one for o and
    p), and the cursor lands on it. *)
Lemma dispatch_new_line (fuel : nat) (s : state) (cmd v : string) (idx : Z)
      (arg : option string) :
  cursor_inv s ->
  (cmd = "O" /\ idx = current_line s /\ v = EmptyString) \/
  (cmd = "o" /\ idx = current_line s + 1 /\ v = EmptyString) \/
  (cmd = "P" /\ idx = current_line s /\ clipboard s = Some v) \/
  (cmd = "p" /\ idx = current_line s + 1 /\ clipboard s = Some v) ->
  exists s',
    handle_command (S fuel) s cmd arg = Ok s' /\
    cursor_inv s' /\
    content s' = Py.insert (content s) idx v /\
    clipboard s' = clipboard s /\
    current_line s' = Z.of_nat (Py.slice_bound (Py.llen (content s)) idx) /\
    current_line s' = Z.min idx (Py.llen (content s)).
Proof.
  intros Hinv Hcmd.
  destruct (cursor_inv_bounds s Hinv) as [Hl _].
  pose proof (llen_insert (content s) idx v) as Hlen.
  assert (Hn : 0 <= Py.llen (content s)) by (unfold Py.llen; lia).
  assert (Hidx : 0 <= idx) by (destruct Hcmd as [H|[H|[H|H]]]; lia).
  assert (Hsb : Z.of_nat (Py.slice_bound (Py.llen (content s)) idx)
                = Z.min idx (Py.llen (content s))).
  { unfold Py.slice_bound. destruct (Z.ltb_spec idx 0); lia. }
  assert (Hfin : forall h s2,
             no_snapshot cmd = false -> in_command_map cmd = true ->
             String.eqb cmd "r" = false ->
             command_map (handle_command fuel) cmd = Some h ->
             h (save_state s) arg = Ok s2 ->
             content s2 = Py.insert (content s) idx v ->
             clipboard s2 = clipboard s ->
             current_line s2 = idx ->
             exists s',
               handle_command (S fuel) s cmd arg = Ok s' /\
               cursor_inv s' /\
               content s' = Py.insert (content s) idx v /\
               clipboard s' = clipboard s /\
               current_line s' = Z.of_nat (Py.slice_bound (Py.llen (content s)) idx) /\
               current_line s' = Z.min idx (Py.llen (content s))).
  { intros h s2 Hns Hm Hrr Hh Hv Hc2 Hb2 Hl2.
    destruct (dispatch_fields fuel s s2 cmd arg h Hns Hh Hm Hrr Hv)
      as (s' & Hrun & Hinv' & Hc' & Hb' & Hl' & _).
    rewrite Hc2, Hl2 in Hl'. unfold clamped_line in Hl'. rewrite Hlen in Hl'.
    destruct (Z.ltb_spec 0 (Py.llen (content s) + 1)); [|lia].
    exists s'. repeat (split; [congruence|]). split; [rewrite Hsb|]; lia. }
  destruct Hcmd as [(-> & -> & ->)|[(-> & -> & ->)|[(-> & -> & Hclip)|(-> & -> & Hclip)]]].
  - eapply Hfin; reflexivity.
  - eapply Hfin; reflexivity.
  - apply (Hfin (fun s a => handle_paste s true)
             (record_command
                (set_content (save_state s) (Py.insert (content s) (current_line s) v))
                ("P", None))); try reflexivity.
    cbv beta. unfold handle_paste.
    change (clipboard (save_state s)) with (clipboard s). rewrite Hclip. reflexivity.
  - apply (Hfin (fun s a => handle_paste s false)
             (record_command
                (set_current_line
                   (set_content (save_state s)
                      (Py.insert (content s) (current_line s + 1) v))
                   (current_line s + 1))
                ("p", None))); try reflexivity.
    cbv beta. unfold handle_paste.
    change (clipboard (save_state s)) with (clipboard s). rewrite Hclip. reflexivity.
Qed.

(** X22.  With a valid cursor, o and O add exactly one empty line to the
    document, below the cursor line for o and at the cursor line (pushing
    it down) for O, and leave the cursor on the new line at column 0. *)
Theorem open_line_adds_empty_line
        (s : state) (cmd : string) (idx : Z) (arg : option string) (fuel : nat)
        (Hinv : cursor_inv s)
        (Hcmd : (cmd = "O" /\ idx = current_line s) \/
                (cmd = "o" /\ idx = current_line s + 1)) :
  exists s',
    handle_command (S fuel) s cmd arg = Ok s' /\
    content s' = Py.insert (content s) idx EmptyString /\
    Py.llen (content s') = Py.llen (content s) + 1 /\
    current_line s' = Z.min idx (Py.llen (content s)) /\
    Py.getitem (content s') (current_line s') = Ok EmptyString /\
    current_row s' = 0.
Proof.
  destruct (dispatch_new_line fuel s cmd EmptyString idx arg Hinv)
    as (s' & Hrun & Hinv' & Hc & _ & Hl & Hl').
  { destruct Hcmd as [[-> ->]|[-> ->]]; [left|right; left]; repeat split. }
  assert (Hg : Py.getitem (content s') (current_line s') = Ok EmptyString)
    by (rewrite Hc, Hl; apply getitem_insert).
  exists s'. split; [exact Hrun|]. split; [exact Hc|].
  split; [rewrite Hc; apply llen_insert|]. split; [exact Hl'|].
  split; [exact Hg|].
  destruct (cursor_inv_bounds s' Hinv') as [_ Hr].
  unfold line_length_at in Hr. rewrite Hg in Hr.
  change (Py.len EmptyString) with 0 in Hr. lia.
Qed.

Lemma open_line_adds_empty_line_witness :
  exists s',
    handle_command 1 (set_content initialize_state ["abc"]) "o" None = Ok s' /\
    content s' = Py.insert (content (set_content initialize_state ["abc"])) 1
                   EmptyString /\
    Py.llen (content s') = Py.llen (content (set_content initialize_state ["abc"])) + 1 /\
    current_line s' = Z.min 1 (Py.llen (content (set_content initialize_state ["abc"]))) /\
    Py.getitem (content s') (current_line s') = Ok EmptyString /\
    current_row s' = 0.
Proof.
  apply (open_line_adds_empty_line (set_content initialize_state ["abc"])
           "o" 1 None 0%nat).
  - vm_compute. repeat split; congruence.
  - right. split; reflexivity.
Defined.

(** X23.  With a valid cursor on a line of the document, yy stores that
    line in the clipboard and changes nothing else of document and cursor;
    a following p (P) adds exactly one line, equal to the yanked one, below
    (at) the cursor line, and leaves the line cursor on the pasted line. *)
Theorem yank_then_paste_line
        (s : state) (line cmd : string) (idx : Z) (arg arg' : option string)
        (fuel : nat)
        (Hinv : cursor_inv s)
        (Hline : Py.getitem (content s) (current_line s) = Ok line)
        (Hcmd : (cmd = "P" /\ idx = current_line s) \/
                (cmd = "p" /\ idx = current_line s + 1)) :
  exists s1 s2,
    handle_command (S fuel) s "yy" arg = Ok s1 /\
    clipboard s1 = Some line /\
    content s1 = content s /\
    current_line s1 = current_line s /\
    current_row s1 = current_row s /\
    handle_command (S fuel) s1 cmd arg' = Ok s2 /\
    content s2 = Py.insert (content s) idx line /\
    current_line s2 = idx /\
    Py.getitem (content s2) idx = Ok line /\
    clipboard s2 = Some line.
Proof.
  set (t := set_clipboard (save_state s) (Some line)).
  assert (Hv : handle_yy (save_state s) arg = Ok t).
  { unfold handle_yy. change (content (save_state s)) with (content s).
    change (current_line (save_state s)) with (current_line s).
    rewrite (getitem_ok_truthy _ _ _ Hline), Hline. reflexivity. }
  assert (H1 : handle_command (S fuel) s "yy" arg
               = Ok (record_command (clamped t) ("yy", arg)))
    by (eapply dispatch_value; try reflexivity; exact Hv).
  rewrite (clamped_valid t Hinv) in H1.
  set (s1 := record_command t ("yy", arg)) in *.
  assert (Hinv1 : cursor_inv s1) by exact Hinv.
  destruct (current_line_ok s Hinv (getitem_ok_truthy _ _ _ Hline))
    as (_ & _ & Hl & _).
  destruct (dispatch_new_line fuel s1 cmd line idx arg' Hinv1)
    as (s2 & Hrun & _ & Hc & Hb & Hsl & Hl2).
  { destruct Hcmd as [[-> ->]|[-> ->]]; [right; right; left|right; right; right];
      repeat split. }
  change (content s1) with (content s) in *.
  change (clipboard s1) with (Some line) in Hb.
  assert (Hidx : current_line s2 = idx)
    by (rewrite Hl2; destruct Hcmd as [[_ ->]|[_ ->]]; lia).
  exists s1, s2. repeat (split; [first [reflexivity|assumption]|]).
  split; [|exact Hb].
  rewrite Hc. rewrite <- Hidx at 2. rewrite Hsl. apply getitem_insert.
Qed.

Lemma yank_then_paste_line_witness :
  exists s1 s2,
    handle_command 1 (set_content initialize_state ["abc"]) "yy" None = Ok s1 /\
    clipboard s1 = Some "abc" /\
    content s1 = content (set_content initialize_state ["abc"]) /\
    current_line s1 = current_line (set_content initialize_state ["abc"]) /\
    current_row s1 = current_row (set_content initialize_state ["abc"]) /\
    handle_command 1 s1 "P" None = Ok s2 /\
    content s2 = Py.insert (content (set_content initialize_state ["abc"])) 0 "abc" /\
    current_line s2 = 0 /\
    Py.getitem (content s2) 0 = Ok "abc" /\
    clipboard s2 = Some "abc".
Proof.
  apply (yank_then_paste_line (set_content initialize_state ["abc"])
           "abc" "P" 0 None None 0%nat).
  - vm_compute. repeat split; congruence.
  - reflexivity.
  - left. split; reflexivity.
Defined.

(** X24.  Adding a line and deleting the line under the cursor cancel:
    with a valid cursor, o or O (or, with a line in the clipboard, p or P)
    followed by dd gives back the document, and the clipboard is as it
    was. *)
Theorem new_line_then_delete
        (s : state) (cmd : string) (arg arg' : option string) (fuel : nat)
        (Hinv : cursor_inv s)
        (Hcmd : cmd = "o" \/ cmd = "O" \/
                ((cmd = "p" \/ cmd = "P") /\ clipboard s <> None)) :
  exists s1 s2,
    handle_command (S fuel) s cmd arg = Ok s1 /\
    Py.llen (content s1) = Py.llen (content s) + 1 /\
    handle_command (S fuel) s1 "dd" arg' = Ok s2 /\
    content s2 = content s /\
    clipboard s2 = clipboard s.
Proof.
  assert (Hnew : exists v idx s1,
             handle_command (S fuel) s cmd arg = Ok s1 /\ cursor_inv s1 /\
             content s1 = Py.insert (content s) idx v /\
             clipboard s1 = clipboard s /\
             current_line s1 = Z.of_nat (Py.slice_bound (Py.llen (content s)) idx)).
  { destruct Hcmd as [->|[->|[[->| ->] Hclip]]].
    - destruct (dispatch_new_line fuel s "o" EmptyString (current_line s + 1) arg Hinv)
        as (s1 & H1 & H2 & H3 & H4 & H5 & _); [right; left; repeat split|].
      exists EmptyString, (current_line s + 1), s1. auto.
    - destruct (dispatch_new_line fuel s "O" EmptyString (current_line s) arg Hinv)
        as (s1 & H1 & H2 & H3 & H4 & H5 & _); [left; repeat split|].
      exists EmptyString, (current_line s), s1. auto.
    - destruct (clipboard s) as [clip|] eqn:Ec; [|contradiction].
      destruct (dispatch_new_line fuel s "p" clip (current_line s + 1) arg Hinv)
        as (s1 & H1 & H2 & H3 & H4 & H5 & _);
        [right; right; right; repeat split; exact Ec|].
      exists clip, (current_line s + 1), s1. rewrite <- Ec. auto.
    - destruct (clipboard s) as [clip|] eqn:Ec; [|contradiction].
      destruct (dispatch_new_line fuel s "P" clip (current_line s) arg Hinv)
        as (s1 & H1 & H2 & H3 & H4 & H5 & _);
        [right; right; left; repeat split; exact Ec|].
      exists clip, (current_line s), s1. rewrite <- Ec. auto. }
  destruct Hnew as (v & idx & s1 & Hrun & Hinv1 & Hc & Hb & Hl).
  assert (Hdel : Py.delitem (content s1) (current_line s1) = Ok (content s))
    by (rewrite Hc, Hl; apply delitem_insert).
  destruct (dispatch_delete_line fuel s1 (content s) arg' Hinv1 Hdel)
    as (s2 & Hrun2 & _ & Hc2 & Hb2 & _).
  exists s1, s2. split; [exact Hrun|].
  split; [rewrite Hc; apply llen_insert|]. split; [exact Hrun2|].
  split; [exact Hc2|congruence].
Qed.

Lemma new_line_then_delete_witness :
  exists s1 s2,
    handle_command 1 initialize_state "o" None = Ok s1 /\
    Py.llen (content s1) = Py.llen (content initialize_state) + 1 /\
    handle_command 1 s1 "dd" None = Ok s2 /\
    content s2 = content initialize_state /\
    clipboard s2 = clipboard initialize_state.
Proof.
  apply (new_line_then_delete initialize_state "o" None None 0%nat).
  - exact (proj1 initialize_state_inv).
  - left. reflexivity.
Defined.

(* ================================================================== *)
(** ** Rendering *)

Lemma render_cursor_segment_cases (s : state) (line : string) (pos : Z) :
  0 <= pos < Py.len line ->
  exists c,
    Py.char_at line pos = Ok c /\
    line = (Py.upto line pos ++ String c (Py.from line (pos + 1)))%string /\
    render_cursor_segment s line pos
    = Ok (Py.upto line pos ++ cursor_highlight s ++ String c EmptyString
          ++ cursor_reset s ++ Py.from line (pos + 1))%string.
Proof.
  intros Hpos. destruct (char_at_in_range line pos Hpos) as (c & Hc).
  destruct (char_at_split line pos c (proj1 Hpos) Hc) as [_ Hsplit].
  exists c. split; [exact Hc|]. split; [exact Hsplit|].
  unfold render_cursor_segment.
  rewrite (proj2 (len_truthy line)) by lia. cbn [negb].
  rewrite Hc. cbn [bind].
  replace (Z.min pos (Py.len line - 1)) with pos by lia. reflexivity.
Qed.

(** X25.  [render_cursor_segment] gives the empty string for an empty
    line.  For a cursor position inside a non-empty line it returns the
    line with the highlight sequence put before the character at that
    position and the reset sequence after it, and nothing else changed.  A
    position at or beyond the length of a non-empty line raises
    [IndexError]: the position is clamped for the part before the cursor
    only. *)
Theorem render_marks_cursor_character (s : state) (line : string) (pos : Z) :
  render_cursor_segment s EmptyString pos = Ok EmptyString /\
  (0 <= pos < Py.len line ->
   exists c,
     Py.char_at line pos = Ok c /\
     line = (Py.upto line pos ++ String c (Py.from line (pos + 1)))%string /\
     render_cursor_segment s line pos
     = Ok (Py.upto line pos ++ cursor_highlight s ++ String c EmptyString
           ++ cursor_reset s ++ Py.from line (pos + 1))%string) /\
  (0 < Py.len line -> Py.len line <= pos ->
   render_cursor_segment s line pos = Raise IndexError).
Proof.
  split; [reflexivity|]. split; [apply render_cursor_segment_cases|].
  intros Hne Hge. unfold render_cursor_segment.
  rewrite (proj2 (len_truthy line) Hne). cbn [negb].
  unfold Py.char_at, Py.index.
  destruct (Z.ltb_spec pos 0); [lia|].
  destruct (Z.ltb_spec pos (Py.len line)); [lia|]. reflexivity.
Qed.

Lemma render_marks_cursor_character_witness :
  render_cursor_segment initialize_state EmptyString 1 = Ok EmptyString /\
  (0 <= 1 < Py.len "abc" ->
   exists c,
     Py.char_at "abc" 1 = Ok c /\
     "abc" = (Py.upto "abc" 1 ++ String c (Py.from "abc" (1 + 1)))%string /\
     render_cursor_segment initialize_state "abc" 1
     = Ok (Py.upto "abc" 1 ++ cursor_highlight initialize_state
           ++ String c EmptyString
           ++ cursor_reset initialize_state ++ Py.from "abc" (1 + 1))%string) /\
  (0 < Py.len "abc" -> Py.len "abc" <= 1 ->
   render_cursor_segment initialize_state "abc" 1 = Raise IndexError).
Proof. exact (render_marks_cursor_character initialize_state "abc" 1). Defined.

Lemma display_lines_total (s : state) (lines : list string) :
  forall idx,
    0 <= idx ->
    (forall line, idx <= current_line s ->
                  nth_error lines (Z.to_nat (current_line s - idx)) = Some line ->
                  0 <= current_row s <= Z.max 0 (Py.len line - 1)) ->
    exists printed,
      display_lines s idx lines = Ok printed /\
      List.length printed = List.length lines.
Proof.
  induction lines as [|l rest IH]; intros idx Hidx Hcur.
  - exists []. split; reflexivity.
  - cbn [display_lines].
    assert (Hpart : exists part,
               (if (idx =? current_line s) && show_row_cursor s
                then render_cursor_segment s l (current_row s)
                else Ok l) = Ok part).
    { destruct (Z.eqb_spec idx (current_line s)) as [He|];
        [|exists l; reflexivity].
      destruct (show_row_cursor s); [|exists l; reflexivity]. cbn [andb].
      assert (Hr : 0 <= current_row s <= Z.max 0 (Py.len l - 1)).
      { apply Hcur; [lia|]. rewrite He, Z.sub_diag. reflexivity. }
      destruct l as [|c l'] eqn:El.
      - exists EmptyString. reflexivity.
      - rewrite <- El in *.
        assert (Hlen : 0 < Py.len l) by (rewrite El; unfold Py.len; cbn; lia).
        destruct (render_cursor_segment_cases s l (current_row s))
          as (ch & _ & _ & Hrender); [lia|].
        eexists. exact Hrender. }
    destruct Hpart as (part & ->). cbn [bind].
    destruct (IH (idx + 1)) as (printed & Hp & Hlen); [lia| |].
    + intros line Hle Hnth. apply Hcur; [lia|].
      replace (Z.to_nat (current_line s - idx))
        with (S (Z.to_nat (current_line s - (idx + 1)))) by lia.
      exact Hnth.
    + rewrite Hp. cbn [bind]. eexists. split; [reflexivity|].
      cbn [List.length]. rewrite Hlen. reflexivity.
Qed.

Lemma display_lines_plain (s : state) (lines : list string) :
  show_line_cursor s = false -> show_row_cursor s = false ->
  forall idx, display_lines s idx lines = Ok lines.
Proof.
  intros Hl Hr. induction lines as [|l rest IH]; intros idx; [reflexivity|].
  cbn [display_lines]. rewrite Hl, Hr, andb_false_r. cbn [andb bind].
  rewrite IH. reflexivity.
Qed.

Lemma display_content_total (s : state) :
  cursor_inv s ->
  exists printed,
    display_content s = Ok printed /\
    List.length printed = List.length (content s).
Proof.
  intros Hinv. unfold display_content.
  destruct (Py.list_truthy (content s)) eqn:Et; cbn [negb].
  - destruct (current_line_ok s Hinv Et) as (line & Hg & Hl & Hr).
    destruct (getitem_nth _ _ _ (proj1 Hl) Hg) as [_ Hnth].
    apply display_lines_total; [lia|].
    intros line' _ Hnth'. rewrite Z.sub_0_r, Hnth in Hnth'.
    injection Hnth' as <-. exact Hr.
  - destruct (content s); [|discriminate]. exists []. split; reflexivity.
Qed.

(** X26.  With a valid cursor [display_content] never raises and prints
    exactly one line per line of the document (nothing for the empty
    document); with both markers switched off it prints the document as it
    is. *)
Theorem display_content_prints_document (s : state) (Hinv : cursor_inv s) :
  exists printed,
    display_content s = Ok printed /\
    List.length printed = List.length (content s) /\
    (show_line_cursor s = false -> show_row_cursor s = false ->
     printed = content s).
Proof.
  destruct (display_content_total s Hinv) as (printed & Hp & Hlen).
  exists printed. split; [exact Hp|]. split; [exact Hlen|].
  intros Hl Hr. unfold display_content in Hp.
  destruct (Py.list_truthy (content s)) eqn:Et; cbn [negb] in Hp.
  - rewrite (display_lines_plain s (content s) Hl Hr) in Hp. congruence.
  - destruct (content s); [congruence|discriminate].
Qed.

Lemma display_content_prints_document_witness :
  exists printed,
    display_content
      (set_show_row_cursor
         (set_current_row (set_content initialize_state ["abc"; "de"]) 1) true)
    = Ok printed /\
    List.length printed
    = List.length
        (content
           (set_show_row_cursor
              (set_current_row (set_content initialize_state ["abc"; "de"]) 1) true)) /\
    (show_line_cursor
       (set_show_row_cursor
          (set_current_row (set_content initialize_state ["abc"; "de"]) 1) true)
     = false ->
     show_row_cursor
       (set_show_row_cursor
          (set_current_row (set_content initialize_state ["abc"; "de"]) 1) true)
     = false ->
     printed
     = content
         (set_show_row_cursor
            (set_current_row (set_content initialize_state ["abc"; "de"]) 1) true)).
Proof.
  apply (display_content_prints_document
           (set_show_row_cursor
              (set_current_row (set_content initialize_state ["abc"; "de"]) 1) true)).
  vm_compute. repeat split; congruence.
Defined.

(** The same state rendered: the character under the cursor of the first
    line is wrapped in the highlight and reset sequences, the second line
    is printed as it is. *)
Example display_content_marks_cursor :
  display_content
    (set_show_row_cursor
       (set_current_row (set_content initialize_state ["abc"; "de"]) 1) true)
  = Ok [("a" ++ esc ++ "[42m" ++ "b" ++ esc ++ "[0m" ++ "c")%string; "de"].
Proof. reflexivity. Qed.

(* ================================================================== *)
(** ** The command loop *)

Lemma main_loop_safe (fuel : nat) (inputs : list string) :
  forall (s : state) (out : list output),
    reachable s ->
    exists s' out',
      (main_loop (S (S fuel)) inputs s out = Exited s' out' \/
       main_loop (S (S fuel)) inputs s out = InputExhausted s' out') /\
      reachable s'.
Proof.
  induction inputs as [|user_input rest IH]; intros s out Hreach.
  - exists s, (out ++ [Prompt]). split; [right; reflexivity|exact Hreach].
  - cbn [main_loop]. destruct (String.eqb user_input "q").
    { exists s, (out ++ [Prompt]). split; [left; reflexivity|exact Hreach]. }
    destruct (parse_command user_input) as [[cmd|] arg] eqn:Hparse.
    + destruct (String.eqb cmd "?"); [apply IH; exact Hreach|].
      destruct (reachable_inv s Hreach) as [Hinv Hh].
      destruct (dispatch_total fuel s cmd arg Hinv Hh
                  (parse_command_arg_ok _ _ _ Hparse))
        as (s1 & Hrun & Hinv1 & _).
      rewrite Hrun.
      destruct (display_content_total s1 Hinv1) as (printed & Hp & _).
      rewrite Hp. apply IH.
      exact (reach_step s s1 user_input cmd arg _ Hreach Hparse Hrun).
    + apply IH. exact Hreach.
Qed.

(** X27.  The command loop never crashes: on every list of input lines,
    with a recursion budget of two levels, [main] ends by the break on q or
    by running out of input, never with an exception of the engine or of
    the renderer, and the state it ends in is a reachable one. *)
Theorem main_never_crashes (fuel : nat) (inputs : list string) :
  exists s out,
    (main (S (S fuel)) inputs = Exited s out \/
     main (S (S fuel)) inputs = InputExhausted s out) /\
    reachable s /\
    (In "q" inputs -> main (S (S fuel)) inputs = Exited s out).
Proof.
  destruct (main_loop_safe fuel inputs initialize_state [] reach_init)
    as (s & out & Hend & Hreach).
  exists s, out. split; [exact Hend|]. split; [exact Hreach|].
  intros Hq. destruct Hend as [He|He]; [exact He|]. exfalso.
  unfold main in He. revert He Hq.
  generalize initialize_state as s0. generalize (@nil output) as out0.
  induction inputs as [|i rest IH]; intros out0 s0 He Hq; [contradiction|].
  cbn [main_loop] in He.
  destruct (String.eqb_spec i "q") as [->|Hne]; [discriminate|].
  destruct Hq as [Hq|Hq]; [congruence|].
  destruct (parse_command i) as [[cmd|] arg].
  - destruct (String.eqb cmd "?"); [exact (IH _ _ He Hq)|].
    destruct (handle_command (S (S fuel)) s0 cmd arg); try discriminate.
    destruct (display_content a); try discriminate.
    exact (IH _ _ He Hq).
  - exact (IH _ _ He Hq).
Qed.

Lemma main_never_crashes_witness :
  exists s out,
    (main 2 ["ihi"; "q"] = Exited s out \/
     main 2 ["ihi"; "q"] = InputExhausted s out) /\
    reachable s /\
    (In "q" ["ihi"; "q"] -> main 2 ["ihi"; "q"] = Exited s out).
Proof. exact (main_never_crashes 0%nat ["ihi"; "q"]). Defined.

Lemma parse_command_plain_witness :
  parse_command "dd" = (Some "dd", None).
Proof.
  apply (proj2 (parse_command_plain "dd" "dd")). split; [reflexivity|].
  unfold plain_verbs. cbn. tauto.
Defined.

Lemma parse_command_text_witness :
  parse_command "ihi" = (Some "i", Some "hi").
Proof.
  apply (proj2 (parse_command_text "ihi" "i" "hi")).
  split; [left; reflexivity|]. split; [discriminate|reflexivity].
Defined.

(* ================================================================== *)
(** ** Word movement *)

(** X28.  With a valid cursor on a non-empty line, w moves the column to
    the start of the next word of the line when there is one and leaves it
    where it is when the scan reaches the end of the line; it never moves
    left and never leaves the line.  b moves the column to where the
    backward scan stops: never to the right, and onto column 0 or a column
    that follows a whitespace character.  Neither changes the line
    cursor. *)
Theorem word_moves
        (s : state) (line : string) (arg : option string) (fuel : nat)
        (Hinv : cursor_inv s)
        (Hline : Py.getitem (content s) (current_line s) = Ok line)
        (Hne : 0 < Py.len line) :
  (exists p s',
      find_word_boundary line (current_row s) 1 = Ok p /\
      handle_command (S fuel) s "w" arg = Ok s' /\
      current_line s' = current_line s /\
      current_row s' = (if Py.len line <=? p then current_row s else p) /\
      current_row s <= current_row s' < Py.len line /\
      (current_row s' <> current_row s ->
       exists c, Py.char_at line (current_row s') = Ok c /\ Py.isspace c = false)) /\
  (exists p s',
      find_word_boundary line (current_row s) (-1) = Ok p /\
      handle_command (S fuel) s "b" arg = Ok s' /\
      current_line s' = current_line s /\
      current_row s' = p /\
      0 <= p <= current_row s /\
      (0 < p -> exists c, Py.char_at line (p - 1) = Ok c /\ Py.isspace c = true)).
Proof.
  destruct (current_line_ok s Hinv (getitem_ok_truthy _ _ _ Hline))
    as (line' & Hg' & Hl & Hr).
  rewrite Hline in Hg'. injection Hg' as <-.
  destruct (cursor_inv_bounds s Hinv) as [Hcl _].
  assert (Hmove : forall r, 0 <= r < Py.len line ->
             cursor_inv (set_current_row (save_state s) r)).
  { intros r Hrr. split; [exact Hcl|].
    unfold current_line_length. cbn. rewrite Hline. lia. }
  assert (Hfin : forall c d r,
             (c = "w" /\ d = "next") \/ (c = "b" /\ d = "previous") ->
             handle_word_navigation (save_state s) d arg
             = Ok (set_current_row (save_state s) r) ->
             0 <= r < Py.len line ->
             exists s', handle_command (S fuel) s c arg = Ok s' /\
                        current_line s' = current_line s /\ current_row s' = r).
  { intros c d r Hc Hv Hrr.
    assert (Hrun : handle_command (S fuel) s c arg
                   = Ok (record_command (clamped (set_current_row (save_state s) r))
                           (c, arg))).
    { destruct Hc as [[-> ->]|[-> ->]]; eapply dispatch_value;
        try reflexivity; exact Hv. }
    rewrite (clamped_valid _ (Hmove r Hrr)) in Hrun.
    eexists. split; [exact Hrun|]. split; reflexivity. }
  assert (Hwalk : forall d,
             handle_word_navigation (save_state s) d arg
             = (if String.eqb d "next" then next_word (save_state s)
                else if String.eqb d "previous" then previous_word (save_state s)
                     else Ok (save_state s))) by reflexivity.
  split.
  - destruct (find_word_end_lands line (current_row s) ltac:(lia))
      as (p & Hp & Hrange & Hland).
    rewrite <- find_word_boundary_forward in Hp.
    set (r := if Py.len line <=? p then current_row s else p).
    assert (Hrr : 0 <= r < Py.len line)
      by (unfold r; destruct (Z.leb_spec (Py.len line) p); lia).
    destruct (Hfin "w" "next" r) as (s' & Hrun & Hl' & Hr'); [left; auto| |exact Hrr|].
    { rewrite Hwalk. cbn [String.eqb Ascii.eqb Bool.eqb andb]. unfold next_word.
      change (content (save_state s)) with (content s).
      change (current_line (save_state s)) with (current_line s).
      change (current_row (save_state s)) with (current_row s).
      rewrite (getitem_ok_truthy _ _ _ Hline), Hline. cbn [bind negb].
      rewrite (proj2 (len_truthy line) Hne). cbn [negb].
      rewrite Hp. cbn [bind]. fold r.
      rewrite clamp_cursor_value, (clamped_valid _ (Hmove r Hrr)). reflexivity. }
    exists p, s'. split; [exact Hp|]. split; [exact Hrun|]. split; [exact Hl'|].
    split; [exact Hr'|]. rewrite Hr'. unfold r.
    destruct (Z.leb_spec (Py.len line) p); split; try lia.
    intros _. apply Hland. lia.
  - destruct (find_word_boundary_backward_lands line (current_row s) ltac:(lia))
      as (p & Hp & Hrange & Hland).
    assert (Hrr : 0 <= p < Py.len line) by lia.
    destruct (Hfin "b" "previous" p) as (s' & Hrun & Hl' & Hr');
      [right; auto| |exact Hrr|].
    { rewrite Hwalk. cbn [String.eqb Ascii.eqb Bool.eqb andb]. unfold previous_word.
      change (content (save_state s)) with (content s).
      change (current_line (save_state s)) with (current_line s).
      change (current_row (save_state s)) with (current_row s).
      rewrite (getitem_ok_truthy _ _ _ Hline), Hline. cbn [bind negb].
      rewrite (proj2 (len_truthy line) Hne). cbn [negb].
      rewrite Hp. cbn [bind].
      rewrite clamp_cursor_value, (clamped_valid _ (Hmove p Hrr)). reflexivity. }
    exists p, s'. repeat (split; [assumption|]). exact Hland.
Qed.

Lemma word_moves_witness :
  (exists p s',
      find_word_boundary "foo bar"
        (current_row (set_content initialize_state ["foo bar"])) 1 = Ok p /\
      handle_command 1 (set_content initialize_state ["foo bar"]) "w" None = Ok s' /\
      current_line s' = current_line (set_content initialize_state ["foo bar"]) /\
      current_row s'
      = (if Py.len "foo bar" <=? p
         then current_row (set_content initialize_state ["foo bar"]) else p) /\
      current_row (set_content initialize_state ["foo bar"]) <= current_row s'
      < Py.len "foo bar" /\
      (current_row s' <> current_row (set_content initialize_state ["foo bar"]) ->
       exists c, Py.char_at "foo bar" (current_row s') = Ok c /\ Py.isspace c = false)) /\
  (exists p s',
      find_word_boundary "foo bar"
        (current_row (set_content initialize_state ["foo bar"])) (-1) = Ok p /\
      handle_command 1 (set_content initialize_state ["foo bar"]) "b" None = Ok s' /\
      current_line s' = current_line (set_content initialize_state ["foo bar"]) /\
      current_row s' = p /\
      0 <= p <= current_row (set_content initialize_state ["foo bar"]) /\
      (0 < p -> exists c, Py.char_at "foo bar" (p - 1) = Ok c /\ Py.isspace c = true)).
Proof.
  apply (word_moves (set_content initialize_state ["foo bar"]) "foo bar" None 0%nat).
  - vm_compute. repeat split; congruence.
  - reflexivity.
  - reflexivity.
Defined.
